(** * Simple transaction negotiation driver and key-keeper call adapters

    A shallow embedding of [SimpleTransaction] (the creator's
    [CheckAndCompleteParameters], [IsInSafety], [UpdateImpl],
    [SendInvitation], [ConfirmInvitation]) and of the default synchronous
    and asynchronous adapters of [IPrivateKeyKeeper2]; then of the
    creation of the parameters of a split, of [KernelCommon::To] and
    [KernelCommon::From], and of [ThreadedPrivateKeyKeeper], whose worker
    thread, callers and reactor are interleaved step by step.

    - The parameter store of one transaction is a finite map from
      [TxParameterID] to tagged values; the wallet's address book is a
      finite map from [WalletID] to [WalletAddress].
    - [UpdateImpl] runs in a state monad over the store, the shared builder
      and a log; a statement falls through, leaves the function or throws.
      What leaves the record (gateway calls, failures, the next-tip
      request) is appended to the log, in order.
    - [BaseTxBuilder], the wallet database context and the ECC library are
      interfaces ([Class]es): their code is not part of the sources.
    - Logging is left out.  The driver is the code as compiled with
      NDEBUG: an [assert] is kept as a comment.  The one assertion whose
      argument can throw, in [ConfirmInvitation], is also modelled as
      compiled in ([ConfirmInvitation_asserting]). *)

From Stdlib Require Import NArith Lia.
From stdpp Require Import base option list gmap strings.

Open Scope N_scope.

(** ** Scalar data *)

Definition Amount := N.          (* uint64_t *)
Definition Height := N.          (* uint64_t *)
Definition Timestamp := N.       (* uint64_t *)
Definition uintBig := N.         (* 256-bit big-endian integer *)
Definition ByteBuffer := string. (* std::vector<uint8_t>, also std::string *)
Definition AmountList := list Amount.

Definition PeerID := uintBig.
Definition Scalar := uintBig.

Record Point := { m_X : uintBig; m_Y : bool }.

Record Signature := { m_NoncePub : Point; m_k : Scalar }.

Record WalletID := { m_Channel : N; m_Pk : PeerID }.

#[global] Instance Point_eq_dec : EqDecision Point.
Proof. solve_decision. Defined.

#[global] Instance Signature_eq_dec : EqDecision Signature.
Proof. solve_decision. Defined.

#[global] Instance WalletID_eq_dec : EqDecision WalletID.
Proof. solve_decision. Defined.

#[global] Instance WalletID_countable : Countable WalletID.
Proof.
  refine (inj_countable' (fun w => (m_Channel w, m_Pk w))
                         (fun p => {| m_Channel := p.1; m_Pk := p.2 |}) _).
  by intros [].
Defined.

(** ** Enumerations *)

(** Modelled from the spec: the header declaring [SimpleTransaction::State]
    is not part of the sources; these are the negotiation sub-states the
    specification lists, in its order. *)
Module State.
Inductive t :=
| Initial
| Invitation
| InvitationConfirmation
| Registration
| KernelConfirmation.

#[global] Instance eq_dec : EqDecision t.
Proof. solve_decision. Defined.

(** Position of a sub-state in the lifecycle ("state >= Registration"). *)
Definition rank (s : t) : nat :=
  match s with
  | Initial => 0
  | Invitation => 1
  | InvitationConfirmation => 2
  | Registration => 3
  | KernelConfirmation => 4
  end%nat.
End State.

(** Modelled from the spec: the user-visible status of a record. *)
Module TxStatus.
Inductive t :=
| Pending
| InProgress
| Canceled
| Completed
| Failed
| Registering.

#[global] Instance eq_dec : EqDecision t.
Proof. solve_decision. Defined.
End TxStatus.

(** Modelled from the spec: the error taxonomy persisted as
    [InternalFailureReason]. *)
Module TxFailureReason.
Inductive t :=
| NoInputs
| Canceled
| MaxHeightIsUnacceptable
| InvalidPeerSignature
| NoPaymentProof
| InvalidKernelProof
| FailedToSendParameters
| FailedToRegister
| InvalidTransaction
| TransactionExpired
| NotEnoughDataForProof
| KeyKeeperError.

#[global] Instance eq_dec : EqDecision t.
Proof. solve_decision. Defined.
End TxFailureReason.

(** [proto::TxStatus] codes, stored as [uint8_t].  Modelled from the spec:
    the header with their values is outside the sources; the driver only
    compares them. *)
Module proto.
Module TxStatus.
Definition Unspecified : N := 0.
Definition Ok : N := 1.
Definition InvalidContext : N := 2.
Definition InvalidInput : N := 3.
Definition LowFee : N := 4.
Definition TooLarge : N := 5.
End TxStatus.
End proto.

(** ** Parameter identifiers *)

Module TxParameterID.
Inductive t :=
| TransactionType
| IsSender
| Amount
| Fee
| MinHeight
| Message
| MyID
| PeerID
| IsSelfTx
| CreateTime
| AmountList
| Lifetime
| PeerProtoVersion
| PeerMaxHeight
| PeerResponseHeight
| AssetID
| MySecureWalletID
| PeerSecureWalletID
| PeerPublicExcess
| PeerPublicNonce
| PeerSignature
| PeerInputs
| PeerOutputs
| PeerOffset
| PaymentConfirmation
| TransactionRegistered
| KernelProofHeight
| KernelUnconfirmedHeight
| KernelID
| State
| Status
| InternalFailureReason.

#[global] Instance eq_dec : EqDecision t.
Proof. solve_decision. Defined.

Definition all : list t :=
  [ TransactionType; IsSender; Amount; Fee; MinHeight; Message; MyID; PeerID;
    IsSelfTx; CreateTime; AmountList; Lifetime; PeerProtoVersion;
    PeerMaxHeight; PeerResponseHeight; AssetID; MySecureWalletID;
    PeerSecureWalletID; PeerPublicExcess; PeerPublicNonce; PeerSignature;
    PeerInputs; PeerOutputs; PeerOffset; PaymentConfirmation;
    TransactionRegistered; KernelProofHeight; KernelUnconfirmedHeight;
    KernelID; State; Status; InternalFailureReason ].

Definition code (k : t) : nat :=
  match k with
  | TransactionType => 0 | IsSender => 1 | Amount => 2 | Fee => 3
  | MinHeight => 4 | Message => 5 | MyID => 6 | PeerID => 7
  | IsSelfTx => 8 | CreateTime => 9 | AmountList => 10 | Lifetime => 11
  | PeerProtoVersion => 12 | PeerMaxHeight => 13 | PeerResponseHeight => 14
  | AssetID => 15 | MySecureWalletID => 16 | PeerSecureWalletID => 17
  | PeerPublicExcess => 18 | PeerPublicNonce => 19 | PeerSignature => 20
  | PeerInputs => 21 | PeerOutputs => 22 | PeerOffset => 23
  | PaymentConfirmation => 24 | TransactionRegistered => 25
  | KernelProofHeight => 26 | KernelUnconfirmedHeight => 27 | KernelID => 28
  | State => 29 | Status => 30 | InternalFailureReason => 31
  end%nat.

#[global] Instance countable : Countable t.
Proof.
  refine (inj_countable code (fun n => all !! n) _).
  by intros [].
Defined.
End TxParameterID.

(** ** Stored values

    The store keeps serialized buffers and is indifferent to their type; a
    typed read of a buffer written at another type fails like a missing
    key.  A tagged value carries the type it was written at. *)

Inductive Value :=
| VBool (b : bool)
| VU8 (n : N)
| VU32 (n : N)
| VU64 (n : N)
| VAmounts (l : AmountList)
| VBig (h : uintBig)
| VPoint (p : Point)
| VSig (s : Signature)
| VWid (w : WalletID)
| VBlobs (l : list ByteBuffer)
| VBytes (b : ByteBuffer)
| VState (s : State.t)
| VTxStatus (s : TxStatus.t)
| VReason (r : TxFailureReason.t).

Abbreviation Store := (gmap TxParameterID.t Value).

Definition as_bool (v : Value) : option bool :=
  match v with VBool b => Some b | _ => None end.
Definition as_u8 (v : Value) : option N :=
  match v with VU8 n => Some n | _ => None end.
Definition as_u32 (v : Value) : option N :=
  match v with VU32 n => Some n | _ => None end.
Definition as_u64 (v : Value) : option N :=
  match v with VU64 n => Some n | _ => None end.
Definition as_amounts (v : Value) : option AmountList :=
  match v with VAmounts l => Some l | _ => None end.
Definition as_big (v : Value) : option uintBig :=
  match v with VBig h => Some h | _ => None end.
Definition as_sig (v : Value) : option Signature :=
  match v with VSig s => Some s | _ => None end.
Definition as_wid (v : Value) : option WalletID :=
  match v with VWid w => Some w | _ => None end.
Definition as_state (v : Value) : option State.t :=
  match v with VState s => Some s | _ => None end.
Definition as_status (v : Value) : option TxStatus.t :=
  match v with VTxStatus s => Some s | _ => None end.

(** [GetParameter<T>(id, out)]: [None] is the C++ [false]. *)
Definition GetParameter {T} (as_T : Value -> option T)
    (id : TxParameterID.t) (s : Store) : option T :=
  s !! id ≫= as_T.

(** ** Address book *)

Record WalletAddress := {
  m_walletID : WalletID;
  m_label : string;
  m_createTime : Timestamp;
  m_OwnID : N
}.

Abbreviation AddressBook := (gmap WalletID WalletAddress).

Definition getAddress (id : WalletID) (db : AddressBook) : option WalletAddress :=
  db !! id.

Definition saveAddress (a : WalletAddress) (db : AddressBook) : AddressBook :=
  <[m_walletID a := a]> db.

(** Default-constructed [WalletAddress]. *)
Definition WalletAddress_new : WalletAddress :=
  {| m_walletID := {| m_Channel := 0; m_Pk := 0 |};
     m_label := "";
     m_createTime := 0;
     m_OwnID := 0 |}.

Definition set_label (l : string) (a : WalletAddress) : WalletAddress :=
  {| m_walletID := m_walletID a; m_label := l;
     m_createTime := m_createTime a; m_OwnID := m_OwnID a |}.

(** The on-wire transaction, as far as the driver handles it. *)
Record Transaction := {
  tx_Inputs : list ByteBuffer;
  tx_Outputs : list ByteBuffer;
  tx_Kernels : list ByteBuffer;
  tx_Offset : Scalar
}.

(** What the driver and the creator use of the wallet, the node context,
    the serializer and the ECC library, all declared outside the sources.
    [isExpired] and [getTimestamp] are taken at the time of the call;
    [toByteBuffer] is the serializer behind the untyped [GetParameter];
    [PaymentConfirmation_get_Hash] and [Signature_Sign] make up
    [PaymentConfirmation::Sign], and [Signature_IsValid] is the matching
    check. *)
Class Wallet := {
  isOwn : WalletAddress -> bool;
  isExpired : WalletAddress -> bool;
  getTimestamp : Timestamp;
  toByteBuffer : Value -> ByteBuffer;
  IsInitiator : Store -> bool;
  IsExpiredAtTip : Store -> bool;
  Transaction_IsValid : Height -> Transaction -> bool;
  s_ProtoVersion : N;
  Sk2Pk : Scalar -> PeerID * Scalar;
  PaymentConfirmation_get_Hash : uintBig -> Amount -> PeerID -> uintBig;
  Signature_Sign : uintBig -> Scalar -> Signature;
  Signature_IsValid : uintBig -> PeerID -> Signature -> bool
}.

(** ** SimpleTransaction::Creator::CheckAndCompleteParameters *)

Inductive CreatorException :=
| InvalidTransactionParametersException
| AddressExpiredException.

Section Creator.
Context `{!Wallet}.

(** Untyped [GetParameter(id)]: the raw buffer. *)
Definition GetParameterRaw (id : TxParameterID.t) (s : Store) : option ByteBuffer :=
  match s !! id with
  | Some (VBytes b) => Some b
  | Some v => Some (toByteBuffer v)
  | None => None
  end.

Definition CheckAndCompleteParameters (parameters : Store) (db : AddressBook)
    : (CreatorException + Store) * AddressBook :=
  match GetParameter as_wid TxParameterID.PeerID parameters with
  | None => (inl InvalidTransactionParametersException, db)
  | Some peerID =>
    match getAddress peerID db with
    | Some receiverAddr =>
      if isOwn receiverAddr && isExpired receiverAddr
      then (inl AddressExpiredException, db)
      else
        (* update address comment if changed *)
        let '(receiverAddr, db) :=
          match GetParameterRaw TxParameterID.Message parameters with
          | Some messageStr =>
            if bool_decide (messageStr ≠ m_label receiverAddr)
            then let a := set_label messageStr receiverAddr in
                 (a, saveAddress a db)
            else (receiverAddr, db)
          | None => (receiverAddr, db)
          end in
        (inr (<[TxParameterID.IsSelfTx := VBool (isOwn receiverAddr)]> parameters), db)
    | None =>
      let address :=
        {| m_walletID := peerID;
           m_label := m_label WalletAddress_new;
           m_createTime := getTimestamp;
           m_OwnID := m_OwnID WalletAddress_new |} in
      let address :=
        match GetParameterRaw TxParameterID.Message parameters with
        | Some message => set_label message address
        | None => address
        end in
      (inr parameters, saveAddress address db)
    end
  end.
End Creator.

(** ** Collaborators of the negotiation driver *)

Module Key.
Inductive Type_ := Regular | Bbs.
Record ID := { m_Idx : N; m_Type : Type_ }.
End Key.

(** [IPrivateKeyKeeper]: only [get_SbbsKdf()->DeriveKey] is used here. *)
Record KeyKeeper := { SbbsKdf_DeriveKey : Key.ID -> Scalar }.


(** What one [Update] leaves outside the parameter store, in order. *)
Inductive Event :=
| EvSendTxParameters (params : Store)
| EvOnFailed (reason : TxFailureReason.t) (notify : bool)
| EvRegisterTx (transaction : Transaction)
| EvConfirmKernel (kernelID : uintBig)
| EvUpdateOnNextTip
| EvSetCompletedTxCoinStatuses (hProof : Height)
| EvCompleteTx.

(** Interface of [BaseTxBuilder], whose implementation is outside the
    sources.  [B] is the builder's state.  Loaders read parameters into the
    builder; operations may also write parameters; getters are [const].
    A [bool] result is the one the driver branches on. *)
Class BaseTxBuilder (B : Type) := {
  BaseTxBuilder_new : Store -> AmountList -> Amount -> B;
  GetPeerInputsAndOutputs : Store -> B -> bool * B;
  LoadKernel : Store -> B -> bool * B;
  HasKernelID : B -> bool;
  GetInitialTxParams : Store -> B -> bool * B * Store;
  SelectInputs : Store -> B -> unit * B * Store;
  AddChange : Store -> B -> unit * B * Store;
  GenerateNonce : Store -> B -> unit * B * Store;
  GenerateAssetCoin : Amount -> bool -> Store -> B -> unit * B * Store;
  GenerateBeamCoin : Amount -> bool -> Store -> B -> unit * B * Store;
  CreateInputs : Store -> B -> bool * B * Store;
  CreateOutputs : Store -> B -> bool * B * Store;
  GetPeerPublicExcessAndNonce : Store -> B -> bool * B * Store;
  SignSender : bool -> Store -> B -> bool * B * Store;
  SignReceiver : Store -> B -> bool * B * Store;
  UpdateMaxHeight : Store -> B -> bool * B * Store;
  CreateKernel : Store -> B -> unit * B * Store;
  GetPeerSignature : Store -> B -> bool * B * Store;
  IsPeerSignatureValid : B -> bool;
  FinalizeSignature : Store -> B -> unit * B * Store;
  CreateTransaction : Store -> B -> Transaction * B * Store;
  GetAmountList : B -> AmountList;
  GetAmount : B -> Amount;
  GetFee : B -> Amount;
  GetAssetId : B -> N;
  GetMinHeight : B -> Height;
  GetMaxHeight : B -> Height;
  GetLifetime : B -> Height;
  GetPublicExcess : B -> Point;
  GetPublicNonce : B -> Point;
  GetPartialSignature : B -> Scalar;
  GetOffset : B -> Scalar;
  GetInputs : B -> list ByteBuffer;
  GetOutputs : B -> list ByteBuffer;
  GetKernelID : B -> uintBig
}.


(** ** The transaction object *)

Record SimpleTransaction (B : Type) := {
  m_Params : Store;
  m_TxBuilder : option B
}.
Arguments m_Params {B} _.
Arguments m_TxBuilder {B} _.

Record Environment := {
  m_KeyKeeper : option KeyKeeper;
  m_WalletDB : AddressBook;
  (* result of INegotiatorGateway::send_tx_params for a message *)
  gateway_send : Store -> bool
}.

(** State threaded through one [UpdateImpl]. *)
Record Tx (B : Type) := {
  params : Store;
  builder : B;
  log : list Event
}.
Arguments params {B} _.
Arguments builder {B} _.
Arguments log {B} _.

(** Modelled from the spec: [GetMandatoryParameter] is outside the sources;
    it fails with MissingParameter(key). *)
Inductive Exception :=
| MissingParameter (key : TxParameterID.t).

(** A function compiled with its [assert]s goes on, or a failed assertion
    aborts the process. *)
Inductive Checked (A : Type) :=
| Passed (a : A)
| Aborted.
Arguments Passed {A} a.
Arguments Aborted {A}.

(** A statement either falls through with a value, leaves the function
    ([return;]) or throws. *)
Inductive Outcome (A : Type) :=
| Val (a : A)
| Returned
| Thrown (e : Exception).
Arguments Val {A} a.
Arguments Returned {A}.
Arguments Thrown {A} e.

Definition M (B A : Type) : Type := Tx B -> Outcome A * Tx B.

Definition ret {B A} (a : A) : M B A := fun s => (Val a, s).

Definition bind {B A C} (m : M B A) (k : A -> M B C) : M B C :=
  fun s =>
    match m s with
    | (Val a, s') => k a s'
    | (Returned, s') => (Returned, s')
    | (Thrown e, s') => (Thrown e, s')
    end.

#[global] Instance Exception_ret : MRet (sum Exception) := fun A => inr.
#[global] Instance Exception_bind : MBind (sum Exception) :=
  fun A C k m => match m with inl e => inl e | inr a => k a end.

#[global] Instance M_ret {B} : MRet (M B) := fun A => @ret B A.
#[global] Instance M_bind {B} : MBind (M B) := fun A C k m => @bind B A C m k.

Definition return_ {B A} : M B A := fun s => (Returned, s).
Definition throw {B A} (e : Exception) : M B A := fun s => (Thrown e, s).

(** [if (c) return;] *)
Definition return_if {B} (c : bool) : M B unit :=
  if c then return_ else ret tt.

Definition when {B} (c : bool) (m : M B unit) : M B unit :=
  if c then m else ret tt.

Definition emit {B} (e : Event) : M B unit :=
  fun s => (Val tt, {| params := params s; builder := builder s;
                       log := log s ++ [e] |}).

Definition GetParam {B T} (as_T : Value -> option T) (id : TxParameterID.t)
    : M B (option T) :=
  fun s => (Val (GetParameter as_T id (params s)), s).

Definition GetMandatoryParameter {T} (as_T : Value -> option T)
    (id : TxParameterID.t) (s : Store) : Exception + T :=
  match GetParameter as_T id s with
  | Some v => inr v
  | None =>
    inl (MissingParameter id)
  end.

Definition SetParameter {B} (id : TxParameterID.t) (v : Value) : M B unit :=
  fun s => (Val tt, {| params := <[id := v]> (params s); builder := builder s;
                       log := log s |}).

(** A read of the parameter store. *)
Definition asks {B A} (f : Store -> A) : M B A :=
  fun s => (Val (f (params s)), s).

(** A [const] query of the builder. *)
Definition ask {B A} (f : B -> A) : M B A :=
  fun s => (Val (f (builder s)), s).

(** A builder loader: reads the store, changes the builder only. *)
Definition load {B A} (f : Store -> B -> A * B) : M B A :=
  fun s => let '(a, b) := f (params s) (builder s) in
           (Val a, {| params := params s; builder := b; log := log s |}).

(** A builder operation. *)
Definition call {B A} (f : Store -> B -> A * B * Store) : M B A :=
  fun s => let '(a, b, p) := f (params s) (builder s) in
           (Val a, {| params := p; builder := b; log := log s |}).

Fixpoint for_each {B A} (l : list A) (body : A -> M B unit) : M B unit :=
  match l with
  | [] => ret tt
  | x :: l' => body x ;; for_each l' body
  end.

Definition GetState (s : Store) : State.t :=
  default State.Initial (GetParameter as_state TxParameterID.State s).

Definition IsInSafety (s : Store) : bool :=
  let txState := GetState s in
  bool_decide (txState = State.KernelConfirmation).

Record PaymentConfirmation := {
  m_KernelID : uintBig;
  m_Sender : PeerID;
  m_Value : Amount;
  m_Signature : Signature
}.

Section Driver.
Context {B : Type} `{!BaseTxBuilder B} `{!Wallet}.
Variable env : Environment.

(** *** Methods inherited from [BaseTransaction] *)

Definition SetState (st : State.t) : M B unit :=
  SetParameter TxParameterID.State (VState st).

Definition UpdateTxDescription (st : TxStatus.t) : M B unit :=
  SetParameter TxParameterID.Status (VTxStatus st).

(** Modelled from the spec: [BaseTransaction::OnFailed] is outside the
    sources.  The record becomes [Failed] and the reason is persisted as
    [InternalFailureReason]; whether the peer is notified and the reserved
    coins are rolled back is left to the receiver of the event. *)
Definition OnFailed (reason : TxFailureReason.t) (notify : bool) : M B unit :=
  emit (EvOnFailed reason notify) ;;
  SetParameter TxParameterID.InternalFailureReason (VReason reason) ;;
  UpdateTxDescription TxStatus.Failed.

(** Modelled from the spec: [BaseTransaction::CheckExpired] is outside the
    sources.  When the tip is past the record's maximum height the record
    fails with [TransactionExpired]. *)
Definition CheckExpired : M B bool :=
  expired ← asks IsExpiredAtTip;
  if (expired : bool)
  then OnFailed TxFailureReason.TransactionExpired false ;; ret true
  else ret false.

(** Modelled from the spec: [BaseTransaction::CompleteTx] is outside the
    sources.  The record becomes [Completed]. *)
Definition CompleteTx : M B unit :=
  emit EvCompleteTx ;; UpdateTxDescription TxStatus.Completed.

Definition SendTxParameters (msg : Store) : M B bool :=
  emit (EvSendTxParameters msg) ;; ret (gateway_send env msg).

Definition ConfirmKernel (kernelID : uintBig) : M B unit :=
  emit (EvConfirmKernel kernelID).

Definition UpdateOnNextTip : M B unit := emit EvUpdateOnNextTip.

Definition register_tx (t : Transaction) : M B unit := emit (EvRegisterTx t).

Definition SetCompletedTxCoinStatuses (h : Height) : M B unit :=
  emit (EvSetCompletedTxCoinStatuses h).

(** *** SimpleTransaction *)

Definition IsSelfTx (s : Store) : Exception + bool :=
  match GetMandatoryParameter as_wid TxParameterID.PeerID s with
  | inl e => inl e
  | inr peerID =>
    inr (match getAddress peerID (m_WalletDB env) with
         | Some address => isOwn address
         | None => false
         end)
  end.

Definition Invitation_params (b : B) (isSender : bool) : Store :=
  <[TxParameterID.AssetID := VU64 (GetAssetId b)]>
  (<[TxParameterID.PeerPublicNonce := VPoint (GetPublicNonce b)]>
  (<[TxParameterID.PeerPublicExcess := VPoint (GetPublicExcess b)]>
  (<[TxParameterID.PeerProtoVersion := VU32 s_ProtoVersion]>
  (<[TxParameterID.IsSender := VBool (negb isSender)]>
  (<[TxParameterID.PeerMaxHeight := VU64 (GetMaxHeight b)]>
  (<[TxParameterID.Lifetime := VU64 (GetLifetime b)]>
  (<[TxParameterID.MinHeight := VU64 (GetMinHeight b)]>
  (<[TxParameterID.Fee := VU64 (GetFee b)]>
  (<[TxParameterID.Amount := VU64 (GetAmount b)]> ∅))))))))).

Definition SendInvitation (isSender : bool) : M B unit :=
  b ← ask id;
  let msg := Invitation_params b isSender in
  sent ← SendTxParameters msg;
  when (negb sent) (OnFailed TxFailureReason.FailedToSendParameters false).

Definition PaymentConfirmation_Sign (sk : Scalar) (pc : PaymentConfirmation)
    : PaymentConfirmation :=
  {| m_KernelID := m_KernelID pc; m_Sender := m_Sender pc;
     m_Value := m_Value pc;
     m_Signature :=
       Signature_Sign
         (PaymentConfirmation_get_Hash (m_KernelID pc) (m_Value pc) (m_Sender pc))
         sk |}.

Definition PaymentConfirmation_IsValid (pk : PeerID) (pc : PaymentConfirmation)
    : bool :=
  Signature_IsValid
    (PaymentConfirmation_get_Hash (m_KernelID pc) (m_Value pc) (m_Sender pc))
    pk (m_Signature pc).

Definition InvitationConfirmation_params (b : B) : Store :=
  <[TxParameterID.PeerOffset := VBig (GetOffset b)]>
  (<[TxParameterID.PeerOutputs := VBlobs (GetOutputs b)]>
  (<[TxParameterID.PeerInputs := VBlobs (GetInputs b)]>
  (<[TxParameterID.PeerMaxHeight := VU64 (GetMaxHeight b)]>
  (<[TxParameterID.PeerPublicNonce := VPoint (GetPublicNonce b)]>
  (<[TxParameterID.PeerSignature := VBig (GetPartialSignature b)]>
  (<[TxParameterID.PeerPublicExcess := VPoint (GetPublicExcess b)]>
  (<[TxParameterID.PeerProtoVersion := VU32 s_ProtoVersion]> ∅))))))).

(** The payment proof the receiver attaches, if any. *)
Definition payment_proof (kk : KeyKeeper) (s : Store) : option Signature :=
  match GetParameter as_sig TxParameterID.PaymentConfirmation s with
  | Some paymentProofSignature => Some paymentProofSignature
  | None =>
    match GetParameter as_wid TxParameterID.PeerID s,
          GetParameter as_wid TxParameterID.MyID s,
          GetParameter as_big TxParameterID.KernelID s,
          GetParameter as_u64 TxParameterID.Amount s with
    | Some widPeer, Some widMy, Some kernelID, Some value =>
      let pc := {| m_KernelID := kernelID; m_Sender := m_Pk widPeer;
                   m_Value := value;
                   m_Signature := {| m_NoncePub := {| m_X := 0; m_Y := false |};
                                     m_k := 0 |} |} in
      match getAddress widMy (m_WalletDB env) with
      | Some waddr =>
        if isOwn waddr then
          let sk := SbbsKdf_DeriveKey kk
                      {| Key.m_Idx := m_OwnID waddr; Key.m_Type := Key.Bbs |} in
          let '(_, sk) := Sk2Pk sk in
          Some (m_Signature (PaymentConfirmation_Sign sk pc))
        else None
      | None => None
      end
    | _, _, _, _ => None
    end
  end.

Definition GetMandatory {T} (as_T : Value -> option T)
    (id : TxParameterID.t) : M B T :=
  r ← asks (GetMandatoryParameter as_T id);
  match r with
  | inl e => throw e
  | inr v => ret v
  end.

(** The message built by [ConfirmInvitation] from the builder [b] and the
    parameters [s], [isSender] being the record's IsSender. *)
Definition InvitationConfirmation_message (kk : KeyKeeper) (b : B)
    (isSender : bool) (s : Store) : Store :=
  let msg := InvitationConfirmation_params b in
  if negb isSender then
    match payment_proof kk s with
    | Some sig => <[TxParameterID.PaymentConfirmation := VSig sig]> msg
    | None => msg
    end
  else msg.

(** [ConfirmInvitation] as compiled with NDEBUG, where the [assert] of
    line 380 expands to nothing; [ConfirmInvitation_asserting] below is
    the function with the assertion compiled in. *)
Definition ConfirmInvitation (kk : KeyKeeper) : M B unit :=
  b ← ask id;
  (* assert(!IsSelfTx()) *)
  isSender ← GetMandatory as_bool TxParameterID.IsSender;
  s ← asks id;
  SendTxParameters (InvitationConfirmation_message kk b isSender s) ;;
  ret tt.

(** [ConfirmInvitation] with [assert(!IsSelfTx())] compiled in.  The
    parameters built before line 380 are local; [IsSelfTx] reads PeerID
    with [GetMandatoryParameter], so the assertion's argument can throw;
    on a self record the assertion fails. *)
Definition ConfirmInvitation_asserting (kk : KeyKeeper) (s : Tx B)
    : Checked (Outcome unit * Tx B) :=
  match IsSelfTx (params s) with
  | inl e => Passed (Thrown e, s)
  | inr isSelfTx =>
    if negb isSelfTx
    then Passed (ConfirmInvitation kk s)
    else Aborted
  end.

Definition NotifyTransactionRegistered : M B unit :=
  let nCode := proto.TxStatus.Ok in
  SendTxParameters {[ TxParameterID.TransactionRegistered := VU8 nCode ]} ;;
  ret tt.

(** Lines 155-212: first entry (coin selection, receiver coins) and the
    inputs and outputs.  Leaves the function while the key keeper is
    busy. *)
Definition prepare (isSender isSelfTx : bool) (txState : State.t)
    : M B unit :=
  hasInitialParams ← call GetInitialTxParams;
  when (negb hasInitialParams && bool_decide (txState = State.Initial))
    (UpdateTxDescription TxStatus.InProgress ;;
     when isSender
       (call SelectInputs ;;
        call AddChange ;;
        call GenerateNonce) ;;
     when (isSelfTx || negb isSender)
       ((* create receiver utxo *)
        amounts ← ask GetAmountList;
        for_each amounts (fun amount =>
          assetId ← ask GetAssetId;
          if negb (assetId =? 0)
          then call (GenerateAssetCoin amount false)
          else call (GenerateBeamCoin amount false)))) ;;
  inProgress ← call CreateInputs;
  return_if inProgress ;;
  inProgress ← call CreateOutputs;
  return_if inProgress.

(** Line 214: [!isSelfTx && !builder.GetPeerPublicExcessAndNonce()]. *)
Definition peer_excess_missing (isSelfTx : bool) : M B bool :=
  if negb isSelfTx
  then got ← call GetPeerPublicExcessAndNonce; ret (negb got)
  else ret false.

(** Lines 216-226. *)
Definition invitation_round (isSender : bool) (txState : State.t)
    : M B unit :=
  (* assert(IsInitiator()) *)
  when (bool_decide (txState = State.Initial))
    (inProgress ← call (SignSender true);
     return_if inProgress ;;
     SendInvitation isSender ;;
     SetState State.Invitation) ;;
  UpdateOnNextTip ;;
  return_.

(** Line 237: [!isSelfTx && !builder.GetPeerSignature()]. *)
Definition peer_signature_missing (isSelfTx : bool) : M B bool :=
  if negb isSelfTx
  then got ← call GetPeerSignature; ret (negb got)
  else ret false.

(** Lines 241-264: invited participant. *)
Definition accept_invitation (kk : KeyKeeper) : M B unit :=
  (* assert(!IsInitiator()) *)
  inProgress ← call SignReceiver;
  return_if inProgress ;;
  UpdateTxDescription TxStatus.Registering ;;
  ConfirmInvitation kk ;;
  nVer ← GetParam as_u32 TxParameterID.PeerProtoVersion;
  match nVer with
  | Some _ =>
    (* for peers with new flow, we assume that after we have responded,
       we have to switch to the state of awaiting for proofs *)
    let nCode := proto.TxStatus.Ok in
    SetParameter TxParameterID.TransactionRegistered (VU8 nCode) ;;
    SetState State.KernelConfirmation ;;
    kernelID ← ask GetKernelID;
    ConfirmKernel kernelID
  | None => SetState State.InvitationConfirmation
  end ;;
  return_.

(** Lines 272-289: own signature, check of the peer's, aggregation. *)
Definition finalize (isSelfTx : bool) : M B unit :=
  inProgress ← (if negb isSelfTx
                then call (SignSender false)
                else call SignReceiver : M B bool);
  return_if inProgress ;;
  initiator ← asks IsInitiator;
  badSignature ← (if (initiator : bool)
                  then valid ← ask IsPeerSignatureValid; ret (negb valid)
                  else ret false);
  when badSignature
    (OnFailed TxFailureReason.InvalidPeerSignature true ;;
     return_) ;;
  call FinalizeSignature.

(** Lines 155-237: up to the kernel; the result tells whether the peer's
    signature is still missing. *)
Definition negotiate (isSender isSelfTx : bool) (txState : State.t)
    : M B bool :=
  prepare isSender isSelfTx txState ;;
  noPeerExcess ← peer_excess_missing isSelfTx;
  when noPeerExcess (invitation_round isSender txState) ;;
  heightOk ← call UpdateMaxHeight;
  when (negb heightOk)
    (OnFailed TxFailureReason.MaxHeightIsUnacceptable true ;;
     return_) ;;
  call CreateKernel ;;
  peer_signature_missing isSelfTx.

(** Lines 147-290: negotiate and sign the kernel.  Falls through when
    the signature has been finalized. *)
Definition sign_kernel (isSender isSelfTx : bool) (txState : State.t)
    : M B unit :=
  (* We don't need key keeper initialized to go on beyond this point *)
  match m_KeyKeeper env with
  | None => (* public wallet *) return_
  | Some kk =>
    noPeerSignature ← negotiate isSender isSelfTx txState;
    when noPeerSignature
      (when (bool_decide (txState = State.Initial)) (accept_invitation kk) ;;
       initiator ← asks IsInitiator;
       return_if initiator) ;;
    finalize isSelfTx
  end.

(** Lines 292-344: registration verdict and kernel proof. *)
Definition register_and_confirm : M B unit :=
  registered ← GetParam as_u8 TxParameterID.TransactionRegistered;
  match registered with
  | None =>
    expired ← CheckExpired;
    return_if expired ;;
    (* Construct transaction *)
    transaction ← call CreateTransaction;
    (* Verify final transaction *)
    minHeight ← ask GetMinHeight;
    if negb (Transaction_IsValid minHeight transaction)
    then OnFailed TxFailureReason.InvalidTransaction true ;; return_
    else
      register_tx transaction ;;
      SetState State.Registration ;;
      return_
  | Some nRegistered =>
    (if bool_decide (proto.TxStatus.InvalidContext = nRegistered)
     then
       (* we have to ensure that this transaction hasn't already added to
          blockchain *)
       lastUnconfirmedHeight ←
         GetParam as_u64 TxParameterID.KernelUnconfirmedHeight;
       match lastUnconfirmedHeight with
       | Some h =>
         when (0 <? h)
           (OnFailed TxFailureReason.FailedToRegister true ;; return_)
       | None => ret tt
       end
     else
       when (bool_decide (proto.TxStatus.Ok ≠ nRegistered))
         (OnFailed TxFailureReason.FailedToRegister true ;; return_)) ;;
    hProof ← asks (fun s => default 0 (GetParameter as_u64 TxParameterID.KernelProofHeight s));
    if hProof =? 0
    then
      SetState State.KernelConfirmation ;;
      kernelID ← ask GetKernelID;
      ConfirmKernel kernelID ;;
      return_
    else
      SetCompletedTxCoinStatuses hProof ;;
      CompleteTx
  end.

(** Check if we already have signed kernel (the condition of line 145,
    with its short-circuit evaluation). *)
Definition kernel_not_signed (isSender : bool) (txState : State.t)
    : M B bool :=
  if isSender
  then loaded ← load LoadKernel; ret (negb loaded)
  else hasId ← ask HasKernelID;
       ret (negb hasId || bool_decide (txState = State.Initial)).

(** Lines 142-290. *)
Definition kernel_stage (isSender isSelfTx : bool) (txState : State.t)
    : M B unit :=
  load GetPeerInputsAndOutputs ;;
  unsigned ← kernel_not_signed isSender txState;
  when unsigned (sign_kernel isSender isSelfTx txState).

Definition UpdateImpl_body (isSender isSelfTx : bool) (txState : State.t)
    : M B unit :=
  kernel_stage isSender isSelfTx txState ;;
  register_and_confirm.

(** The driver state at line 142. *)
Definition entry (tx : SimpleTransaction B) (b : B) : Tx B :=
  {| params := m_Params tx; builder := b; log := [] |}.

(** The driver state at line 147, where the kernel is found unsigned. *)
Definition at_sign_kernel (tx : SimpleTransaction B) (isSender : bool)
    (txState : State.t) (b : B) : Tx B :=
  ((load GetPeerInputsAndOutputs ;; kernel_not_signed isSender txState)
     (entry tx b)).2.

(** Lines 126-140: mandatory reads and the shared builder. *)
Definition UpdateImpl_prologue (tx : SimpleTransaction B)
    : Exception + (bool * bool * State.t * B) :=
  let s := m_Params tx in
  isSender ← GetMandatoryParameter as_bool TxParameterID.IsSender s;
  isSelfTx ← IsSelfTx s;
  let txState := GetState s in
  amoutList ←
    match GetParameter as_amounts TxParameterID.AmountList s with
    | Some l => inr l
    | None =>
      amount ← GetMandatoryParameter as_u64 TxParameterID.Amount s;
      inr [amount]
    end;
  b ← match m_TxBuilder tx with
      | Some b => inr b
      | None =>
        fee ← GetMandatoryParameter as_u64 TxParameterID.Fee s;
        inr (BaseTxBuilder_new s amoutList fee)
      end;
  inr (isSender, isSelfTx, txState, b).

(** [UpdateImpl]: the outcome, the object afterwards and the events of
    this call. *)
Definition UpdateImpl (tx : SimpleTransaction B)
    : Outcome unit * SimpleTransaction B * list Event :=
  match UpdateImpl_prologue tx with
  | inl e => (Thrown e, tx, [])
  | inr (isSender, isSelfTx, txState, b) =>
    let '(r, s) := UpdateImpl_body isSender isSelfTx txState (entry tx b) in
    (r, {| m_Params := params s; m_TxBuilder := Some (builder s) |}, log s)
  end.

Definition ShouldNotifyAboutChanges (paramID : TxParameterID.t) : bool :=
  match paramID with
  | TxParameterID.Amount
  | TxParameterID.Fee
  | TxParameterID.MinHeight
  | TxParameterID.PeerID
  | TxParameterID.MyID
  | TxParameterID.CreateTime
  | TxParameterID.IsSender
  | TxParameterID.Status
  | TxParameterID.TransactionType
  | TxParameterID.KernelID
  | TxParameterID.AssetID => true
  | _ => false
  end.
End Driver.

(** ** Notions used to state the properties *)

Section Notions.
Context {B : Type} `{!BaseTxBuilder B}.

(** What a piece of the driver may append to the log. *)
Definition emits_only (P : Event -> Prop) {A} (m : M B A) : Prop :=
  forall s r s', m s = (r, s') ->
    exists evs, log s' = log s ++ evs /\ Forall P evs.

(** Nothing is appended. *)
Definition silent {A} (m : M B A) : Prop := emits_only (fun _ => False) m.

Definition with_params (p : Store) (s : Tx B) : Tx B :=
  {| params := p; builder := builder s; log := log s |}.

Definition with_event (e : Event) (s : Tx B) : Tx B :=
  {| params := params s; builder := builder s; log := log s ++ [e] |}.

(** The record after [OnFailed reason]. *)
Definition failed_params (reason : TxFailureReason.t) (p : Store) : Store :=
  <[TxParameterID.Status := VTxStatus TxStatus.Failed]>
    (<[TxParameterID.InternalFailureReason := VReason reason]> p).

(** The condition of line 145 on the record [tx] and the builder [b]
    after [GetPeerInputsAndOutputs]. *)
Definition no_signed_kernel (tx : SimpleTransaction B) (isSender : bool)
    (txState : State.t) (b : B) : Prop :=
  let b1 := (GetPeerInputsAndOutputs (m_Params tx) b).2 in
  (isSender = true /\ (LoadKernel (m_Params tx) b1).1 = false) \/
  (isSender = false /\
   (HasKernelID b1 = false \/ txState = State.Initial)).

(** The failure reasons [UpdateImpl] itself can give. *)
Definition UpdateImpl_failure_reasons : list TxFailureReason.t :=
  [ TxFailureReason.MaxHeightIsUnacceptable;
    TxFailureReason.InvalidPeerSignature;
    TxFailureReason.FailedToSendParameters;
    TxFailureReason.TransactionExpired;
    TxFailureReason.InvalidTransaction;
    TxFailureReason.FailedToRegister ].

Definition fails_within (l : list TxFailureReason.t) (e : Event) : Prop :=
  forall reason notify, e = EvOnFailed reason notify -> reason ∈ l.
End Notions.

(** The window in which the specification refuses a cancellation: the
    transaction has been submitted (state at or beyond Registration) and
    the record is not terminal yet. *)
Definition spec_cancel_refused (s : Store) : bool :=
  (State.rank State.Registration <=? State.rank (GetState s))%nat
  && negb (bool_decide
             (GetParameter as_status TxParameterID.Status s ∈
              [Some TxStatus.Completed; Some TxStatus.Failed;
               Some TxStatus.Canceled])).

(** The label the creator gives to a new address book entry: the Message
    parameter when present. *)
Definition new_label `{!Wallet} (parameters : Store) : string :=
  default "" (GetParameterRaw TxParameterID.Message parameters).

(** ** IPrivateKeyKeeper2: the synchronous and the asynchronous shape *)

Module IPrivateKeyKeeper2.

(** Modelled from the spec: the header with [Status::Type] is outside the
    sources; these are the statuses the specification lists. *)
Module Status.
Inductive t := Ok | InProgress | UserAbort | Unspecified | DeviceLost.

#[global] Instance eq_dec : EqDecision t.
Proof. solve_decision. Defined.
End Status.

Section Adapters.
Context {TMethod : Type}.

(** Modelled from the spec: [io::Reactor] is outside the sources.  The
    reactor runs posted callbacks in order until it is stopped.  A
    callback either completes the request the waiting handler was
    created for (it fills the method and calls [OnDone]) or concerns
    somebody else. *)
Inductive Callback :=
| Complete (m : TMethod) (nRes : Status.t)
| Other.

(** [MyHandler] of [InvokeSyncInternal] (a [HandlerSync] with the method
    [m_M]) together with the current reactor. *)
Record World := {
  m_Status : Status.t;
  m_M : TMethod;
  stop_requested : bool;
  posted : list Callback
}.

Definition set_M (m : TMethod) (w : World) : World :=
  {| m_Status := m_Status w; m_M := m;
     stop_requested := stop_requested w; posted := posted w |}.

Definition Reactor_stop (w : World) : World :=
  {| m_Status := m_Status w; m_M := m_M w;
     stop_requested := true; posted := posted w |}.

Definition Reactor_post (c : Callback) (w : World) : World :=
  {| m_Status := m_Status w; m_M := m_M w;
     stop_requested := stop_requested w; posted := posted w ++ [c] |}.

(** [HandlerSync::OnDone] *)
Definition HandlerSync_OnDone (nRes : Status.t) (w : World) : World :=
  Reactor_stop
    {| m_Status := nRes; m_M := m_M w;
       stop_requested := stop_requested w; posted := posted w |}.

Definition exec (c : Callback) (w : World) : World :=
  match c with
  | Complete m nRes => HandlerSync_OnDone nRes (set_M m w)
  | Other => w
  end.

Fixpoint Reactor_run_posted (q : list Callback) (w : World) : World :=
  if stop_requested w
  then {| m_Status := m_Status w; m_M := m_M w;
          stop_requested := false; posted := q |}
  else match q with
       | [] => {| m_Status := m_Status w; m_M := m_M w;
                  stop_requested := false; posted := [] |}
       | c :: q' => Reactor_run_posted q' (exec c w)
       end.

Definition Reactor_run (w : World) : World :=
  Reactor_run_posted (posted w) w.

(** [HandlerSync::Wait] *)
Definition HandlerSync_Wait (w : World) : Status.t * World :=
  let w := Reactor_run w in
  (m_Status w, w).

(** What [std::move] leaves in the method it moves out of.  The move
    assignment of [TMethod] decides it, and the methods are declared
    outside the sources: a member that is a plain value keeps it, a
    vector is left empty. *)
Variable moved_from : TMethod -> TMethod.

(** [InvokeSyncInternal], over the asynchronous shape [InvokeAsync]
    applied to [p->m_M] and [p]; the last two arguments are the
    reactor's state at the call.  The result is the status, the
    caller's method and the handler with the reactor.  The caller's
    method is moved into the handler; it is moved back only when the
    status is not InProgress. *)
Definition InvokeSyncInternal (InvokeAsync : World -> World) (m : TMethod)
    (stop : bool) (q : list Callback)
    : Status.t * TMethod * World :=
  (* p->m_M = std::move(m) *)
  let p := {| m_Status := Status.InProgress; m_M := m;
              stop_requested := stop; posted := q |} in
  let m := moved_from m in
  let p := InvokeAsync p in
  let '(ret, p) := HandlerSync_Wait p in
  if bool_decide (Status.InProgress ≠ ret)
  then (* m = std::move(p->m_M) *)
       (ret, m_M p, set_M (moved_from (m_M p)) p)
  else (ret, m, p).

(** The default [InvokeAsync], over the synchronous shape [InvokeSync]:
    the method afterwards and the handler after its [OnDone]. *)
Definition InvokeAsync {H : Type}
    (InvokeSync : TMethod -> Status.t * TMethod)
    (OnDone : Status.t -> H -> H) (m : TMethod) (p : H) : TMethod * H :=
  let '(res, m) := InvokeSync m in
  (m, OnDone res p).

(** [InvokeAsync(p->m_M, p)] for the handler of [InvokeSyncInternal]:
    the method is the handler's own field. *)
Definition InvokeAsync_on_handler
    (InvokeSync : TMethod -> Status.t * TMethod) (p : World) : World :=
  let '(m, p) := InvokeAsync InvokeSync HandlerSync_OnDone (m_M p) p in
  set_M m p.

(** An asynchronous implementation that completes later: it posts the
    completion to the reactor and returns. *)
Definition InvokeAsync_posting
    (compute : TMethod -> Status.t * TMethod) (p : World) : World :=
  let '(res, m) := compute (m_M p) in
  Reactor_post (Complete m res) p.

(** A handler that records the calls of its [OnDone]. *)
Definition OnDone_recorded (nRes : Status.t) (calls : list Status.t)
    : list Status.t :=
  calls ++ [nRes].
End Adapters.
Arguments Callback : clear implicits.
Arguments World : clear implicits.
End IPrivateKeyKeeper2.

(** ** A scripted builder and a small wallet, for concrete runs *)

Module Scenario.
(** A builder whose answers are fixed in advance and which writes no
    parameters. *)
Record Script := {
  kernel_loaded : bool;
  kernel_id_known : bool;
  initial_params : bool;
  inputs_pending : bool;
  outputs_pending : bool;
  peer_excess : bool;
  sender_pending : bool;
  receiver_pending : bool;
  max_height_ok : bool;
  peer_signature : bool;
  peer_signature_valid : bool;
  amounts : AmountList;
  fee : Amount;
  kernel_id : uintBig
}.

Definition answer {A} (a : A) (p : Store) (b : Script) : A * Script * Store :=
  (a, b, p).

Definition the_transaction : Transaction :=
  {| tx_Inputs := ["in"%string]; tx_Outputs := ["out"%string];
     tx_Kernels := ["krn"%string]; tx_Offset := 3 |}.

#[global] Instance scripted : BaseTxBuilder Script := {|
  BaseTxBuilder_new := fun _ l f =>
    {| kernel_loaded := false; kernel_id_known := false;
       initial_params := false; inputs_pending := false;
       outputs_pending := false; peer_excess := false;
       sender_pending := false; receiver_pending := false;
       max_height_ok := true; peer_signature := false;
       peer_signature_valid := false; amounts := l; fee := f;
       kernel_id := 0 |};
  GetPeerInputsAndOutputs := fun _ b => (true, b);
  LoadKernel := fun _ b => (kernel_loaded b, b);
  HasKernelID := kernel_id_known;
  GetInitialTxParams := fun p b => answer (initial_params b) p b;
  SelectInputs := answer tt;
  AddChange := answer tt;
  GenerateNonce := answer tt;
  GenerateAssetCoin := fun _ _ => answer tt;
  GenerateBeamCoin := fun _ _ => answer tt;
  CreateInputs := fun p b => answer (inputs_pending b) p b;
  CreateOutputs := fun p b => answer (outputs_pending b) p b;
  GetPeerPublicExcessAndNonce := fun p b => answer (peer_excess b) p b;
  SignSender := fun _ p b => answer (sender_pending b) p b;
  SignReceiver := fun p b => answer (receiver_pending b) p b;
  UpdateMaxHeight := fun p b => answer (max_height_ok b) p b;
  CreateKernel := answer tt;
  GetPeerSignature := fun p b => answer (peer_signature b) p b;
  IsPeerSignatureValid := peer_signature_valid;
  FinalizeSignature := answer tt;
  CreateTransaction := answer the_transaction;
  GetAmountList := amounts;
  GetAmount := fun b => foldr N.add 0 (amounts b);
  GetFee := fee;
  GetAssetId := fun _ => 0;
  GetMinHeight := fun _ => 100;
  GetMaxHeight := fun _ => 340;
  GetLifetime := fun _ => 240;
  GetPublicExcess := fun _ => {| m_X := 11; m_Y := false |};
  GetPublicNonce := fun _ => {| m_X := 12; m_Y := true |};
  GetPartialSignature := fun _ => 13;
  GetOffset := fun _ => 14;
  GetInputs := fun _ => [];
  GetOutputs := fun _ => ["out"%string];
  GetKernelID := kernel_id
|}.

(** An address is owned when its [m_OwnID] is not zero and expires a day
    after its creation; the initiator is the sender; no record expires;
    every transaction is valid; a signature of [h] under key [sk] is
    [h + sk] and the public key of [sk] is [sk] itself. *)
#[global] Instance wallet : Wallet := {|
  isOwn := fun a => negb (m_OwnID a =? 0);
  isExpired := fun a => m_createTime a + 86400 <? 500000;
  getTimestamp := 500000;
  toByteBuffer := fun _ => "";
  IsInitiator := fun s =>
    default false (GetParameter as_bool TxParameterID.IsSender s);
  IsExpiredAtTip := fun _ => false;
  Transaction_IsValid := fun _ _ => true;
  s_ProtoVersion := 4;
  Sk2Pk := fun sk => (sk, sk);
  PaymentConfirmation_get_Hash := fun k v s => k + v + s;
  Signature_Sign := fun h sk =>
    {| m_NoncePub := {| m_X := 0; m_Y := false |}; m_k := h + sk |};
  Signature_IsValid := fun h pk sig => m_k sig =? h + pk
|}.

Definition alice : WalletID := {| m_Channel := 1; m_Pk := 1000 |}.
Definition bob : WalletID := {| m_Channel := 2; m_Pk := 2000 |}.

Definition keeper : KeyKeeper :=
  {| SbbsKdf_DeriveKey := fun id => 1995 + Key.m_Idx id |}.

Definition own_address (w : WalletID) (ownID : N) : WalletAddress :=
  {| m_walletID := w; m_label := ""; m_createTime := 0; m_OwnID := ownID |}.

(** Alice's wallet: she owns [alice]; every send succeeds. *)
Definition alice_env : Environment :=
  {| m_KeyKeeper := Some keeper;
     m_WalletDB := {[ alice := own_address alice 1 ]};
     gateway_send := fun _ => true |}.

(** Bob's wallet: he owns [bob]. *)
Definition bob_env (send_ok : bool) : Environment :=
  {| m_KeyKeeper := Some keeper;
     m_WalletDB := {[ bob := own_address bob 5 ]};
     gateway_send := fun _ => send_ok |}.

(** The same wallet without a key keeper. *)
Definition public_env : Environment :=
  {| m_KeyKeeper := None;
     m_WalletDB := {[ alice := own_address alice 1 ]};
     gateway_send := fun _ => true |}.

(** The builder of a two-party send: [loaded] tells whether the signed
    kernel is stored, [answered] whether the peer's excess, nonce and
    signature have arrived, [valid] whether that signature verifies. *)
Definition script (loaded answered valid : bool) : Script :=
  {| kernel_loaded := loaded; kernel_id_known := loaded;
     initial_params := false; inputs_pending := false;
     outputs_pending := false; peer_excess := answered;
     sender_pending := false; receiver_pending := false;
     max_height_ok := true; peer_signature := answered;
     peer_signature_valid := valid; amounts := [1000000]; fee := 100;
     kernel_id := 77 |}.

(** Alice sends 1 000 000 to Bob with fee 100. *)
Definition send_params : Store :=
  <[TxParameterID.IsSender := VBool true]>
  (<[TxParameterID.MyID := VWid alice]>
  (<[TxParameterID.PeerID := VWid bob]>
  (<[TxParameterID.Amount := VU64 1000000]>
  (<[TxParameterID.Fee := VU64 100]> ∅)))).

(** The record as created. *)
Definition send_tx : SimpleTransaction Script :=
  {| m_Params := send_params; m_TxBuilder := Some (script false false false) |}.

(** A signature that verifies for nothing Alice could check. *)
Definition forged : Signature :=
  {| m_NoncePub := {| m_X := 0; m_Y := false |}; m_k := 0 |}.

(** The record after Bob's answer arrived with a valid partial signature
    and a forged payment proof. *)
Definition answered_params : Store :=
  <[TxParameterID.State := VState State.Invitation]>
  (<[TxParameterID.KernelID := VBig 77]>
  (<[TxParameterID.PaymentConfirmation := VSig forged]> send_params)).

Definition answered_tx : SimpleTransaction Script :=
  {| m_Params := answered_params;
     m_TxBuilder := Some (script false true true) |}.

(** The record after submission, with the node's verdict [nRegistered]. *)
Definition registered_tx (nRegistered : N) : SimpleTransaction Script :=
  {| m_Params :=
       <[TxParameterID.TransactionRegistered := VU8 nRegistered]>
       (<[TxParameterID.State := VState State.Registration]> send_params);
     m_TxBuilder := Some (script true true true) |}.

(** Bob's record of the same transfer, after the invitation arrived. *)
Definition receive_params : Store :=
  <[TxParameterID.IsSender := VBool false]>
  (<[TxParameterID.MyID := VWid bob]>
  (<[TxParameterID.PeerID := VWid alice]>
  (<[TxParameterID.Amount := VU64 1000000]>
  (<[TxParameterID.Fee := VU64 100]>
  (<[TxParameterID.KernelID := VBig 77]> ∅))))).

Definition receiver_script : Script :=
  {| kernel_loaded := false; kernel_id_known := true;
     initial_params := false; inputs_pending := false;
     outputs_pending := false; peer_excess := true;
     sender_pending := false; receiver_pending := false;
     max_height_ok := true; peer_signature := false;
     peer_signature_valid := false; amounts := [1000000]; fee := 100;
     kernel_id := 77 |}.

Definition receive_tx : SimpleTransaction Script :=
  {| m_Params := receive_params; m_TxBuilder := Some receiver_script |}.

(** Bob's payment proof for that transfer. *)
Definition bob_proof : Signature :=
  {| m_NoncePub := {| m_X := 0; m_Y := false |};
     m_k := (77 + 1000000 + 1000) + 2000 |}.
(** Bob's record of the same transfer when the amount was recorded as a
    list only. *)
Definition listed_receive_params : Store :=
  <[TxParameterID.AmountList := VAmounts [1000000]]>
    (delete TxParameterID.Amount receive_params).

Definition listed_receive_tx : SimpleTransaction Script :=
  {| m_Params := listed_receive_params; m_TxBuilder := Some receiver_script |}.

(** Alice's address book when she already knows Bob, under the label
    "bob". *)
Definition known_peer_db : AddressBook :=
  {[ bob := {| m_walletID := bob; m_label := "bob"; m_createTime := 7;
               m_OwnID := 0 |} ]}.

(** The same send with the comment "rent". *)
Definition rent_params : Store :=
  <[TxParameterID.Message := VBytes "rent"]> send_params.

(** Alice sends to her own address. *)
Definition self_tx : SimpleTransaction Script :=
  {| m_Params := <[TxParameterID.PeerID := VWid alice]> send_params;
     m_TxBuilder := Some (script false false true) |}.

(** Bob's answer arrived, and the maximum height he asks for is not
    acceptable. *)
Definition late_script : Script :=
  {| kernel_loaded := false; kernel_id_known := false;
     initial_params := false; inputs_pending := false;
     outputs_pending := false; peer_excess := true;
     sender_pending := false; receiver_pending := false;
     max_height_ok := false; peer_signature := true;
     peer_signature_valid := true; amounts := [1000000]; fee := 100;
     kernel_id := 77 |}.

Definition late_tx : SimpleTransaction Script :=
  {| m_Params := answered_params; m_TxBuilder := Some late_script |}.

(** Bob's answer arrived with a partial signature that does not verify. *)
Definition bad_signature_tx : SimpleTransaction Script :=
  {| m_Params := answered_params;
     m_TxBuilder := Some (script false true false) |}.

(** The record after the node accepted the transaction and the kernel was
    found at height 120. *)
Definition confirmed_tx : SimpleTransaction Script :=
  {| m_Params :=
       <[TxParameterID.KernelProofHeight := VU64 120]>
         (m_Params (registered_tx proto.TxStatus.Ok));
     m_TxBuilder := Some (script true true true) |}.
End Scenario.

(** ** Creation of transaction parameters *)

Section Creation.
(** [CreateTransactionParameters] and the value of [TxType::Simple] are
    declared outside the sources. *)
Variable CreateTransactionParameters : N -> option uintBig -> Store.
Variable TxType_Simple : N.

Definition CreateSimpleTransactionParameters (txId : option uintBig) : Store :=
  <[TxParameterID.TransactionType := VU8 TxType_Simple]>
    (CreateTransactionParameters TxType_Simple txId).

(** [std::accumulate] over [Amount], a 64-bit unsigned integer. *)
Definition accumulate (l : AmountList) (init : Amount) : Amount :=
  fold_left (fun acc a => (acc + a) mod 2 ^ 64) l init.

Definition CreateSplitTransactionParameters (myID : WalletID)
    (amountList : AmountList) (txId : option uintBig) : Store :=
  <[TxParameterID.Amount := VU64 (accumulate amountList 0)]>
  (<[TxParameterID.AmountList := VAmounts amountList]>
  (<[TxParameterID.PeerID := VWid myID]>
  (<[TxParameterID.MyID := VWid myID]>
  (CreateSimpleTransactionParameters txId)))).
End Creation.

(** The address book is keyed by the wallet id of its entries. *)
Definition keyed (db : AddressBook) : Prop :=
  forall w a, db !! w = Some a -> m_walletID a = w.

(** ** Notions for the further properties of the driver *)

Definition as_reason (v : Value) : option TxFailureReason.t :=
  match v with VReason r => Some r | _ => None end.

Definition is_send (e : Event) : bool :=
  match e with EvSendTxParameters _ => true | _ => false end.

Definition is_failure (e : Event) : bool :=
  match e with EvOnFailed _ _ => true | _ => false end.

Definition is_register (e : Event) : bool :=
  match e with EvRegisterTx _ => true | _ => false end.

(** What [UpdateImpl] hands to the gateway for the peer or the node's
    mempool. *)
Definition is_outbound (e : Event) : bool := is_send e || is_register e.

Section Discipline.
Context {B : Type} `{!BaseTxBuilder B} `{!Wallet}.

(** A piece of the driver emits at most one event of the class [C]; when
    it does, it does not fall through, and [Q] holds of that event and of
    the state it ends in. *)
Definition once (C : Event -> bool) (Q : Event -> Tx B -> Prop) {A}
    (m : M B A) : Prop :=
  forall s r s', m s = (r, s') ->
    exists evs, log s' = log s ++ evs /\
      (List.filter C evs = [] \/
       ((forall a, r <> Val a) /\
        exists e, List.filter C evs = [e] /\ Q e s')).

(** The failure [e] is the one the record [s] has persisted. *)
Definition failure_persisted (e : Event) (s : Tx B) : Prop :=
  exists reason notify,
    e = EvOnFailed reason notify /\
    GetParameter as_status TxParameterID.Status (params s)
      = Some TxStatus.Failed /\
    GetParameter as_reason TxParameterID.InternalFailureReason (params s)
      = Some reason.

(** The registered transaction [e] is valid at the builder's minimum
    height and the record [s] is in state Registration. *)
Definition registered_valid (e : Event) (s : Tx B) : Prop :=
  exists t,
    e = EvRegisterTx t /\
    Transaction_IsValid (GetMinHeight (builder s)) t = true /\
    GetState (params s) = State.Registration.

(** A submitted transaction is valid, and the record is then in state
    Registration; nothing is asked of a peer message. *)
Definition outbound_ok (e : Event) (s : Tx B) : Prop :=
  is_register e = true -> registered_valid e s.

(** A piece of the driver that falls through has emitted nothing. *)
Definition quiet_through {A} (m : M B A) : Prop :=
  forall s v s', m s = (Val v, s') -> log s' = log s.

(** The first mandatory parameter [UpdateImpl] cannot read, in the order
    it reads them. *)
Definition first_missing (tx : SimpleTransaction B) : option TxParameterID.t :=
  let s := m_Params tx in
  if bool_decide (GetParameter as_bool TxParameterID.IsSender s = None)
  then Some TxParameterID.IsSender
  else if bool_decide (GetParameter as_wid TxParameterID.PeerID s = None)
  then Some TxParameterID.PeerID
  else if bool_decide (GetParameter as_amounts TxParameterID.AmountList s = None)
          && bool_decide (GetParameter as_u64 TxParameterID.Amount s = None)
  then Some TxParameterID.Amount
  else if bool_decide (m_TxBuilder tx = None)
          && bool_decide (GetParameter as_u64 TxParameterID.Fee s = None)
  then Some TxParameterID.Fee
  else None.

(** What every message for the peer carries, and what none does. *)
Definition negotiation_message (e : Event) : Prop :=
  forall msg, e = EvSendTxParameters msg ->
    msg !! TxParameterID.PeerProtoVersion = Some (VU32 s_ProtoVersion) /\
    (exists excess, msg !! TxParameterID.PeerPublicExcess = Some (VPoint excess)) /\
    (exists nonce, msg !! TxParameterID.PeerPublicNonce = Some (VPoint nonce)) /\
    msg !! TxParameterID.TransactionRegistered = None.
End Discipline.

(** ** KernelCommon::To and KernelCommon::From *)

Module KernelCommon.
Section Kernel.
(** [TxKernelStd] is declared outside the sources: it has the four members
    the two functions copy and, in [Rest], whatever else a kernel holds. *)
Context {HeightRange Rest : Type}.

Record TxKernelStd := {
  krn_Commitment : Point;
  krn_Fee : Amount;
  krn_Height : HeightRange;
  krn_Signature : Signature;
  krn_rest : Rest
}.

Record t := {
  m_Commitment : Point;
  m_Fee : Amount;
  m_Height : HeightRange;
  m_Signature : Signature
}.

(** [To] writes into the kernel passed by reference. *)
Definition To (c : t) (krn : TxKernelStd) : TxKernelStd :=
  {| krn_Commitment := m_Commitment c;
     krn_Fee := m_Fee c;
     krn_Height := m_Height c;
     krn_Signature := m_Signature c;
     krn_rest := krn_rest krn |}.

(** [From] overwrites the members of [this]. *)
Definition From (krn : TxKernelStd) (c : t) : t :=
  {| m_Commitment := krn_Commitment krn;
     m_Fee := krn_Fee krn;
     m_Height := krn_Height krn;
     m_Signature := krn_Signature krn |}.
End Kernel.
Arguments TxKernelStd : clear implicits.
Arguments t : clear implicits.
End KernelCommon.

(** ** ThreadedPrivateKeyKeeper

    The worker thread, the callers of [InvokeAsync] and the reactor that
    runs [OnNewOut] are interleaved; what the code does while it holds one
    of the two mutexes is one step. *)

Module ThreadedPrivateKeyKeeper.
Section Threaded.
(** [Handler] stands for [Handler::Ptr], [Method] for the [TMethod*] a
    task keeps, and [Keeper] for the state [Exec] works on: the wrapped
    key keeper and the methods it fills. *)
Context {Handler Method Keeper : Type}.

(** [k.InvokeSync( *m_pM)] of the wrapped key keeper. *)
Variable InvokeSync :
  Method -> Keeper -> IPrivateKeyKeeper2.Status.t * Keeper.

Record Task := {
  m_pHandler : Handler;
  m_pM : Method;
  m_Status : IPrivateKeyKeeper2.Status.t
}.

Definition TaskList := list Task.

(** [TaskList::Pop]; the [assert] is the [None]. *)
Definition Pop (l : TaskList) : option (Task * TaskList) :=
  match l with
  | [] => None
  | t :: l => Some (t, l)
  end.

(** [TaskList::Push] returns if was empty. *)
Definition Push (p : Task) (l : TaskList) : bool * TaskList :=
  let b := bool_decide (l = []) in
  (b, l ++ [p]).

Fixpoint Clear (l : TaskList) : TaskList :=
  match l with
  | [] => []
  | _ :: l => Clear l
  end.

(** [MyTask::Exec] *)
Definition Exec (t : Task) (k : Keeper) : Task * Keeper :=
  let '(nRes, k) := InvokeSync (m_pM t) k in
  ({| m_pHandler := m_pHandler t; m_pM := m_pM t; m_Status := nRes |}, k).

(** Where the worker is in [Thread]. *)
Inductive Worker :=
| AtLoop               (* about to lock m_MutexIn *)
| Waiting              (* inside m_NewIn.wait *)
| Got (pTask : Task)   (* popped, before Exec *)
| Done (pTask : Task)  (* after Exec, before locking m_MutexOut *)
| Exited.

(** Where the reactor is in [OnNewOut]. *)
Inductive Reactor :=
| Idle
| Entered                  (* called, before locking m_MutexOut *)
| Draining (que : TaskList).

(** The object, its thread and its reactor.  [calls] lists the [OnDone]
    calls made so far and [requests] the [InvokeAsync] calls made so far;
    neither is read by the code. *)
Record Object := {
  m_queIn : TaskList;
  m_queOut : TaskList;
  m_Run : bool;
  m_pKeyKeeper : Keeper;
  m_Thread : Worker;
  m_pNewOut : bool;
  reactor : Reactor;
  calls : list (Handler * IPrivateKeyKeeper2.Status.t);
  requests : list (Handler * Method)
}.

(** The constructor. *)
Definition create (p : Keeper) : Object :=
  {| m_queIn := []; m_queOut := []; m_Run := true; m_pKeyKeeper := p;
     m_Thread := AtLoop; m_pNewOut := false; reactor := Idle;
     calls := []; requests := [] |}.

(** [std::condition_variable::notify_one] on [m_NewIn], whose only
    waiter is the worker. *)
Definition notify_one (w : Worker) : Worker :=
  match w with
  | Waiting => AtLoop
  | w => w
  end.

(** [InvokeAsyncInternal] and [PushIn]; [nRes] is the status the new task
    starts with. *)
Definition InvokeAsync (m : Method) (pHandler : Handler)
    (nRes : IPrivateKeyKeeper2.Status.t) (o : Object) : Object :=
  let pTask := {| m_pHandler := pHandler; m_pM := m; m_Status := nRes |} in
  let '(wasEmpty, que) := Push pTask (m_queIn o) in
  {| m_queIn := que; m_queOut := m_queOut o; m_Run := m_Run o;
     m_pKeyKeeper := m_pKeyKeeper o;
     m_Thread := if wasEmpty then notify_one (m_Thread o) else m_Thread o;
     m_pNewOut := m_pNewOut o; reactor := reactor o; calls := calls o;
     requests := requests o ++ [(pHandler, m)] |}.

Definition set_Thread (w : Worker) (o : Object) : Object :=
  {| m_queIn := m_queIn o; m_queOut := m_queOut o; m_Run := m_Run o;
     m_pKeyKeeper := m_pKeyKeeper o; m_Thread := w;
     m_pNewOut := m_pNewOut o; reactor := reactor o; calls := calls o;
     requests := requests o |}.

(** [Thread], the block under [m_MutexIn]. *)
Definition Thread_take (o : Object) : option Object :=
  match m_Thread o with
  | AtLoop =>
    if negb (m_Run o) then Some (set_Thread Exited o)
    else
      match Pop (m_queIn o) with
      | Some (pTask, que) =>
        Some {| m_queIn := que; m_queOut := m_queOut o; m_Run := m_Run o;
                m_pKeyKeeper := m_pKeyKeeper o; m_Thread := Got pTask;
                m_pNewOut := m_pNewOut o; reactor := reactor o;
                calls := calls o; requests := requests o |}
      | None => Some (set_Thread Waiting o)
      end
  | _ => None
  end.

(** A wake-up of [m_NewIn.wait] that no [notify_one] caused. *)
Definition Thread_wake (o : Object) : option Object :=
  match m_Thread o with
  | Waiting => Some (set_Thread AtLoop o)
  | _ => None
  end.

(** [Thread], [pTask->Exec( *m_pKeyKeeper)]. *)
Definition Thread_exec (o : Object) : option Object :=
  match m_Thread o with
  | Got pTask =>
    let '(pTask, k) := Exec pTask (m_pKeyKeeper o) in
    Some {| m_queIn := m_queIn o; m_queOut := m_queOut o; m_Run := m_Run o;
            m_pKeyKeeper := k; m_Thread := Done pTask;
            m_pNewOut := m_pNewOut o; reactor := reactor o;
            calls := calls o; requests := requests o |}
  | _ => None
  end.

(** [Thread], the block under [m_MutexOut].  Modelled from the spec:
    [io::AsyncEvent] is outside the sources; posts made before the reactor
    gets to the event are one event. *)
Definition Thread_give (o : Object) : option Object :=
  match m_Thread o with
  | Done pTask =>
    let '(wasEmpty, que) := Push pTask (m_queOut o) in
    Some {| m_queIn := m_queIn o; m_queOut := que; m_Run := m_Run o;
            m_pKeyKeeper := m_pKeyKeeper o; m_Thread := AtLoop;
            m_pNewOut := if wasEmpty then true else m_pNewOut o;
            reactor := reactor o; calls := calls o; requests := requests o |}
  | _ => None
  end.

Definition set_reactor (posted : bool) (r : Reactor) (o : Object) : Object :=
  {| m_queIn := m_queIn o; m_queOut := m_queOut o; m_Run := m_Run o;
     m_pKeyKeeper := m_pKeyKeeper o; m_Thread := m_Thread o;
     m_pNewOut := posted; reactor := r; calls := calls o;
     requests := requests o |}.

(** The reactor, between two callbacks, takes the posted event and calls
    [OnNewOut]. *)
Definition Reactor_dispatch (o : Object) : option Object :=
  match reactor o, m_pNewOut o with
  | Idle, true => Some (set_reactor false Entered o)
  | _, _ => None
  end.

(** [OnNewOut], the block under [m_MutexOut]. *)
Definition OnNewOut_swap (o : Object) : option Object :=
  match reactor o with
  | Entered =>
    Some {| m_queIn := m_queIn o; m_queOut := []; m_Run := m_Run o;
            m_pKeyKeeper := m_pKeyKeeper o; m_Thread := m_Thread o;
            m_pNewOut := m_pNewOut o; reactor := Draining (m_queOut o);
            calls := calls o; requests := requests o |}
  | _ => None
  end.

(** [OnNewOut], one turn of its loop, and its return. *)
Definition OnNewOut_loop (o : Object) : option Object :=
  match reactor o with
  | Draining que =>
    match Pop que with
    | Some (pTask, que) =>
      Some {| m_queIn := m_queIn o; m_queOut := m_queOut o; m_Run := m_Run o;
              m_pKeyKeeper := m_pKeyKeeper o; m_Thread := m_Thread o;
              m_pNewOut := m_pNewOut o; reactor := Draining que;
              calls := calls o ++ [(m_pHandler pTask, m_Status pTask)];
              requests := requests o |}
    | None => Some (set_reactor (m_pNewOut o) Idle o)
    end
  | _ => None
  end.

(** The destructor up to [m_Thread.join()]. *)
Definition destroy (o : Object) : option Object :=
  if m_Run o
  then Some {| m_queIn := m_queIn o; m_queOut := m_queOut o; m_Run := false;
               m_pKeyKeeper := m_pKeyKeeper o;
               m_Thread := notify_one (m_Thread o);
               m_pNewOut := m_pNewOut o; reactor := reactor o;
               calls := calls o; requests := requests o |}
  else None.

(** What the object does by itself, once requests are in. *)
Inductive Internal :=
| ThreadTake | ThreadExec | ThreadGive
| ReactorDispatch | OnNewOutSwap | OnNewOutLoop.

Inductive Action :=
| Call (m : Method) (pHandler : Handler) (nRes : IPrivateKeyKeeper2.Status.t)
| Own (i : Internal)
| ThreadWake
| Destroy.

Definition own (i : Internal) : Object -> option Object :=
  match i with
  | ThreadTake => Thread_take
  | ThreadExec => Thread_exec
  | ThreadGive => Thread_give
  | ReactorDispatch => Reactor_dispatch
  | OnNewOutSwap => OnNewOut_swap
  | OnNewOutLoop => OnNewOut_loop
  end.

Definition act (a : Action) (o : Object) : option Object :=
  match a with
  | Call m pHandler nRes => Some (InvokeAsync m pHandler nRes o)
  | Own i => own i o
  | ThreadWake => Thread_wake o
  | Destroy => destroy o
  end.

(** An interleaving, from the first action to the last. *)
Fixpoint run (l : list Action) (o : Object) : option Object :=
  match l with
  | [] => Some o
  | a :: l =>
    match act a o with
    | Some o => run l o
    | None => None
    end
  end.

(** The object has come to rest: its thread and its reactor have nothing
    left to do. *)
Definition at_rest (o : Object) : Prop :=
  forall i, own i o = None.

(** The requests served one after the other by [InvokeSync]: the
    [OnDone] calls they are owed, and the key keeper afterwards. *)
Fixpoint serve (k : Keeper) (l : list (Handler * Method))
    : list (Handler * IPrivateKeyKeeper2.Status.t) * Keeper :=
  match l with
  | [] => ([], k)
  | (pHandler, m) :: l =>
    let '(nRes, k) := InvokeSync m k in
    let '(out, k) := serve k l in
    ((pHandler, nRes) :: out, k)
  end.

Definition request_of (t : Task) : Handler * Method :=
  (m_pHandler t, m_pM t).

Definition answer_of (t : Task)
    : Handler * IPrivateKeyKeeper2.Status.t :=
  (m_pHandler t, m_Status t).

(** The tasks executed and not yet handed back, oldest first, and the
    tasks not yet executed. *)
Definition executed (o : Object) : TaskList :=
  match reactor o with Draining que => que | _ => [] end
  ++ m_queOut o
  ++ match m_Thread o with Done pTask => [pTask] | _ => [] end.

Definition waiting (o : Object) : TaskList :=
  match m_Thread o with Got pTask => [pTask] | _ => [] end ++ m_queIn o.

(** Every request is in the pipeline, in the order of the calls, and the
    key keeper has served those before the first waiting one. *)
Definition pipeline (k0 : Keeper) (o : Object) : Prop :=
  exists served,
    requests o = served ++ map request_of (waiting o) /\
    serve k0 served
      = (calls o ++ map answer_of (executed o), m_pKeyKeeper o).

(** No wake-up is lost. *)
Definition awake (o : Object) : Prop :=
  (m_queIn o <> [] -> m_Thread o <> Waiting) /\
  (m_queOut o <> [] -> m_pNewOut o = true \/ reactor o = Entered) /\
  (m_Run o = true -> m_Thread o <> Exited).

(** What is left to do, in steps. *)
Definition work (o : Object) : nat :=
  (8 * length (m_queIn o)
   + match m_Thread o with
     | AtLoop => 1 | Waiting => 0 | Got _ => 8 | Done _ => 6 | Exited => 0
     end
   + (if m_pNewOut o then 3 else 0)
   + match reactor o with
     | Idle => 0 | Entered => 2 | Draining que => 1
     end
   + length (executed o))%nat.
End Threaded.
Arguments Task : clear implicits.
Arguments Object : clear implicits.
Arguments Action : clear implicits.
End ThreadedPrivateKeyKeeper.

(** A key keeper that counts what it has signed and refuses the empty
    request, behind the threaded wrapper: two requests are made, the
    second while the first is with the worker, and the first has been
    answered. *)
Module ThreadedRun.
Import ThreadedPrivateKeyKeeper.

Definition InvokeSync (m : N) (k : N) : IPrivateKeyKeeper2.Status.t * N :=
  if m =? 0 then (IPrivateKeyKeeper2.Status.UserAbort, k)
  else (IPrivateKeyKeeper2.Status.Ok, k + m).

Definition two_requests : list (Action N N) :=
  [ Call 5 1 IPrivateKeyKeeper2.Status.InProgress;
    Own ThreadTake;
    Call 0 2 IPrivateKeyKeeper2.Status.InProgress;
    Own ThreadExec;
    Own ThreadGive;
    Own ReactorDispatch;
    Own ThreadTake;
    Own OnNewOutSwap;
    Own OnNewOutLoop ].

Definition after_two_requests : Object N N N :=
  default (create 0) (run InvokeSync two_requests (create 0)).

(** The destructor runs while a request is queued behind the one the
    worker has. *)
Definition destroyed : Object N N N :=
  default (create 0)
    (run InvokeSync
       [ Call 5 1 IPrivateKeyKeeper2.Status.InProgress;
         Own ThreadTake;
         Call 0 2 IPrivateKeyKeeper2.Status.InProgress;
         Destroy ]
       (create 0)).

Definition after_destroyed : list (Action N N) :=
  [ Own ThreadExec; Own ThreadGive; Own ThreadTake;
    Call 9 3 IPrivateKeyKeeper2.Status.InProgress ].
End ThreadedRun.

(** * Properties *)

(** ** Running the driver's monad *)

Section MonadFacts.
Context {B : Type}.

Lemma run_bind {A C} (m : M B A) (k : A -> M B C) (s : Tx B) :
  (m ≫= k) s =
  match m s with
  | (Val a, s') => k a s'
  | (Returned, s') => (Returned, s')
  | (Thrown e, s') => (Thrown e, s')
  end.
Proof. reflexivity. Qed.

Lemma run_bind_val {A C} (m : M B A) (k : A -> M B C) s a s' :
  m s = (Val a, s') -> (m ≫= k) s = k a s'.
Proof. intros H. rewrite run_bind, H. reflexivity. Qed.

Lemma run_bind_returned {A C} (m : M B A) (k : A -> M B C) s s' :
  m s = (Returned, s') -> (m ≫= k) s = (Returned, s').
Proof. intros H. rewrite run_bind, H. reflexivity. Qed.

Lemma bind_val_inv {A C} (m : M B A) (k : A -> M B C) s c s' :
  (m ≫= k) s = (Val c, s') ->
  exists a s1, m s = (Val a, s1) /\ k a s1 = (Val c, s').
Proof.
  rewrite run_bind. destruct (m s) as [[a| |e] s1]; intros H;
    [eauto | discriminate | discriminate].
Qed.

Lemma run_bind_assoc {A C D} (m : M B A) (k : A -> M B C) (h : C -> M B D) s :
  ((m ≫= k) ≫= h) s = (m ≫= (fun a => k a ≫= h)) s.
Proof.
  rewrite !run_bind. destruct (m s) as [[a| |e] s1]; reflexivity.
Qed.

Lemma when_true (m : M B unit) : when true m = m.
Proof. reflexivity. Qed.

Lemma return_if_false : return_if false = (ret tt : M B unit).
Proof. reflexivity. Qed.

Lemma run_ret_bind {A C} (a : A) (k : A -> M B C) s :
  (ret a ≫= k) s = k a s.
Proof. reflexivity. Qed.

End MonadFacts.

(** ** What a piece of the driver may append to the log *)

Section LogFacts.
Context {B : Type}.


Lemma silent_log {A} (m : M B A) s r s' :
  silent m -> m s = (r, s') -> log s' = log s.
Proof.
  intros Hm Hrun. destruct (Hm _ _ _ Hrun) as (evs & -> & Hevs).
  destruct Hevs as [|e evs []]. apply app_nil_r.
Qed.

Variable P : Event -> Prop.

Lemma emits_only_unchanged {A} (m : M B A) :
  (forall s r s', m s = (r, s') -> log s' = log s) -> emits_only P m.
Proof.
  intros Hm s r s' Hrun. exists []. rewrite app_nil_r.
  split; [eauto | constructor].
Qed.

Lemma emits_only_ret {A} (a : A) : emits_only P (ret a : M B A).
Proof. apply emits_only_unchanged. by intros s r s' [= <- <-]. Qed.

Lemma emits_only_mret {A} (a : A) : emits_only P (mret a : M B A).
Proof. apply emits_only_ret. Qed.

Lemma emits_only_return_ {A} : emits_only P (return_ : M B A).
Proof. apply emits_only_unchanged. by intros s r s' [= <- <-]. Qed.

Lemma emits_only_bind {A C} (m : M B A) (k : A -> M B C) :
  emits_only P m -> (forall a, emits_only P (k a)) ->
  emits_only P (m ≫= k).
Proof.
  intros Hm Hk s r s'. rewrite run_bind.
  destruct (m s) as [[a| |e] s1] eqn:Hms; intros Hrun;
    destruct (Hm _ _ _ Hms) as (evs1 & E1 & F1).
  - destruct (Hk a _ _ _ Hrun) as (evs2 & E2 & F2).
    exists (evs1 ++ evs2). rewrite E2, E1, app_assoc.
    split; [reflexivity | by apply Forall_app].
  - injection Hrun as <- <-. eauto.
  - injection Hrun as <- <-. eauto.
Qed.

Lemma emits_only_when (c : bool) (m : M B unit) :
  emits_only P m -> emits_only P (when c m).
Proof. destruct c; [done | intros _; apply emits_only_ret]. Qed.

Lemma emits_only_return_if (c : bool) : emits_only P (return_if c : M B unit).
Proof. destruct c; [apply emits_only_return_ | apply emits_only_ret]. Qed.

Lemma emits_only_emit (e : Event) : P e -> emits_only P (emit e : M B unit).
Proof.
  intros He s r s' [= <- <-]. exists [e]. split; [reflexivity|].
  by constructor.
Qed.

Lemma emits_only_SetParameter id v : emits_only P (SetParameter id v : M B unit).
Proof. apply emits_only_unchanged. by intros s r s' [= <- <-]. Qed.

Lemma emits_only_GetParam {T} (as_T : Value -> option T) id :
  emits_only P (GetParam as_T id : M B (option T)).
Proof. apply emits_only_unchanged. by intros s r s' [= <- <-]. Qed.

Lemma emits_only_asks {A} (f : Store -> A) : emits_only P (asks f : M B A).
Proof. apply emits_only_unchanged. by intros s r s' [= <- <-]. Qed.

Lemma emits_only_throw {A} e : emits_only P (throw e : M B A).
Proof. apply emits_only_unchanged. by intros s r s' [= <- <-]. Qed.

Lemma emits_only_ask {A} (f : B -> A) : emits_only P (ask f : M B A).
Proof. apply emits_only_unchanged. by intros s r s' [= <- <-]. Qed.

Lemma emits_only_load {A} (f : Store -> B -> A * B) : emits_only P (load f).
Proof.
  apply emits_only_unchanged. intros s r s'. unfold load.
  destruct (f (params s) (builder s)) as [a b]. by intros [= <- <-].
Qed.

Lemma emits_only_call {A} (f : Store -> B -> A * B * Store) :
  emits_only P (call f).
Proof.
  apply emits_only_unchanged. intros s r s'. unfold call.
  destruct (f (params s) (builder s)) as [[a b] p]. by intros [= <- <-].
Qed.

Lemma emits_only_for_each {A} (l : list A) (body : A -> M B unit) :
  (forall a, emits_only P (body a)) -> emits_only P (for_each l body).
Proof.
  intros Hbody. induction l as [|a l IH]; simpl.
  - apply emits_only_ret.
  - apply emits_only_bind; [apply Hbody | intros _; apply IH].
Qed.
End LogFacts.

Create HintDb emits discriminated.

#[global] Hint Resolve emits_only_ret emits_only_mret emits_only_return_
  emits_only_when emits_only_return_if emits_only_SetParameter
  emits_only_GetParam emits_only_asks emits_only_throw emits_only_ask
  emits_only_load emits_only_call : emits.

(** Walks through a piece of the driver, leaving the events it emits. *)
Ltac emits_step :=
  lazymatch goal with
  | |- emits_only _ (_ ≫= _) => apply emits_only_bind; [| intros ?]
  | |- emits_only _ (if ?c then _ else _) => destruct c
  | |- emits_only _ (match ?x with _ => _ end) => destruct x
  | |- emits_only _ (for_each _ _) => apply emits_only_for_each; intros ?
  | |- emits_only _ (when _ _) => apply emits_only_when
  | |- emits_only _ (emit _) => apply emits_only_emit
  | |- silent _ => unfold silent
  | |- _ => solve [auto with emits]
  end.

Ltac emits := repeat emits_step.

(** Runs the first statement of the goal's program with the equation [H]. *)
Ltac mrun H :=
  rewrite ?run_bind_assoc;
  first [ rewrite (run_bind_val _ _ _ _ _ H)
        | rewrite (run_bind_returned _ _ _ _ H)
        | rewrite H ];
  cbv beta.

(** Unfolds the monad's plumbing, and nothing of the maps. *)
Ltac mcbv :=
  cbv beta iota zeta delta
    [mbind M_bind bind mret M_ret ret return_ return_if when emit call load
     ask asks throw GetParam SetParameter id];
  cbn [params builder log fst snd].

Tactic Notation "mcbv" "in" hyp(H) :=
  cbv beta iota zeta delta
    [mbind M_bind bind mret M_ret ret return_ return_if when emit call load
     ask asks throw GetParam SetParameter id] in H;
  cbn [params builder log fst snd] in H.

(** ** IsInSafety *)


(** C3, as amended: [IsInSafety] holds exactly when the record's state is
    KernelConfirmation; the record's status plays no part, and a record in
    state Registration is not reported. *)
Theorem IsInSafety_iff_KernelConfirmation (s : Store) :
  IsInSafety s = true <-> GetState s = State.KernelConfirmation.
Proof.
  unfold IsInSafety. apply bool_decide_eq_true.
Qed.

(** C3, as stated, fails: a submitted, still registering record in state
    Registration is inside the specification's window but [IsInSafety]
    answers false. *)
Lemma IsInSafety_Registration_counterexample :
  let s : Store :=
    <[TxParameterID.State := VState State.Registration]>
    (<[TxParameterID.Status := VTxStatus TxStatus.Registering]> ∅) in
  spec_cancel_refused s = true /\ IsInSafety s = false.
Proof. split; vm_compute; reflexivity. Qed.

(** ** CheckAndCompleteParameters *)

Section CreatorFacts.
Context `{!Wallet}.

Local Abbreviation check := CheckAndCompleteParameters.
Local Abbreviation raw := GetParameterRaw.

(** C8: the call throws the address-expired error exactly when PeerID is
    in the address book, owned and expired; and for a PeerID that is not
    in the address book it returns the parameters unchanged and saves a
    new entry for that peer, created now and labelled with the Message
    parameter when there is one. *)
Theorem CheckAndCompleteParameters_expired_iff_and_new_entry
    (parameters : Store) (db : AddressBook) :
  ((check parameters db).1 = inl AddressExpiredException <->
   exists peerID addr,
     GetParameter as_wid TxParameterID.PeerID parameters = Some peerID /\
     getAddress peerID db = Some addr /\
     isOwn addr = true /\ isExpired addr = true) /\
  (forall peerID,
     GetParameter as_wid TxParameterID.PeerID parameters = Some peerID ->
     getAddress peerID db = None ->
     check parameters db =
       (inr parameters,
        saveAddress {| m_walletID := peerID;
                       m_label := new_label parameters;
                       m_createTime := getTimestamp;
                       m_OwnID := 0 |} db) /\
     getAddress peerID (check parameters db).2 =
       Some {| m_walletID := peerID;
               m_label := new_label parameters;
               m_createTime := getTimestamp;
               m_OwnID := 0 |}).
Proof.
  unfold CheckAndCompleteParameters, new_label. split.
  - destruct (GetParameter as_wid TxParameterID.PeerID parameters) as [peerID|] eqn:Hp.
    + destruct (getAddress peerID db) as [addr|] eqn:Ha.
      * destruct (isOwn addr) eqn:Ho, (isExpired addr) eqn:He; simpl.
        -- split; [intros _; exists peerID, addr; done | done].
        -- split.
           ++ destruct (raw TxParameterID.Message parameters);
                [case_bool_decide|]; discriminate.
           ++ intros (p & a & [= <-] & Ha' & _ & He').
              rewrite Ha in Ha'. injection Ha' as <-. congruence.
        -- split.
           ++ destruct (raw TxParameterID.Message parameters);
                [case_bool_decide|]; discriminate.
           ++ intros (p & a & [= <-] & Ha' & Ho' & _).
              rewrite Ha in Ha'. injection Ha' as <-. congruence.
        -- split.
           ++ destruct (raw TxParameterID.Message parameters);
                [case_bool_decide|]; discriminate.
           ++ intros (p & a & [= <-] & Ha' & Ho' & _).
              rewrite Ha in Ha'. injection Ha' as <-. congruence.
      * split; [discriminate|].
        intros (p & a & [= <-] & Ha' & _). congruence.
    + split; [discriminate|]. intros (p & a & Hp' & _). discriminate.
  - intros peerID -> Ha. rewrite Ha.
    assert (Hnew :
      match raw TxParameterID.Message parameters with
      | Some message =>
          set_label message
            {| m_walletID := peerID; m_label := m_label WalletAddress_new;
               m_createTime := getTimestamp;
               m_OwnID := m_OwnID WalletAddress_new |}
      | None =>
          {| m_walletID := peerID; m_label := m_label WalletAddress_new;
             m_createTime := getTimestamp;
             m_OwnID := m_OwnID WalletAddress_new |}
      end =
      {| m_walletID := peerID;
         m_label := default "" (raw TxParameterID.Message parameters);
         m_createTime := getTimestamp; m_OwnID := 0 |}).
    { destruct (raw TxParameterID.Message parameters); reflexivity. }
    rewrite Hnew. split; [reflexivity|].
    unfold getAddress, saveAddress. simpl. apply lookup_insert_eq.
Qed.
End CreatorFacts.

(** ** The two shapes of a key-keeper operation *)

Section KeyKeeperFacts.
Import IPrivateKeyKeeper2.
Context {TMethod : Type}.
Variable moved_from : TMethod -> TMethod.

Lemma Reactor_run_posted_stopped (q : list (Callback TMethod)) w :
  stop_requested w = true ->
  Reactor_run_posted q w =
    {| m_Status := m_Status w; m_M := m_M w;
       stop_requested := false; posted := q |}.
Proof. intros H. destruct q; simpl; rewrite H; reflexivity. Qed.

Lemma Reactor_run_posted_complete (q1 q2 : list (Callback TMethod)) m nRes w :
  Forall (fun c => c = Other) q1 ->
  stop_requested w = false ->
  Reactor_run_posted (q1 ++ Complete m nRes :: q2) w =
    {| m_Status := nRes; m_M := m;
       stop_requested := false; posted := q2 |}.
Proof.
  intros Hq Hs. induction Hq as [|c q1 -> _ IH]; simpl; rewrite Hs.
  - apply Reactor_run_posted_stopped. reflexivity.
  - apply IH.
Qed.

(** C9: whatever an operation computes ([compute] gives its status and
    its filled method), with [moved_from] for what a move leaves behind:
    (1) the default synchronous shape over an asynchronous one that
    completes through the reactor returns the status delivered to
    [OnDone]; when that status is not InProgress the caller gets the
    filled method, and otherwise is left with its moved-from method; the
    reactor has run every callback posted before the completion and is
    not stopped any more; (2) the same holds over the default
    asynchronous shape, itself derived from the synchronous one, where
    [OnDone] has stopped the reactor before it runs, so that the
    callbacks posted stay posted; (3) the default asynchronous shape
    fills the method and calls the handler's [OnDone] once, with the
    status of the synchronous shape. *)
Theorem sync_and_async_shapes_agree
    (compute : TMethod -> Status.t * TMethod) (m : TMethod)
    (q : list (Callback TMethod)) (calls : list Status.t) :
  Forall (fun c => c = Other) q ->
  let res := (compute m).1 in
  let answered := bool_decide (Status.InProgress ≠ res) in
  let out := if answered then (compute m).2 else moved_from m in
  let handler posted :=
    {| m_Status := res;
       m_M := if answered then moved_from (compute m).2 else (compute m).2;
       stop_requested := false; posted := posted |} in
  InvokeSyncInternal moved_from (InvokeAsync_posting compute) m false q
    = (res, out, handler []) /\
  InvokeSyncInternal moved_from (InvokeAsync_on_handler compute) m false q
    = (res, out, handler q) /\
  InvokeAsync compute OnDone_recorded m calls = ((compute m).2, calls ++ [res]).
Proof.
  intros Hq res answered out handler. subst res answered out handler.
  unfold InvokeSyncInternal, HandlerSync_Wait, Reactor_run.
  repeat split.
  - unfold InvokeAsync_posting. simpl.
    destruct (compute m) as [res out]. simpl.
    rewrite Reactor_run_posted_complete by done. simpl.
    by case_bool_decide.
  - unfold InvokeAsync_on_handler, InvokeAsync. simpl.
    destruct (compute m) as [res out]. simpl.
    rewrite Reactor_run_posted_stopped by done. simpl.
    by case_bool_decide.
  - unfold InvokeAsync, OnDone_recorded.
    destruct (compute m) as [res out]. reflexivity.
Qed.
End KeyKeeperFacts.

(** A request that signs: the method holds the message and the signature
    slot; the keeper fills the slot and reports Ok.  A method moved out
    of is left with both fields zero. *)
Lemma sync_and_async_shapes_agree_witness :
  let compute := fun m : N * N => (IPrivateKeyKeeper2.Status.Ok, (m.1, m.1 + 7)) in
  let moved_from := fun _ : N * N => (0, 0) in
  let q := [IPrivateKeyKeeper2.Other; IPrivateKeyKeeper2.Other] in
  let handler posted :=
    {| IPrivateKeyKeeper2.m_Status := IPrivateKeyKeeper2.Status.Ok;
       IPrivateKeyKeeper2.m_M := (0, 0);
       IPrivateKeyKeeper2.stop_requested := false;
       IPrivateKeyKeeper2.posted := posted |} in
  Forall (fun c => c = IPrivateKeyKeeper2.Other) q /\
  IPrivateKeyKeeper2.InvokeSyncInternal moved_from
    (IPrivateKeyKeeper2.InvokeAsync_posting compute) (5, 0) false q
    = (IPrivateKeyKeeper2.Status.Ok, (5, 12), handler []) /\
  IPrivateKeyKeeper2.InvokeSyncInternal moved_from
    (IPrivateKeyKeeper2.InvokeAsync_on_handler compute) (5, 0) false q
    = (IPrivateKeyKeeper2.Status.Ok, (5, 12), handler q) /\
  IPrivateKeyKeeper2.InvokeAsync compute IPrivateKeyKeeper2.OnDone_recorded
    (5, 0) [] = ((5, 12), [IPrivateKeyKeeper2.Status.Ok]).
Proof.
  intros compute moved_from q handler.
  assert (Hq : Forall (fun c => c = IPrivateKeyKeeper2.Other) q)
    by (repeat constructor).
  split; [exact Hq|].
  exact (sync_and_async_shapes_agree moved_from compute (5, 0) q [] Hq).
Defined.

(** ** UpdateImpl *)

Section DriverFacts.
Context {B : Type} `{!BaseTxBuilder B} `{!Wallet}.
Variable env : Environment.


Lemma kernel_not_signed_true tx isSender txState b :
  no_signed_kernel tx isSender txState b ->
  exists b', 
    (load GetPeerInputsAndOutputs ;; kernel_not_signed isSender txState)
      (entry tx b)
    = (Val true, {| params := m_Params tx; builder := b'; log := [] |}).
Proof.
  unfold no_signed_kernel, kernel_not_signed, entry.
  rewrite run_bind. unfold load at 1. simpl.
  destruct (GetPeerInputsAndOutputs (m_Params tx) b) as [r b1]. simpl.
  intros [[-> Hk] | [-> Hk]].
  - rewrite run_bind. unfold load. simpl.
    destruct (LoadKernel (m_Params tx) b1) as [k b2]. simpl in *. subst k.
    eexists. reflexivity.
  - rewrite run_bind. unfold ask. simpl. eexists.
    destruct Hk as [-> | ->]; [reflexivity|].
    rewrite orb_true_r. reflexivity.
Qed.

(** C10: when the record has no signed kernel yet and the wallet has no
    key keeper, [UpdateImpl] returns at once: the parameter store is the
    one it started from (no state transition, no parameter write) and
    nothing was sent or requested. *)
Theorem UpdateImpl_public_wallet_is_idle
    (tx : SimpleTransaction B) isSender isSelfTx txState b :
  m_KeyKeeper env = None ->
  UpdateImpl_prologue env tx = inr (isSender, isSelfTx, txState, b) ->
  no_signed_kernel tx isSender txState b ->
  exists b',
    UpdateImpl env tx =
      (Returned, {| m_Params := m_Params tx; m_TxBuilder := Some b' |}, []).
Proof.
  intros Hkk Hpro Hns.
  destruct (kernel_not_signed_true _ _ _ _ Hns) as [b' Hb'].
  exists b'. unfold UpdateImpl. rewrite Hpro.
  unfold UpdateImpl_body, kernel_stage.
  rewrite run_bind, <- run_bind_assoc.
  rewrite (run_bind_val _ _ _ _ _ Hb').
  unfold sign_kernel. rewrite Hkk. reflexivity.
Qed.

(** What [UpdateImpl] returns once the verdict stage is reached in the
    driver state [s1] and ends in [s2] with outcome [r]. *)
Lemma UpdateImpl_from_kernel_stage tx isSender isSelfTx txState b s1 r s2 :
  UpdateImpl_prologue env tx = inr (isSender, isSelfTx, txState, b) ->
  kernel_stage env isSender isSelfTx txState (entry tx b) = (Val tt, s1) ->
  register_and_confirm s1 = (r, s2) ->
  UpdateImpl env tx =
    (r, {| m_Params := params s2; m_TxBuilder := Some (builder s2) |}, log s2).
Proof.
  intros Hpro Hks Hrc. unfold UpdateImpl. rewrite Hpro.
  unfold UpdateImpl_body.
  rewrite (run_bind_val _ _ _ _ _ Hks), Hrc. reflexivity.
Qed.


Lemma register_and_confirm_verdict (s1 : Tx B) nRegistered :
  GetParameter as_u8 TxParameterID.TransactionRegistered (params s1)
    = Some nRegistered ->
  let hProof :=
    default 0 (GetParameter as_u64 TxParameterID.KernelProofHeight (params s1)) in
  let unconfirmed :=
    default 0 (GetParameter as_u64 TxParameterID.KernelUnconfirmedHeight (params s1)) in
  let proceed :=
    if hProof =? 0
    then (Returned,
          with_event (EvConfirmKernel (GetKernelID (builder s1)))
            (with_params
               (<[TxParameterID.State := VState State.KernelConfirmation]> (params s1))
               s1))
    else (Val tt,
          with_params
            (<[TxParameterID.Status := VTxStatus TxStatus.Completed]> (params s1))
            (with_event EvCompleteTx
               (with_event (EvSetCompletedTxCoinStatuses hProof) s1))) in
  let fail :=
    (Returned,
     with_params (failed_params TxFailureReason.FailedToRegister (params s1))
       (with_event (EvOnFailed TxFailureReason.FailedToRegister true) s1)) in
  register_and_confirm s1 =
    if bool_decide (nRegistered = proto.TxStatus.InvalidContext)
    then if 0 <? unconfirmed then fail else proceed
    else if bool_decide (nRegistered = proto.TxStatus.Ok)
         then proceed else fail.
Proof.
  intros Hreg hProof unconfirmed proceed fail.
  unfold register_and_confirm. rewrite run_bind. unfold GetParam at 1.
  rewrite Hreg.
  assert (Hproceed :
    (hProof0 ← asks (fun s => default 0
                (GetParameter as_u64 TxParameterID.KernelProofHeight s));
     if hProof0 =? 0
     then SetState State.KernelConfirmation ;;
          kernelID ← ask GetKernelID; ConfirmKernel kernelID ;; return_
     else SetCompletedTxCoinStatuses hProof0 ;; CompleteTx) s1 = proceed).
  { rewrite run_bind. unfold asks at 1. fold hProof. subst proceed.
    destruct (hProof =? 0); reflexivity. }
  destruct (decide (nRegistered = proto.TxStatus.InvalidContext)) as [->|Hic].
  - rewrite !bool_decide_eq_true_2 by done.
    subst unconfirmed. unfold mbind, M_bind, bind, GetParam. cbv beta.
    destruct (GetParameter as_u64 TxParameterID.KernelUnconfirmedHeight (params s1))
      as [h|]; simpl default.
    + destruct (0 <? h); [reflexivity|]. exact Hproceed.
    + exact Hproceed.
  - rewrite (bool_decide_eq_false_2 (proto.TxStatus.InvalidContext = nRegistered))
      by congruence.
    rewrite (bool_decide_eq_false_2 (nRegistered = proto.TxStatus.InvalidContext))
      by congruence.
    destruct (decide (nRegistered = proto.TxStatus.Ok)) as [->|Hok].
    + rewrite (bool_decide_eq_true_2 (proto.TxStatus.Ok = proto.TxStatus.Ok))
        by done.
      rewrite (bool_decide_eq_false_2 (proto.TxStatus.Ok ≠ proto.TxStatus.Ok))
        by (intros Hne; apply Hne; reflexivity).
      exact Hproceed.
    + rewrite (bool_decide_eq_false_2 (nRegistered = proto.TxStatus.Ok))
        by congruence.
      rewrite (bool_decide_eq_true_2 (proto.TxStatus.Ok ≠ nRegistered))
        by congruence.
      reflexivity.
Qed.

Lemma run_SendInvitation isSender (s : Tx B) :
  let msg := Invitation_params (builder s) isSender in
  SendInvitation env isSender s =
    (Val tt,
     if gateway_send env msg
     then with_event (EvSendTxParameters msg) s
     else with_params
            (failed_params TxFailureReason.FailedToSendParameters (params s))
            (with_event
               (EvOnFailed TxFailureReason.FailedToSendParameters false)
               (with_event (EvSendTxParameters msg) s))).
Proof.
  intros msg. unfold SendInvitation, SendTxParameters, OnFailed,
    UpdateTxDescription. mcbv. fold msg.
  destruct (gateway_send env msg); reflexivity.
Qed.

Lemma prepare_silent isSender isSelfTx txState :
  silent (prepare isSender isSelfTx txState : M B unit).
Proof. unfold prepare, UpdateTxDescription. emits. Qed.

Lemma peer_excess_missing_silent isSelfTx :
  silent (peer_excess_missing isSelfTx : M B bool).
Proof. unfold peer_excess_missing. emits. Qed.

Lemma peer_signature_missing_silent isSelfTx :
  silent (peer_signature_missing isSelfTx : M B bool).
Proof. unfold peer_signature_missing. emits. Qed.

Lemma at_sign_kernel_eq tx isSender txState b :
  no_signed_kernel tx isSender txState b ->
  (load GetPeerInputsAndOutputs ;; kernel_not_signed isSender txState)
    (entry tx b) = (Val true, at_sign_kernel tx isSender txState b) /\
  params (at_sign_kernel tx isSender txState b) = m_Params tx /\
  log (at_sign_kernel tx isSender txState b) = [].
Proof.
  intros Hns. destruct (kernel_not_signed_true _ _ _ _ Hns) as [b' Hb'].
  unfold at_sign_kernel. rewrite Hb'. done.
Qed.

(** [UpdateImpl] on a record whose kernel is not signed yet. *)
Lemma UpdateImpl_unsigned tx isSender isSelfTx txState b :
  UpdateImpl_prologue env tx = inr (isSender, isSelfTx, txState, b) ->
  no_signed_kernel tx isSender txState b ->
  UpdateImpl env tx =
    let '(r, s) :=
      (sign_kernel env isSender isSelfTx txState ;; register_and_confirm)
        (at_sign_kernel tx isSender txState b) in
    (r, {| m_Params := params s; m_TxBuilder := Some (builder s) |}, log s).
Proof.
  intros Hpro Hns. destruct (at_sign_kernel_eq _ _ _ _ Hns) as (Hat & _).
  apply bind_val_inv in Hat as (x & sa & Hload & Hkns).
  unfold UpdateImpl. rewrite Hpro. unfold UpdateImpl_body, kernel_stage.
  mrun Hload. mrun Hkns. reflexivity.
Qed.

(** C7: a sender-role, two-party record in state Initial whose kernel is
    not signed and whose peer has not answered, in a wallet with a key
    keeper.  When [SignSender(true)] completes, leaving the driver in
    state [s2], [UpdateImpl] sends one message, the invitation; it has
    exactly the ten parameters Amount, Fee, MinHeight, Lifetime,
    PeerMaxHeight, IsSender (false), PeerProtoVersion, PeerPublicExcess,
    PeerPublicNonce (the local excess and nonce) and AssetID; and the
    record's state becomes Invitation. *)
Theorem UpdateImpl_sends_invitation
    (tx : SimpleTransaction B) kk b s1 s2 :
  m_KeyKeeper env = Some kk ->
  UpdateImpl_prologue env tx = inr (true, false, State.Initial, b) ->
  no_signed_kernel tx true State.Initial b ->
  (prepare true false State.Initial ;; peer_excess_missing false)
    (at_sign_kernel tx true State.Initial b) = (Val true, s1) ->
  call (SignSender true) s1 = (Val false, s2) ->
  let msg := Invitation_params (builder s2) true in
  let sent := gateway_send env msg in
  UpdateImpl env tx =
    (Returned,
     {| m_Params :=
          <[TxParameterID.State := VState State.Invitation]>
            (if sent then params s2
             else failed_params TxFailureReason.FailedToSendParameters
                    (params s2));
        m_TxBuilder := Some (builder s2) |},
     EvSendTxParameters msg ::
     (if sent then []
      else [EvOnFailed TxFailureReason.FailedToSendParameters false]) ++
     [EvUpdateOnNextTip]) /\
  dom msg =
    {[ TxParameterID.Amount; TxParameterID.Fee; TxParameterID.MinHeight;
       TxParameterID.Lifetime; TxParameterID.PeerMaxHeight;
       TxParameterID.IsSender; TxParameterID.PeerProtoVersion;
       TxParameterID.PeerPublicExcess; TxParameterID.PeerPublicNonce;
       TxParameterID.AssetID ]} /\
  msg !! TxParameterID.Amount = Some (VU64 (GetAmount (builder s2))) /\
  msg !! TxParameterID.Fee = Some (VU64 (GetFee (builder s2))) /\
  msg !! TxParameterID.MinHeight = Some (VU64 (GetMinHeight (builder s2))) /\
  msg !! TxParameterID.Lifetime = Some (VU64 (GetLifetime (builder s2))) /\
  msg !! TxParameterID.PeerMaxHeight = Some (VU64 (GetMaxHeight (builder s2))) /\
  msg !! TxParameterID.IsSender = Some (VBool false) /\
  msg !! TxParameterID.PeerProtoVersion = Some (VU32 s_ProtoVersion) /\
  msg !! TxParameterID.PeerPublicExcess = Some (VPoint (GetPublicExcess (builder s2))) /\
  msg !! TxParameterID.PeerPublicNonce = Some (VPoint (GetPublicNonce (builder s2))) /\
  msg !! TxParameterID.AssetID = Some (VU64 (GetAssetId (builder s2))).
Proof.
  intros Hkk Hpro Hns Hprep Hsign msg sent.
  split; [| subst msg; unfold Invitation_params;
            split; [rewrite !dom_insert_L, dom_empty_L; set_solver
                   | repeat split; by simplify_map_eq]].
  destruct (at_sign_kernel_eq _ _ _ _ Hns) as (_ & _ & Hlog0).
  assert (Hlog2 : log s2 = []).
  { rewrite (silent_log _ _ _ _ (emits_only_call _ _) Hsign).
    rewrite <- Hlog0. eapply silent_log; [|exact Hprep].
    unfold silent. apply emits_only_bind;
      [apply prepare_silent | intros _; apply peer_excess_missing_silent]. }
  rewrite (UpdateImpl_unsigned _ _ _ _ _ Hpro Hns).
  unfold sign_kernel. rewrite Hkk. unfold negotiate.
  apply bind_val_inv in Hprep as (x & sa & Hprep & Hpem).
  mrun Hprep. mrun Hpem. unfold invitation_round.
  rewrite (bool_decide_eq_true_2 (State.Initial = State.Initial)) by done.
  rewrite !when_true. mrun Hsign. rewrite return_if_false.
  rewrite ?run_bind_assoc, run_ret_bind.
  pose proof (run_SendInvitation true s2) as Hsend. cbv zeta in Hsend.
  fold msg in Hsend. fold sent in Hsend.
  mrun Hsend. unfold SetState, UpdateOnNextTip. mcbv.
  destruct sent; cbn [params builder log with_event with_params];
    rewrite Hlog2; reflexivity.
Qed.

Lemma invitation_round_leaves isSender txState (s : Tx B) v s' :
  invitation_round env isSender txState s <> (Val v, s').
Proof.
  unfold invitation_round. rewrite run_bind.
  destruct (when _ _ s) as [[[]| |e] sa]; [|discriminate|discriminate].
  unfold UpdateOnNextTip. mcbv. discriminate.
Qed.

(** [negotiate] falls through only if it has emitted nothing. *)
Lemma negotiate_val_log isSender isSelfTx txState (s : Tx B) v s' :
  negotiate env isSender isSelfTx txState s = (Val v, s') ->
  log s' = log s.
Proof.
  unfold negotiate. intros Hrun.
  apply bind_val_inv in Hrun as ([] & sa & Hprep & Hrun).
  apply bind_val_inv in Hrun as (noPeerExcess & sb & Hpem & Hrun).
  apply bind_val_inv in Hrun as ([] & sc & Hinv & Hrun).
  apply bind_val_inv in Hrun as (heightOk & sd & Hmax & Hrun).
  apply bind_val_inv in Hrun as ([] & se & Hfail & Hrun).
  apply bind_val_inv in Hrun as ([] & sf & Hkrn & Hsig).
  rewrite (silent_log _ _ _ _ (peer_signature_missing_silent _) Hsig).
  rewrite (silent_log _ _ _ _ (emits_only_call _ _) Hkrn).
  assert (se = sd) as ->.
  { destruct heightOk; simpl in Hfail; [by injection Hfail|].
    unfold OnFailed, UpdateTxDescription in Hfail. mcbv in Hfail.
    discriminate. }
  rewrite (silent_log _ _ _ _ (emits_only_call _ _) Hmax).
  assert (sc = sb) as ->.
  { destruct noPeerExcess; simpl in Hinv; [|by injection Hinv].
    by apply invitation_round_leaves in Hinv. }
  rewrite (silent_log _ _ _ _ (peer_excess_missing_silent _) Hpem).
  apply (silent_log _ _ _ _ (prepare_silent _ _ _) Hprep).
Qed.

Lemma GetParameter_insert_ne {T} (as_T : Value -> option T) id id' v (p : Store) :
  id' <> id ->
  GetParameter as_T id (<[id' := v]> p) = GetParameter as_T id p.
Proof. intros Hne. unfold GetParameter. by rewrite lookup_insert_ne. Qed.

Lemma run_ConfirmInvitation kk (s : Tx B) isSender :
  GetParameter as_bool TxParameterID.IsSender (params s) = Some isSender ->
  ConfirmInvitation env kk s =
    (Val tt,
     with_event
       (EvSendTxParameters
          (InvitationConfirmation_message env kk (builder s) isSender (params s)))
       s).
Proof.
  intros HisSender.
  unfold ConfirmInvitation, GetMandatory, GetMandatoryParameter,
    SendTxParameters.
  mcbv. rewrite HisSender. reflexivity.
Qed.

(** C6: a receiver-role, two-party record in state Initial, in a wallet
    with a key keeper, for which the negotiation reaches the kernel with
    the peer's signature still missing and [SignReceiver] completes
    (leaving the driver in state [s2]).  [UpdateImpl] sends the
    InvitationConfirmation message and then: if a PeerProtoVersion
    parameter is recorded, it records TransactionRegistered = Ok, sets
    the state to KernelConfirmation and requests the confirmation of the
    kernel id; otherwise it sets the state to InvitationConfirmation and
    requests nothing. *)
Theorem UpdateImpl_accepts_invitation
    (tx : SimpleTransaction B) kk b s1 s2 :
  m_KeyKeeper env = Some kk ->
  UpdateImpl_prologue env tx = inr (false, false, State.Initial, b) ->
  negotiate env false false State.Initial
    (at_sign_kernel tx false State.Initial b) = (Val true, s1) ->
  call SignReceiver s1 = (Val false, s2) ->
  GetParameter as_bool TxParameterID.IsSender (params s2) = Some false ->
  let p := <[TxParameterID.Status := VTxStatus TxStatus.Registering]> (params s2) in
  let msg := InvitationConfirmation_message env kk (builder s2) false p in
  UpdateImpl env tx =
    match GetParameter as_u32 TxParameterID.PeerProtoVersion (params s2) with
    | Some _ =>
      (Returned,
       {| m_Params :=
            <[TxParameterID.State := VState State.KernelConfirmation]>
              (<[TxParameterID.TransactionRegistered := VU8 proto.TxStatus.Ok]> p);
          m_TxBuilder := Some (builder s2) |},
       [EvSendTxParameters msg; EvConfirmKernel (GetKernelID (builder s2))])
    | None =>
      (Returned,
       {| m_Params :=
            <[TxParameterID.State := VState State.InvitationConfirmation]> p;
          m_TxBuilder := Some (builder s2) |},
       [EvSendTxParameters msg])
    end.
Proof.
  intros Hkk Hpro Hneg Hsign HisSender p msg.
  assert (Hns : no_signed_kernel tx false State.Initial b)
    by (right; split; [reflexivity | right; reflexivity]).
  destruct (at_sign_kernel_eq _ _ _ _ Hns) as (_ & _ & Hlog0).
  assert (Hlog2 : log s2 = []).
  { rewrite (silent_log _ _ _ _ (emits_only_call _ _) Hsign).
    rewrite <- Hlog0. eapply negotiate_val_log. exact Hneg. }
  rewrite (UpdateImpl_unsigned _ _ _ _ _ Hpro Hns).
  unfold sign_kernel. rewrite Hkk.
  mrun Hneg.
  rewrite (bool_decide_eq_true_2 (State.Initial = State.Initial)) by done.
  rewrite !when_true. unfold accept_invitation.
  mrun Hsign. rewrite return_if_false.
  rewrite ?run_bind_assoc, run_ret_bind.
  unfold UpdateTxDescription at 1.
  rewrite ?run_bind_assoc.
  rewrite (run_bind_val _ _ _ _ _ (eq_refl : SetParameter _ _ s2 = (Val tt, with_params p s2))).
  cbv beta.
  assert (HisSender' : GetParameter as_bool TxParameterID.IsSender
                         (params (with_params p s2)) = Some false).
  { simpl. subst p. rewrite GetParameter_insert_ne by done. exact HisSender. }
  pose proof (run_ConfirmInvitation kk _ _ HisSender') as Hconfirm.
  mrun Hconfirm.
  unfold SetState, ConfirmKernel. mcbv.
  cbn [params builder log with_event with_params].
  fold p. subst p. rewrite GetParameter_insert_ne by done.
  destruct (GetParameter as_u32 TxParameterID.PeerProtoVersion (params s2));
    cbn [params builder log with_event with_params app];
    rewrite Hlog2; reflexivity.
Qed.

(** C5, as amended: for a receiver-role (IsSender = false), non-self
    record, on which the assertion of line 380 holds, so that the
    function does the same with and without it.  The message sent by
    [ConfirmInvitation] is the eight builder parameters and
    - the stored signature, when the record already has a
      PaymentConfirmation parameter;
    - otherwise, when PeerID, MyID, KernelID and Amount are all recorded
      and MyID resolves to an owned address, the signature of (KernelID,
      Amount, sender key of PeerID) under the key derived by the SBBS
      KDF for that address;
    - otherwise no PaymentConfirmation at all: this is so when MyID,
      KernelID or Amount is not recorded (a record that has an
      AmountList and no Amount, for one), or MyID is not an owned
      address. *)
Theorem ConfirmInvitation_payment_proof kk (s : Tx B) :
  GetParameter as_bool TxParameterID.IsSender (params s) = Some false ->
  IsSelfTx env (params s) = inr false ->
  let base := InvitationConfirmation_params (builder s) in
  let sends msg := (Val tt, with_event (EvSendTxParameters msg) s) in
  ConfirmInvitation_asserting env kk s = Passed (ConfirmInvitation env kk s) /\
  (forall stored,
     GetParameter as_sig TxParameterID.PaymentConfirmation (params s)
       = Some stored ->
     ConfirmInvitation env kk s =
       sends (<[TxParameterID.PaymentConfirmation := VSig stored]> base)) /\
  (forall widPeer widMy kernelID value waddr,
     GetParameter as_sig TxParameterID.PaymentConfirmation (params s) = None ->
     GetParameter as_wid TxParameterID.PeerID (params s) = Some widPeer ->
     GetParameter as_wid TxParameterID.MyID (params s) = Some widMy ->
     GetParameter as_big TxParameterID.KernelID (params s) = Some kernelID ->
     GetParameter as_u64 TxParameterID.Amount (params s) = Some value ->
     getAddress widMy (m_WalletDB env) = Some waddr ->
     isOwn waddr = true ->
     let sk :=
       (Sk2Pk (SbbsKdf_DeriveKey kk
                 {| Key.m_Idx := m_OwnID waddr; Key.m_Type := Key.Bbs |})).2 in
     let sig :=
       Signature_Sign
         (PaymentConfirmation_get_Hash kernelID value (m_Pk widPeer)) sk in
     ConfirmInvitation env kk s =
       sends (<[TxParameterID.PaymentConfirmation := VSig sig]> base)) /\
  (GetParameter as_sig TxParameterID.PaymentConfirmation (params s) = None ->
   GetParameter as_wid TxParameterID.MyID (params s) = None \/
   GetParameter as_big TxParameterID.KernelID (params s) = None \/
   GetParameter as_u64 TxParameterID.Amount (params s) = None \/
   (exists widMy,
      GetParameter as_wid TxParameterID.MyID (params s) = Some widMy /\
      (isOwn <$> getAddress widMy (m_WalletDB env)) <> Some true) ->
   ConfirmInvitation env kk s = sends base).
Proof.
  intros HisSender Hself base sends.
  split; [unfold ConfirmInvitation_asserting; by rewrite Hself|].
  subst sends. cbv beta.
  rewrite (run_ConfirmInvitation kk s false HisSender).
  unfold InvitationConfirmation_message, payment_proof.
  split; [|split].
  - intros stored Hstored. rewrite Hstored. reflexivity.
  - intros widPeer widMy kernelID value waddr Hnone Hpeer Hmy Hkrn Hamount
      Haddr Hown.
    rewrite Hnone, Hpeer, Hmy, Hkrn, Hamount, Haddr, Hown.
    simpl negb. cbv iota zeta.
    destruct (Sk2Pk _) as [pk sk']. reflexivity.
  - intros Hnone Hcase. rewrite Hnone. simpl negb. cbv iota.
    destruct (GetParameter as_wid TxParameterID.PeerID (params s));
      [|reflexivity].
    destruct (GetParameter as_wid TxParameterID.MyID (params s)) as [widMy|];
      [|reflexivity].
    destruct (GetParameter as_big TxParameterID.KernelID (params s));
      [|reflexivity].
    destruct (GetParameter as_u64 TxParameterID.Amount (params s));
      [|reflexivity].
    destruct Hcase as [?|[?|[?|(widMy' & [= <-] & Hown)]]];
      try discriminate.
    destruct (getAddress widMy (m_WalletDB env)) as [waddr|]; [|reflexivity].
    simpl in Hown. destruct (isOwn waddr); [by destruct Hown | reflexivity].
Qed.

(** Neither [ConfirmInvitation] nor [NotifyTransactionRegistered] looks
    at the result of the send: they fail nothing and write nothing. *)
Lemma ConfirmInvitation_never_fails kk (s : Tx B) r s' :
  ConfirmInvitation env kk s = (r, s') ->
  params s' = params s /\
  forall reason notify, EvOnFailed reason notify ∉ drop (length (log s)) (log s').
Proof.
  unfold ConfirmInvitation, GetMandatory, GetMandatoryParameter,
    SendTxParameters. mcbv.
  destruct (GetParameter as_bool TxParameterID.IsSender (params s));
    intros [= <- <-]; cbn [params log]; split; try reflexivity;
    intros reason notify.
  - rewrite drop_app_length. intros Hin. apply list_elem_of_singleton in Hin.
    discriminate.
  - rewrite drop_all. apply not_elem_of_nil.
Qed.

(** The sender's counterpart: a failed send of the invitation fails the
    record with FailedToSendParameters. *)
Lemma SendInvitation_send_failure isSender (s : Tx B) :
  gateway_send env (Invitation_params (builder s) isSender) = false ->
  SendInvitation env isSender s =
    (Val tt,
     with_params
       (failed_params TxFailureReason.FailedToSendParameters (params s))
       (with_event (EvOnFailed TxFailureReason.FailedToSendParameters false)
          (with_event
             (EvSendTxParameters (Invitation_params (builder s) isSender)) s))).
Proof.
  intros Hsend. pose proof (run_SendInvitation isSender s) as Hrun.
  cbv zeta in Hrun. rewrite Hsend in Hrun. exact Hrun.
Qed.


Lemma UpdateImpl_body_failures isSender isSelfTx txState :
  emits_only (fails_within UpdateImpl_failure_reasons)
    (UpdateImpl_body env isSender isSelfTx txState : M B unit).
Proof.
  unfold UpdateImpl_body, kernel_stage, kernel_not_signed, sign_kernel,
    negotiate, prepare, peer_excess_missing, invitation_round,
    peer_signature_missing, accept_invitation, finalize,
    register_and_confirm, CheckExpired, SendInvitation, ConfirmInvitation,
    SendTxParameters, ConfirmKernel, UpdateOnNextTip, register_tx,
    SetCompletedTxCoinStatuses, CompleteTx, OnFailed, SetState,
    UpdateTxDescription, GetMandatory.
  emits.
  all: intros reason notify ?; simplify_eq;
    unfold UpdateImpl_failure_reasons; rewrite !elem_of_cons; tauto.
Qed.

(** The failures [UpdateImpl] gives are MaxHeightIsUnacceptable,
    InvalidPeerSignature, FailedToSendParameters, TransactionExpired,
    InvalidTransaction and FailedToRegister. *)
Lemma UpdateImpl_failure_reasons_bound
    (tx : SimpleTransaction B) reason notify :
  EvOnFailed reason notify ∈ (UpdateImpl env tx).2 ->
  reason ∈ UpdateImpl_failure_reasons /\
  reason <> TxFailureReason.NoPaymentProof.
Proof.
  intros Hin.
  assert (Hreason : reason ∈ UpdateImpl_failure_reasons).
  { revert Hin. unfold UpdateImpl.
    destruct (UpdateImpl_prologue env tx)
      as [e | [[[isSender isSelfTx] txState] b]];
      [intros Hin; by apply not_elem_of_nil in Hin|].
    destruct (UpdateImpl_body env isSender isSelfTx txState (entry tx b))
      as [r s] eqn:Hrun.
    destruct (UpdateImpl_body_failures _ _ _ _ _ _ Hrun)
      as (evs & Hlog & Hevs).
    simpl in *. rewrite Hlog. intros Hin.
    rewrite Forall_forall in Hevs. exact (Hevs _ Hin reason notify eq_refl). }
  split; [exact Hreason|].
  intros ->. revert Hreason. unfold UpdateImpl_failure_reasons.
  rewrite !elem_of_cons. intros H'. 
  repeat (destruct H' as [H'|H']; [discriminate H'|]).
  by apply not_elem_of_nil in H'.
Qed.

End DriverFacts.

(** ** Concrete runs *)

Section Runs.
Import Scenario.

(** C1, as stated, fails: Bob's answer carries a valid partial signature
    and a forged payment proof, which does not verify for (kernel id,
    amount, Alice's key) under Bob's key; Alice's [UpdateImpl] does not
    fail the record with NoPaymentProof but submits the transaction and
    moves to Registration. *)
Lemma UpdateImpl_forged_payment_proof_counterexample :
  PaymentConfirmation_IsValid (m_Pk bob)
    {| m_KernelID := 77; m_Sender := m_Pk alice; m_Value := 1000000;
       m_Signature := forged |} = false /\
  GetParameter as_sig TxParameterID.PaymentConfirmation answered_params
    = Some forged /\
  UpdateImpl alice_env answered_tx =
    (Returned,
     {| m_Params :=
          <[TxParameterID.State := VState State.Registration]> answered_params;
        m_TxBuilder := Some (script false true true) |},
     [EvRegisterTx the_transaction]).
Proof. repeat split; vm_compute; reflexivity. Qed.

(** C4 on the receiver's side: the send of the InvitationConfirmation
    fails, and the record is not failed: its status stays Registering,
    no failure reason is recorded, and it moves on to
    InvitationConfirmation. *)
Lemma UpdateImpl_confirmation_send_failure :
  UpdateImpl (bob_env false) receive_tx =
    (Returned,
     {| m_Params :=
          <[TxParameterID.State := VState State.InvitationConfirmation]>
            (<[TxParameterID.Status := VTxStatus TxStatus.Registering]>
               receive_params);
        m_TxBuilder := Some receiver_script |},
     [EvSendTxParameters
        (<[TxParameterID.PaymentConfirmation := VSig bob_proof]>
           (InvitationConfirmation_params receiver_script))]) /\
  gateway_send (bob_env false)
    (<[TxParameterID.PaymentConfirmation := VSig bob_proof]>
       (InvitationConfirmation_params receiver_script)) = false.
Proof. split; vm_compute; reflexivity. Qed.

Lemma UpdateImpl_public_wallet_is_idle_witness :
  exists b',
    UpdateImpl public_env send_tx =
      (Returned, {| m_Params := send_params; m_TxBuilder := Some b' |}, []).
Proof.
  apply (UpdateImpl_public_wallet_is_idle public_env send_tx
           true false State.Initial (script false false false)).
  - reflexivity.
  - vm_compute. reflexivity.
  - left. split; reflexivity.
Defined.

Lemma UpdateImpl_sends_invitation_witness :
  (UpdateImpl alice_env send_tx).2 =
    [EvSendTxParameters (Invitation_params (script false false false) true);
     EvUpdateOnNextTip].
Proof.
  pose (s1 := {| params := <[TxParameterID.Status := VTxStatus TxStatus.InProgress]>
                             send_params;
                 builder := script false false false; log := [] |}).
  assert (H1 : m_KeyKeeper alice_env = Some keeper) by reflexivity.
  assert (H2 : UpdateImpl_prologue alice_env send_tx
               = inr (true, false, State.Initial, script false false false))
    by (vm_compute; reflexivity).
  assert (H3 : no_signed_kernel send_tx true State.Initial
                 (script false false false))
    by (left; split; reflexivity).
  assert (H4 : (prepare true false State.Initial ;; peer_excess_missing false)
                 (at_sign_kernel send_tx true State.Initial
                    (script false false false)) = (Val true, s1))
    by (vm_compute; reflexivity).
  assert (H5 : call (SignSender true) s1 = (Val false, s1))
    by (vm_compute; reflexivity).
  destruct (UpdateImpl_sends_invitation alice_env send_tx keeper
              (script false false false) s1 s1 H1 H2 H3 H4 H5) as [Hrun _].
  rewrite Hrun. reflexivity.
Defined.

Lemma UpdateImpl_accepts_invitation_witness :
  UpdateImpl (bob_env true) receive_tx =
    (Returned,
     {| m_Params :=
          <[TxParameterID.State := VState State.InvitationConfirmation]>
            (<[TxParameterID.Status := VTxStatus TxStatus.Registering]>
               receive_params);
        m_TxBuilder := Some receiver_script |},
     [EvSendTxParameters
        (<[TxParameterID.PaymentConfirmation := VSig bob_proof]>
           (InvitationConfirmation_params receiver_script))]).
Proof.
  pose (s1 := {| params := <[TxParameterID.Status := VTxStatus TxStatus.InProgress]>
                             receive_params;
                 builder := receiver_script; log := [] |}).
  assert (H1 : m_KeyKeeper (bob_env true) = Some keeper) by reflexivity.
  assert (H2 : UpdateImpl_prologue (bob_env true) receive_tx
               = inr (false, false, State.Initial, receiver_script))
    by (vm_compute; reflexivity).
  assert (H3 : negotiate (bob_env true) false false State.Initial
                 (at_sign_kernel receive_tx false State.Initial receiver_script)
               = (Val true, s1))
    by (vm_compute; reflexivity).
  assert (H4 : call SignReceiver s1 = (Val false, s1))
    by (vm_compute; reflexivity).
  assert (H5 : GetParameter as_bool TxParameterID.IsSender (params s1)
               = Some false)
    by (vm_compute; reflexivity).
  rewrite (UpdateImpl_accepts_invitation (bob_env true) receive_tx keeper
             receiver_script s1 s1 H1 H2 H3 H4 H5).
  vm_compute. reflexivity.
Defined.

Lemma ConfirmInvitation_payment_proof_witness :
  let s := {| params := receive_params; builder := receiver_script;
              log := [] |} in
  ConfirmInvitation (bob_env true) keeper s =
    (Val tt,
     {| params := receive_params; builder := receiver_script;
        log := [EvSendTxParameters
                  (<[TxParameterID.PaymentConfirmation := VSig bob_proof]>
                     (InvitationConfirmation_params receiver_script))] |}).
Proof.
  intros s.
  assert (H1 : GetParameter as_bool TxParameterID.IsSender (params s)
               = Some false) by (vm_compute; reflexivity).
  assert (H2 : IsSelfTx (bob_env true) (params s) = inr false)
    by (vm_compute; reflexivity).
  destruct (ConfirmInvitation_payment_proof (bob_env true) keeper s H1 H2)
    as (_ & _ & Hsign & _).
  rewrite (Hsign alice bob 77 1000000 (own_address bob 5));
    vm_compute; reflexivity.
Defined.

(** C5, as stated, fails: Bob's record is a receiver's, not a self
    transfer, and MyID is an address he owns, but the amount is recorded
    as an AmountList without Amount.  [UpdateImpl] accepts the record
    and answers the invitation, and the InvitationConfirmation it sends
    is the eight builder parameters, without a PaymentConfirmation. *)
Lemma ConfirmInvitation_without_Amount_counterexample :
  GetParameter as_bool TxParameterID.IsSender listed_receive_params
    = Some false /\
  IsSelfTx (bob_env true) listed_receive_params = inr false /\
  GetParameter as_wid TxParameterID.MyID listed_receive_params = Some bob /\
  isOwn <$> getAddress bob (m_WalletDB (bob_env true)) = Some true /\
  UpdateImpl (bob_env true) listed_receive_tx =
    (Returned,
     {| m_Params :=
          <[TxParameterID.State := VState State.InvitationConfirmation]>
            (<[TxParameterID.Status := VTxStatus TxStatus.Registering]>
               listed_receive_params);
        m_TxBuilder := Some receiver_script |},
     [EvSendTxParameters (InvitationConfirmation_params receiver_script)]) /\
  InvitationConfirmation_params receiver_script
    !! TxParameterID.PaymentConfirmation = None.
Proof. repeat split; vm_compute; reflexivity. Qed.

(** Alice sends to her own address, created long ago. *)
Lemma CheckAndCompleteParameters_expired_iff_and_new_entry_witness :
  (CheckAndCompleteParameters
     (<[TxParameterID.PeerID := VWid alice]> send_params)
     (m_WalletDB alice_env)).1 = inl AddressExpiredException.
Proof.
  apply (proj1 (CheckAndCompleteParameters_expired_iff_and_new_entry
                  (<[TxParameterID.PeerID := VWid alice]> send_params)
                  (m_WalletDB alice_env))).
  exists alice, (own_address alice 1).
  repeat split; vm_compute; reflexivity.
Defined.
End Runs.

(** * Further properties *)

(** ** The creator and the address book *)

Section MoreCreatorFacts.
Context `{!Wallet}.

Lemma CheckAndCompleteParameters_success (parameters p' : Store)
    (db db' : AddressBook) :
  CheckAndCompleteParameters parameters db = (inr p', db') ->
  exists peerID,
    GetParameter as_wid TxParameterID.PeerID parameters = Some peerID /\
    match getAddress peerID db with
    | Some addr =>
      (isOwn addr && isExpired addr = false) /\
      let addr' :=
        match GetParameterRaw TxParameterID.Message parameters with
        | Some msg => set_label msg addr
        | None => addr
        end in
      p' = <[TxParameterID.IsSelfTx := VBool (isOwn addr')]> parameters /\
      db' = match GetParameterRaw TxParameterID.Message parameters with
            | Some msg =>
              if bool_decide (msg ≠ m_label addr) then saveAddress addr' db
              else db
            | None => db
            end
    | None =>
      p' = parameters /\
      db' = saveAddress
              {| m_walletID := peerID;
                 m_label :=
                   default "" (GetParameterRaw TxParameterID.Message parameters);
                 m_createTime := getTimestamp; m_OwnID := 0 |} db
    end.
Proof.
  unfold CheckAndCompleteParameters.
  destruct (GetParameter as_wid TxParameterID.PeerID parameters) as [peerID|];
    [|discriminate].
  intros Hrun. exists peerID. split; [reflexivity|].
  destruct (getAddress peerID db) as [addr|].
  - destruct (isOwn addr && isExpired addr); [discriminate|].
    split; [reflexivity|].
    destruct (GetParameterRaw TxParameterID.Message parameters) as [msg|].
    + case_bool_decide as Hne.
      * injection Hrun as <- <-. done.
      * injection Hrun as <- <-. split; [|reflexivity].
        assert (msg = m_label addr) as ->
          by (destruct (decide (msg = m_label addr)); [done | by destruct Hne]).
        destruct addr; reflexivity.
    + injection Hrun as <- <-. done.
  - destruct (GetParameterRaw TxParameterID.Message parameters) as [msg|];
      injection Hrun as <- <-; done.
Qed.

(** X1: the call fails with the invalid-parameters error exactly when PeerID
    is missing (or not a wallet id), and a failing call, whatever its
    error, leaves the address book as it was. *)
Theorem CheckAndCompleteParameters_failure
    (parameters : Store) (db : AddressBook) :
  ((CheckAndCompleteParameters parameters db).1
     = inl InvalidTransactionParametersException <->
   GetParameter as_wid TxParameterID.PeerID parameters = None) /\
  (forall e, (CheckAndCompleteParameters parameters db).1 = inl e ->
             (CheckAndCompleteParameters parameters db).2 = db).
Proof.
  unfold CheckAndCompleteParameters.
  destruct (GetParameter as_wid TxParameterID.PeerID parameters) as [peerID|];
    [|done].
  destruct (getAddress peerID db) as [addr|].
  - destruct (isOwn addr && isExpired addr); [done|].
    destruct (GetParameterRaw TxParameterID.Message parameters) as [msg|];
      [case_bool_decide|]; done.
  - done.
Qed.

(** X2: on an address book keyed by wallet id, a successful call changes
    no entry but the peer's, leaves the book keyed and the peer in it, and
    returns the parameters it was given except for IsSelfTx. *)
Theorem CheckAndCompleteParameters_frame
    (parameters p' : Store) (db db' : AddressBook) peerID :
  keyed db ->
  GetParameter as_wid TxParameterID.PeerID parameters = Some peerID ->
  CheckAndCompleteParameters parameters db = (inr p', db') ->
  keyed db' /\
  is_Some (getAddress peerID db') /\
  (forall w, w <> peerID -> getAddress w db' = getAddress w db) /\
  (forall k, k <> TxParameterID.IsSelfTx -> p' !! k = parameters !! k).
Proof.
  intros Hkeyed Hpeer Hrun.
  destruct (CheckAndCompleteParameters_success _ _ _ _ Hrun)
    as (peerID' & Hpeer' & Hcase).
  rewrite Hpeer in Hpeer'. injection Hpeer' as <-.
  unfold getAddress in *.
  destruct (db !! peerID) as [addr|] eqn:Haddr.
  - destruct Hcase as (_ & -> & ->).
    pose proof (Hkeyed _ _ Haddr) as Hid.
    assert (Hsave : forall msg,
              saveAddress (set_label msg addr) db
              = <[peerID := set_label msg addr]> db)
      by (intros msg; unfold saveAddress; simpl; by rewrite Hid).
    assert (Hparams : forall k, k <> TxParameterID.IsSelfTx ->
              forall v, (<[TxParameterID.IsSelfTx := v]> parameters) !! k
                        = parameters !! k)
      by (intros k Hne v; by rewrite lookup_insert_ne).
    destruct (GetParameterRaw TxParameterID.Message parameters) as [msg|];
      [case_bool_decide; [rewrite Hsave|]|].
    + split; [|split; [|split]]; [| | |by auto].
      * intros w a. destruct (decide (w = peerID)) as [->|Hne].
        -- rewrite lookup_insert_eq. intros [= <-]. exact Hid.
        -- rewrite lookup_insert_ne by done. apply Hkeyed.
      * rewrite lookup_insert_eq. eauto.
      * intros w Hne. by rewrite lookup_insert_ne.
    + split; [|split; [|split]];
        [exact Hkeyed | rewrite Haddr; eauto | done | by auto].
    + split; [|split; [|split]];
        [exact Hkeyed | rewrite Haddr; eauto | done | by auto].
  - destruct Hcase as (-> & ->). unfold saveAddress. simpl.
    split; [|split; [|split]]; [| | |done].
    + intros w a. destruct (decide (w = peerID)) as [->|Hne].
      * rewrite lookup_insert_eq. by intros [= <-].
      * rewrite lookup_insert_ne by done. apply Hkeyed.
    + rewrite lookup_insert_eq. eauto.
    + intros w Hne. by rewrite lookup_insert_ne.
Qed.

Lemma peer_label (parameters p' : Store) (db db' : AddressBook) peerID :
  keyed db ->
  GetParameter as_wid TxParameterID.PeerID parameters = Some peerID ->
  CheckAndCompleteParameters parameters db = (inr p', db') ->
  m_label <$> getAddress peerID db' =
    Some (default (default "" (m_label <$> getAddress peerID db))
            (GetParameterRaw TxParameterID.Message parameters)).
Proof.
  intros Hkeyed Hpeer Hrun.
  destruct (CheckAndCompleteParameters_success _ _ _ _ Hrun)
    as (peerID' & Hpeer' & Hcase).
  rewrite Hpeer in Hpeer'. injection Hpeer' as <-.
  unfold getAddress in *.
  destruct (db !! peerID) as [addr|] eqn:Haddr.
  - destruct Hcase as (_ & _ & ->).
    pose proof (Hkeyed _ _ Haddr) as Hid.
    destruct (GetParameterRaw TxParameterID.Message parameters) as [msg|];
      [case_bool_decide as Hne|].
    + unfold saveAddress. simpl. rewrite Hid, lookup_insert_eq. reflexivity.
    + rewrite Haddr. simpl. f_equal.
      destruct (decide (msg = m_label addr)); [done | by destruct Hne].
    + rewrite Haddr. reflexivity.
  - destruct Hcase as (_ & ->). unfold saveAddress. simpl.
    rewrite lookup_insert_eq. simpl.
    by destruct (GetParameterRaw TxParameterID.Message parameters).
Qed.

(** X3: after a successful call on a keyed address book the peer's entry
    carries the Message parameter as its label when there is one;
    without a Message a known peer keeps its label and a new peer gets the
    empty label. *)
Theorem CheckAndCompleteParameters_label
    (parameters p' : Store) (db db' : AddressBook) peerID :
  keyed db ->
  GetParameter as_wid TxParameterID.PeerID parameters = Some peerID ->
  CheckAndCompleteParameters parameters db = (inr p', db') ->
  m_label <$> getAddress peerID db' =
    Some (default (default "" (m_label <$> getAddress peerID db))
            (GetParameterRaw TxParameterID.Message parameters)).
Proof.
  exact (peer_label parameters p' db db' peerID).
Qed.

(** X4: on a keyed address book, a second successful call with the same
    parameters changes nothing in the address book. *)
Theorem CheckAndCompleteParameters_stable
    (parameters p1 p2 : Store) (db db1 db2 : AddressBook) :
  keyed db ->
  CheckAndCompleteParameters parameters db = (inr p1, db1) ->
  CheckAndCompleteParameters parameters db1 = (inr p2, db2) ->
  db2 = db1.
Proof.
  intros Hkeyed Hrun1 Hrun2.
  destruct (CheckAndCompleteParameters_success _ _ _ _ Hrun1)
    as (peerID & Hpeer & Hcase1).
  pose proof (peer_label _ _ _ _ _ Hkeyed Hpeer Hrun1) as Hlabel.
  destruct (CheckAndCompleteParameters_success _ _ _ _ Hrun2)
    as (peerID' & Hpeer' & Hcase2).
  rewrite Hpeer in Hpeer'. injection Hpeer' as <-.
  destruct (getAddress peerID db1) as [addr1|]; [|discriminate Hlabel].
  destruct Hcase2 as (_ & _ & ->).
  destruct (GetParameterRaw TxParameterID.Message parameters) as [msg|];
    [|reflexivity].
  simpl in Hlabel. injection Hlabel as Hlabel.
  rewrite bool_decide_eq_false_2; [reflexivity|].
  intros Hne. by apply Hne.
Qed.
End MoreCreatorFacts.

(** ** The driver: exits, failures and submissions *)

Section OnceFacts.
Context {B : Type} `{!BaseTxBuilder B} `{!Wallet}.
Variable C : Event -> bool.
Variable Q : Event -> Tx B -> Prop.

Lemma once_of_emits_only {A} (m : M B A) :
  emits_only (fun e => C e = false) m -> once C Q m.
Proof.
  intros Hm s r s' Hrun. destruct (Hm _ _ _ Hrun) as (evs & Hlog & Hevs).
  exists evs. split; [exact Hlog|]. left. clear Hlog.
  induction Hevs as [|e evs He _ IH]; [reflexivity|].
  simpl. rewrite He. exact IH.
Qed.

Lemma once_bind {A D} (m : M B A) (k : A -> M B D) :
  once C Q m -> (forall a, once C Q (k a)) -> once C Q (m ≫= k).
Proof.
  intros Hm Hk s r s'. rewrite run_bind.
  destruct (m s) as [[a| |e] s1] eqn:Hms; intros Hrun;
    destruct (Hm _ _ _ Hms) as (evs1 & E1 & F1).
  - destruct F1 as [F1 | [Hexit _]]; [|by destruct (Hexit a)].
    destruct (Hk a _ _ _ Hrun) as (evs2 & E2 & F2).
    exists (evs1 ++ evs2). rewrite E2, E1, app_assoc.
    split; [reflexivity|]. rewrite List.filter_app, F1. exact F2.
  - injection Hrun as <- <-. exists evs1. split; [exact E1|].
    destruct F1 as [F1 | [_ F1]]; [by left | right].
    split; [discriminate | exact F1].
  - injection Hrun as <- <-. exists evs1. split; [exact E1|].
    destruct F1 as [F1 | [_ F1]]; [by left | right].
    split; [discriminate | exact F1].
Qed.

Lemma once_when (c : bool) (m : M B unit) :
  once C Q m -> once C Q (when c m).
Proof.
  destruct c; [done|]. intros _. apply once_of_emits_only, emits_only_ret.
Qed.
End OnceFacts.

(** Walks through a piece of the driver: blocks known from the context
    first, then pieces that emit nothing of the class, then the
    structure. *)
Ltac once_leaf :=
  apply once_of_emits_only;
  unfold prepare, peer_excess_missing, invitation_round,
    peer_signature_missing, accept_invitation, finalize,
    register_and_confirm, CheckExpired, SendInvitation, ConfirmInvitation,
    SendTxParameters, ConfirmKernel, UpdateOnNextTip, register_tx,
    SetCompletedTxCoinStatuses, CompleteTx, OnFailed, SetState,
    UpdateTxDescription, GetMandatory, kernel_not_signed;
  emits; reflexivity.

Ltac once_step :=
  first
    [ solve [auto 2]
    | solve [once_leaf]
    | lazymatch goal with
      | |- once _ _ (_ ≫= _) => apply once_bind; [| intros ?]
      | |- once _ _ (if ?c then _ else _) => destruct c
      | |- once _ _ (match ?x with _ => _ end) => destruct x
      | |- once _ _ (when _ _) => apply once_when
      end ].

Ltac once_walk := repeat once_step.

Section MoreDriverFacts.
Context {B : Type} `{!BaseTxBuilder B} `{!Wallet}.
Variable env : Environment.

(** The run of lines 216-226. *)
Lemma run_invitation_round isSender txState (s : Tx B) :
  invitation_round env isSender txState s =
    if bool_decide (txState = State.Initial)
    then
      let '(inProgress, b, p) := SignSender true (params s) (builder s) in
      let s1 := {| params := p; builder := b; log := log s |} in
      if (inProgress : bool) then (Returned, s1)
      else
        let msg := Invitation_params b isSender in
        let s2 :=
          if gateway_send env msg
          then with_event (EvSendTxParameters msg) s1
          else with_params
                 (failed_params TxFailureReason.FailedToSendParameters p)
                 (with_event
                    (EvOnFailed TxFailureReason.FailedToSendParameters false)
                    (with_event (EvSendTxParameters msg) s1)) in
        (Returned,
         with_event EvUpdateOnNextTip
           (with_params
              (<[TxParameterID.State := VState State.Invitation]> (params s2))
              s2))
    else (Returned, with_event EvUpdateOnNextTip s).
Proof.
  unfold invitation_round. case_bool_decide.
  - rewrite when_true, ?run_bind_assoc.
    rewrite run_bind. unfold call at 1.
    destruct (SignSender true (params s) (builder s)) as [[inProgress b] p].
    destruct inProgress; [reflexivity|].
    rewrite return_if_false, ?run_bind_assoc, run_ret_bind, ?run_bind_assoc.
    pose proof (run_SendInvitation env isSender
                  {| params := p; builder := b; log := log s |}) as Hsend.
    cbv zeta in Hsend. cbn [params builder log] in Hsend.
    rewrite (run_bind_val _ _ _ _ _ Hsend).
    unfold SetState, UpdateOnNextTip. mcbv.
    destruct (gateway_send env (Invitation_params b isSender)); reflexivity.
  - unfold UpdateOnNextTip. mcbv. reflexivity.
Qed.

(** The run of lines 292-315, when no verdict is recorded. *)
Lemma register_and_confirm_unregistered (s : Tx B) :
  GetParameter as_u8 TxParameterID.TransactionRegistered (params s) = None ->
  register_and_confirm s =
    if IsExpiredAtTip (params s)
    then (Returned,
          with_params
            (failed_params TxFailureReason.TransactionExpired (params s))
            (with_event (EvOnFailed TxFailureReason.TransactionExpired false) s))
    else
      let '(transaction, b, p) := CreateTransaction (params s) (builder s) in
      let s1 := {| params := p; builder := b; log := log s |} in
      if Transaction_IsValid (GetMinHeight b) transaction
      then (Returned,
            with_params
              (<[TxParameterID.State := VState State.Registration]> p)
              (with_event (EvRegisterTx transaction) s1))
      else (Returned,
            with_params
              (failed_params TxFailureReason.InvalidTransaction p)
              (with_event (EvOnFailed TxFailureReason.InvalidTransaction true) s1)).
Proof.
  intros Hreg. unfold register_and_confirm, CheckExpired, OnFailed,
    UpdateTxDescription, register_tx, SetState.
  mcbv. rewrite Hreg.
  destruct (IsExpiredAtTip (params s)); [reflexivity|].
  destruct (CreateTransaction (params s) (builder s)) as [[transaction b] p].
  cbn [params builder log].
  destruct (Transaction_IsValid (GetMinHeight b) transaction); reflexivity.
Qed.

(** Splits the log of an explicit final state into the old log and the
    events of the run. *)
Ltac new_events :=
  eexists; split;
  [ cbn [log params builder with_event with_params];
    rewrite <- ?app_assoc; first [reflexivity | symmetry; apply app_nil_r] |].

Ltac persisted :=
  right; split; [discriminate|]; eexists; split; [reflexivity|];
  eexists _, _; split; [reflexivity|];
  cbn [params builder log with_event with_params];
  unfold failed_params, GetParameter; split; by simplify_map_eq.

Lemma once_OnFailed_return reason notify :
  once is_failure failure_persisted
    (OnFailed reason notify ;; return_ : M B unit).
Proof.
  intros s r s'. unfold OnFailed, UpdateTxDescription. mcbv.
  intros [= <- <-]. new_events. persisted.
Qed.

Lemma once_failure_invitation_round isSender txState :
  once is_failure failure_persisted (invitation_round env isSender txState).
Proof.
  intros s r s'. rewrite run_invitation_round. case_bool_decide.
  - destruct (SignSender true (params s) (builder s)) as [[inProgress b] p].
    destruct inProgress; [intros [= <- <-]; new_events; by left|].
    cbv zeta. destruct (gateway_send env (Invitation_params b isSender));
      intros [= <- <-]; new_events; [by left | persisted].
  - intros [= <- <-]. new_events. by left.
Qed.

Lemma once_failure_register_and_confirm :
  once is_failure failure_persisted (register_and_confirm : M B unit).
Proof.
  intros s r s'.
  destruct (GetParameter as_u8 TxParameterID.TransactionRegistered (params s))
    as [nRegistered|] eqn:Hreg.
  - pose proof (register_and_confirm_verdict s nRegistered Hreg) as Hrun.
    cbv zeta in Hrun. rewrite Hrun. clear Hrun.
    repeat match goal with
           | |- context [if ?c then _ else _] => destruct c
           end;
      intros [= <- <-]; new_events; first [by left | persisted].
  - rewrite (register_and_confirm_unregistered s Hreg).
    destruct (IsExpiredAtTip (params s));
      [intros [= <- <-]; new_events; persisted|].
    destruct (CreateTransaction (params s) (builder s)) as [[t b] p].
    cbv zeta. destruct (Transaction_IsValid (GetMinHeight b) t);
      intros [= <- <-]; new_events; [by left | persisted].
Qed.

Lemma once_failure_body isSender isSelfTx txState :
  once is_failure failure_persisted
    (UpdateImpl_body env isSender isSelfTx txState).
Proof.
  pose proof once_OnFailed_return as Hb1.
  pose proof once_failure_invitation_round as Hb2.
  pose proof once_failure_register_and_confirm as Hb3.
  unfold UpdateImpl_body, kernel_stage, sign_kernel, negotiate, finalize.
  once_walk.
Qed.

(** What [once] says of a whole [UpdateImpl]. *)
Lemma UpdateImpl_once C Q (tx : SimpleTransaction B) :
  (forall isSender isSelfTx txState,
     once C Q (UpdateImpl_body env isSender isSelfTx txState)) ->
  List.filter C (UpdateImpl env tx).2 = [] \/
  exists e s,
    List.filter C (UpdateImpl env tx).2 = [e] /\ Q e s /\
    (UpdateImpl env tx).1.2
      = {| m_Params := params s; m_TxBuilder := Some (builder s) |}.
Proof.
  intros Hbody. unfold UpdateImpl.
  destruct (UpdateImpl_prologue env tx)
    as [e | [[[isSender isSelfTx] txState] b]]; [by left|].
  destruct (UpdateImpl_body env isSender isSelfTx txState (entry tx b))
    as [r s] eqn:Hrun.
  destruct (Hbody _ _ _ _ _ _ Hrun) as (evs & Hlog & Hevs).
  simpl in Hlog. cbn [fst snd]. rewrite Hlog.
  destruct Hevs as [Hevs | (_ & e & Hevs & HQ)]; [by left | right].
  exists e, s. done.
Qed.

(** X6: one [UpdateImpl] reports at most one failure, and a failure it
    reports is the one the record keeps: afterwards the record's status is
    Failed and its InternalFailureReason is the reported reason. *)
Theorem UpdateImpl_failure_persisted (tx : SimpleTransaction B) :
  List.filter is_failure (UpdateImpl env tx).2 = [] \/
  exists reason notify,
    List.filter is_failure (UpdateImpl env tx).2 = [EvOnFailed reason notify] /\
    GetParameter as_status TxParameterID.Status
      (m_Params (UpdateImpl env tx).1.2) = Some TxStatus.Failed /\
    GetParameter as_reason TxParameterID.InternalFailureReason
      (m_Params (UpdateImpl env tx).1.2) = Some reason.
Proof.
  destruct (UpdateImpl_once is_failure failure_persisted tx once_failure_body)
    as [Hnone | (e & s & Hone & (reason & notify & -> & Hstatus & Hreason) & Htx)];
    [by left | right].
  exists reason, notify. rewrite Htx. done.
Qed.

Ltac exits_with_one :=
  right; split; [discriminate|]; eexists; split; [reflexivity|].

Lemma once_outbound_invitation_round isSender txState :
  once is_outbound outbound_ok (invitation_round env isSender txState).
Proof.
  intros s r s'. rewrite run_invitation_round. case_bool_decide.
  - destruct (SignSender true (params s) (builder s)) as [[inProgress b] p].
    destruct inProgress; [intros [= <- <-]; new_events; by left|].
    cbv zeta. destruct (gateway_send env (Invitation_params b isSender));
      intros [= <- <-]; new_events; exits_with_one; discriminate.
  - intros [= <- <-]. new_events. by left.
Qed.

Lemma once_outbound_accept_invitation kk :
  once is_outbound outbound_ok (accept_invitation env kk : M B unit).
Proof.
  intros s r s'.
  unfold accept_invitation, ConfirmInvitation, GetMandatory,
    GetMandatoryParameter, SendTxParameters, UpdateTxDescription, SetState,
    ConfirmKernel.
  mcbv. destruct (SignReceiver (params s) (builder s)) as [[inProgress b] p].
  cbn [params builder log].
  destruct inProgress; [intros [= <- <-]; new_events; by left|].
  destruct (GetParameter as_bool TxParameterID.IsSender _);
    [|intros [= <- <-]; new_events; by left].
  cbn [params builder log].
  destruct (GetParameter as_u32 TxParameterID.PeerProtoVersion _);
    intros [= <- <-]; new_events; exits_with_one; discriminate.
Qed.

Lemma once_outbound_register_and_confirm :
  once is_outbound outbound_ok (register_and_confirm : M B unit).
Proof.
  intros s r s'.
  destruct (GetParameter as_u8 TxParameterID.TransactionRegistered (params s))
    as [nRegistered|] eqn:Hreg.
  - pose proof (register_and_confirm_verdict s nRegistered Hreg) as Hrun.
    cbv zeta in Hrun. rewrite Hrun. clear Hrun.
    repeat match goal with
           | |- context [if ?c then _ else _] => destruct c
           end;
      intros [= <- <-]; new_events; by left.
  - rewrite (register_and_confirm_unregistered s Hreg).
    destruct (IsExpiredAtTip (params s));
      [intros [= <- <-]; new_events; by left|].
    destruct (CreateTransaction (params s) (builder s)) as [[t b] p].
    cbv zeta. destruct (Transaction_IsValid (GetMinHeight b) t) eqn:Hvalid;
      intros [= <- <-]; new_events; [|by left].
    exits_with_one. intros _. exists t.
    cbn [params builder log with_event with_params].
    split; [reflexivity|]. split; [exact Hvalid|].
    unfold GetState, GetParameter. by simplify_map_eq.
Qed.

Lemma once_outbound_body isSender isSelfTx txState :
  once is_outbound outbound_ok
    (UpdateImpl_body env isSender isSelfTx txState).
Proof.
  pose proof once_outbound_invitation_round as Hb1.
  pose proof once_outbound_accept_invitation as Hb2.
  pose proof once_outbound_register_and_confirm as Hb3.
  unfold UpdateImpl_body, kernel_stage, sign_kernel, negotiate.
  once_walk.
Qed.


(** X8: a transaction that [UpdateImpl] submits has passed the validity
    check at the builder's minimum height, and the record it leaves is in
    state Registration. *)
Theorem UpdateImpl_registers_valid (tx : SimpleTransaction B) t :
  EvRegisterTx t ∈ (UpdateImpl env tx).2 ->
  exists b,
    m_TxBuilder (UpdateImpl env tx).1.2 = Some b /\
    Transaction_IsValid (GetMinHeight b) t = true /\
    GetState (m_Params (UpdateImpl env tx).1.2) = State.Registration.
Proof.
  intros Hin.
  assert (Hfilter : EvRegisterTx t ∈ List.filter is_outbound (UpdateImpl env tx).2).
  { apply list_elem_of_In, List.filter_In. split; [by apply list_elem_of_In | reflexivity]. }
  destruct (UpdateImpl_once is_outbound outbound_ok tx once_outbound_body)
    as [Hnone | (e & s & Hone & Hok & Htx)].
  - rewrite Hnone in Hfilter. by apply not_elem_of_nil in Hfilter.
  - rewrite Hone in Hfilter. apply list_elem_of_singleton in Hfilter. subst e.
    destruct (Hok eq_refl) as (t' & [= <-] & Hvalid & Hstate).
    exists (builder s). rewrite Htx. done.
Qed.

Lemma emits_only_ret_bind P {A D} (a : A) (k : A -> M B D) :
  emits_only P (k a) -> emits_only P (ret a ≫= k).
Proof. intros Hk s r s' Hrun. exact (Hk s r s' Hrun). Qed.

Lemma emits_only_bind_val P {A D} (m : M B A) (k : A -> M B D) :
  emits_only P m ->
  (forall a, (exists s s', m s = (Val a, s')) -> emits_only P (k a)) ->
  emits_only P (m ≫= k).
Proof.
  intros Hm Hk s r s'. rewrite run_bind.
  destruct (m s) as [[a| |e] s1] eqn:Hms; intros Hrun;
    destruct (Hm _ _ _ Hms) as (evs1 & E1 & F1).
  - destruct (Hk a (ex_intro _ s (ex_intro _ s1 Hms)) _ _ _ Hrun)
      as (evs2 & E2 & F2).
    exists (evs1 ++ evs2). rewrite E2, E1, app_assoc.
    split; [reflexivity | by apply Forall_app].
  - injection Hrun as <- <-. eauto.
  - injection Hrun as <- <-. eauto.
Qed.

(** In a self transaction the peer's signature is never waited for. *)
Lemma negotiate_self isSender txState (s : Tx B) v s' :
  negotiate env isSender true txState s = (Val v, s') -> v = false.
Proof.
  unfold negotiate, peer_signature_missing. cbn [negb]. intros Hrun.
  apply bind_val_inv in Hrun as ([] & sa & _ & Hrun).
  apply bind_val_inv in Hrun as (noPeerExcess & sb & _ & Hrun).
  apply bind_val_inv in Hrun as ([] & sc & _ & Hrun).
  apply bind_val_inv in Hrun as (heightOk & sd & _ & Hrun).
  apply bind_val_inv in Hrun as ([] & se & _ & Hrun).
  apply bind_val_inv in Hrun as ([] & sf & _ & Hrun).
  by injection Hrun as <- _.
Qed.

Ltac self_step :=
  first
    [ lazymatch goal with
      | |- emits_only _ (ret _ ≫= _) => apply emits_only_ret_bind; cbv beta
      | |- emits_only _ (when false _ ≫= _) =>
          apply emits_only_bind; [apply emits_only_ret | intros _]
      end
    | emits_step ].

Lemma sends_nothing_body isSender txState :
  emits_only (fun e => is_send e = false /\ e <> EvUpdateOnNextTip)
    (UpdateImpl_body env isSender true txState : M B unit).
Proof.
  unfold UpdateImpl_body, kernel_stage, kernel_not_signed, sign_kernel.
  apply emits_only_bind; [|intros _].
  - apply emits_only_bind; [emits | intros _].
    apply emits_only_bind; [emits | intros unsigned].
    apply emits_only_when. destruct (m_KeyKeeper env) as [kk|]; [|emits].
    apply emits_only_bind_val.
    + unfold negotiate, peer_excess_missing, peer_signature_missing.
      cbn [negb].
      unfold prepare, UpdateOnNextTip, OnFailed, SetState, UpdateTxDescription.
      repeat self_step. all: done.
    + intros v (s & s' & Hrun). apply negotiate_self in Hrun. subst v.
      apply emits_only_bind; [apply emits_only_ret | intros _].
      unfold finalize, OnFailed, UpdateTxDescription. cbn [negb].
      emits. all: done.
  - unfold register_and_confirm, CheckExpired, ConfirmKernel,
      register_tx, SetCompletedTxCoinStatuses, CompleteTx,
      OnFailed, SetState, UpdateTxDescription.
    emits. all: done.
Qed.

(** X9: for a self transaction (PeerID is an owned address) [UpdateImpl]
    itself hands no message for a peer to the gateway: it calls neither
    [SendInvitation] nor [ConfirmInvitation], and it never waits for the
    next tip, whatever the record and the builder.  What [OnFailed] does
    to notify the peer when it is called with notify = true is not
    counted. *)
Theorem UpdateImpl_self_sends_nothing
    (tx : SimpleTransaction B) isSender txState b :
  UpdateImpl_prologue env tx = inr (isSender, true, txState, b) ->
  Forall (fun e => is_send e = false /\ e <> EvUpdateOnNextTip)
    (UpdateImpl env tx).2.
Proof.
  intros Hpro. unfold UpdateImpl. rewrite Hpro.
  destruct (UpdateImpl_body env isSender true txState (entry tx b))
    as [r s] eqn:Hrun.
  destruct (sends_nothing_body _ _ _ _ _ Hrun) as (evs & Hlog & Hevs).
  simpl in *. by rewrite Hlog.
Qed.

(** X10: [UpdateImpl] throws before doing anything exactly when a
    mandatory parameter cannot be read: IsSender, PeerID, Amount when
    there is no AmountList, Fee when the builder is not built yet, looked
    for in this order.  The throw names the first such parameter, and the
    object is unchanged and nothing is emitted. *)
Theorem UpdateImpl_missing_parameter (tx : SimpleTransaction B) :
  match first_missing tx with
  | Some key => UpdateImpl env tx = (Thrown (MissingParameter key), tx, [])
  | None => exists entry_state, UpdateImpl_prologue env tx = inr entry_state
  end.
Proof.
  unfold first_missing, UpdateImpl, UpdateImpl_prologue, IsSelfTx,
    GetMandatoryParameter.
  destruct (GetParameter as_bool TxParameterID.IsSender (m_Params tx));
    destruct (GetParameter as_wid TxParameterID.PeerID (m_Params tx));
    destruct (GetParameter as_amounts TxParameterID.AmountList (m_Params tx));
    destruct (GetParameter as_u64 TxParameterID.Amount (m_Params tx));
    destruct (m_TxBuilder tx);
    destruct (GetParameter as_u64 TxParameterID.Fee (m_Params tx));
    first [reflexivity | eexists; reflexivity].
Qed.

Lemma when_false (m : M B unit) : when false m = ret tt.
Proof. reflexivity. Qed.

Lemma quiet_of_silent {A} (m : M B A) : silent m -> quiet_through m.
Proof. intros Hm s v s' Hrun. eapply silent_log; eassumption. Qed.

Lemma quiet_bind {A D} (m : M B A) (k : A -> M B D) :
  quiet_through m -> (forall a, quiet_through (k a)) ->
  quiet_through (m ≫= k).
Proof.
  intros Hm Hk s v s' Hrun.
  apply bind_val_inv in Hrun as (a & s1 & Hms & Hks).
  rewrite (Hk _ _ _ _ Hks). exact (Hm _ _ _ Hms).
Qed.

Lemma quiet_exit {A} (m : M B A) : quiet_through (m ;; return_ : M B unit).
Proof.
  intros s v s' Hrun. apply bind_val_inv in Hrun as (a & s1 & _ & Hks).
  discriminate.
Qed.

Lemma quiet_when (c : bool) (m : M B unit) :
  quiet_through m -> quiet_through (when c m).
Proof. destruct c; [done|]. intros _ s v s'. by intros [= _ <-]. Qed.

Lemma quiet_invitation_round isSender txState :
  quiet_through (invitation_round env isSender txState).
Proof. intros s v s' Hrun. by apply invitation_round_leaves in Hrun. Qed.

Lemma quiet_accept_invitation kk :
  quiet_through (accept_invitation env kk : M B unit).
Proof.
  intros s v s' Hrun. unfold accept_invitation in Hrun.
  repeat (apply bind_val_inv in Hrun as (? & ? & _ & Hrun)).
  discriminate.
Qed.

Ltac quiet_leaf :=
  apply quiet_of_silent;
  unfold prepare, peer_excess_missing, peer_signature_missing,
    kernel_not_signed, SetState, UpdateTxDescription;
  emits.

Ltac quiet_step :=
  first
    [ solve [auto 2]
    | solve [quiet_leaf]
    | lazymatch goal with
      | |- quiet_through (_ ≫= _) => apply quiet_bind; [| intros ?]
      | |- quiet_through (if ?c then _ else _) => destruct c
      | |- quiet_through (match ?x with _ => _ end) => destruct x
      | |- quiet_through (when _ _) => apply quiet_when
      end ].

(** Lines 142-290 fall through only when nothing has been emitted. *)
Lemma kernel_stage_val_log isSender isSelfTx txState :
  quiet_through (kernel_stage env isSender isSelfTx txState).
Proof.
  pose proof quiet_invitation_round as Hb1.
  pose proof quiet_accept_invitation as Hb2.
  pose proof (fun reason notify =>
                quiet_exit (OnFailed reason notify : M B unit)) as Hb3.
  assert (Hb4 : quiet_through (return_ : M B unit)) by (intros s v s'; discriminate).
  unfold kernel_stage, sign_kernel, negotiate, finalize.
  repeat quiet_step.
Qed.

(** X11: when the negotiation reaches [UpdateMaxHeight] and the maximum
    height is not acceptable, [UpdateImpl] fails the record with
    MaxHeightIsUnacceptable, asks for the peer to be notified, and does
    nothing else. *)
Theorem UpdateImpl_max_height_unacceptable
    (tx : SimpleTransaction B) kk isSender isSelfTx txState b s1 s2 :
  m_KeyKeeper env = Some kk ->
  UpdateImpl_prologue env tx = inr (isSender, isSelfTx, txState, b) ->
  no_signed_kernel tx isSender txState b ->
  (prepare isSender isSelfTx txState ;; peer_excess_missing isSelfTx)
    (at_sign_kernel tx isSender txState b) = (Val false, s1) ->
  call UpdateMaxHeight s1 = (Val false, s2) ->
  UpdateImpl env tx =
    (Returned,
     {| m_Params :=
          failed_params TxFailureReason.MaxHeightIsUnacceptable (params s2);
        m_TxBuilder := Some (builder s2) |},
     [EvOnFailed TxFailureReason.MaxHeightIsUnacceptable true]).
Proof.
  intros Hkk Hpro Hns Hprep Hmax.
  destruct (at_sign_kernel_eq _ _ _ _ Hns) as (_ & _ & Hlog0).
  assert (Hlog2 : log s2 = []).
  { rewrite (silent_log _ _ _ _ (emits_only_call _ _) Hmax).
    rewrite <- Hlog0. eapply silent_log; [|exact Hprep].
    unfold silent. apply emits_only_bind;
      [apply prepare_silent | intros _; apply peer_excess_missing_silent]. }
  rewrite (UpdateImpl_unsigned _ _ _ _ _ _ Hpro Hns).
  unfold sign_kernel. rewrite Hkk. unfold negotiate.
  apply bind_val_inv in Hprep as (x & sa & Hprep & Hpem).
  mrun Hprep. mrun Hpem. rewrite when_false, ?run_bind_assoc, run_ret_bind.
  mrun Hmax. unfold OnFailed, UpdateTxDescription. mcbv.
  cbn [negb]. rewrite Hlog2. reflexivity.
Qed.

(** X12: an initiator who finds the peer's partial signature invalid,
    once its own [SignSender(false)] has completed, fails the record with
    InvalidPeerSignature and asks for the peer to be notified; nothing is
    finalized, submitted or sent. *)
Theorem UpdateImpl_invalid_peer_signature
    (tx : SimpleTransaction B) kk isSender txState b s1 s2 :
  m_KeyKeeper env = Some kk ->
  UpdateImpl_prologue env tx = inr (isSender, false, txState, b) ->
  no_signed_kernel tx isSender txState b ->
  negotiate env isSender false txState (at_sign_kernel tx isSender txState b)
    = (Val false, s1) ->
  call (SignSender false) s1 = (Val false, s2) ->
  IsInitiator (params s2) = true ->
  IsPeerSignatureValid (builder s2) = false ->
  UpdateImpl env tx =
    (Returned,
     {| m_Params :=
          failed_params TxFailureReason.InvalidPeerSignature (params s2);
        m_TxBuilder := Some (builder s2) |},
     [EvOnFailed TxFailureReason.InvalidPeerSignature true]).
Proof.
  intros Hkk Hpro Hns Hneg Hsign Hinit Hvalid.
  destruct (at_sign_kernel_eq _ _ _ _ Hns) as (_ & _ & Hlog0).
  assert (Hlog2 : log s2 = []).
  { rewrite (silent_log _ _ _ _ (emits_only_call _ _) Hsign).
    rewrite <- Hlog0. eapply negotiate_val_log. exact Hneg. }
  rewrite (UpdateImpl_unsigned _ _ _ _ _ _ Hpro Hns).
  unfold sign_kernel. rewrite Hkk.
  mrun Hneg. rewrite when_false, ?run_bind_assoc, run_ret_bind.
  unfold finalize. cbn [negb]. mrun Hsign.
  rewrite return_if_false, ?run_bind_assoc, run_ret_bind.
  unfold OnFailed, UpdateTxDescription. mcbv.
  rewrite Hinit, Hvalid. cbn [negb]. rewrite Hlog2. reflexivity.
Qed.

(** X13: when the verdict stage is reached (in the driver state [s1])
    with no verdict recorded, [UpdateImpl] fails the record with
    TransactionExpired if it has expired; otherwise it builds the
    transaction and either submits it and moves to Registration, when it
    is valid at the builder's minimum height, or fails the record with
    InvalidTransaction and submits nothing. *)
Theorem UpdateImpl_submission
    (tx : SimpleTransaction B) isSender isSelfTx txState b s1 :
  UpdateImpl_prologue env tx = inr (isSender, isSelfTx, txState, b) ->
  kernel_stage env isSender isSelfTx txState (entry tx b) = (Val tt, s1) ->
  GetParameter as_u8 TxParameterID.TransactionRegistered (params s1) = None ->
  UpdateImpl env tx =
    if IsExpiredAtTip (params s1)
    then (Returned,
          {| m_Params :=
               failed_params TxFailureReason.TransactionExpired (params s1);
             m_TxBuilder := Some (builder s1) |},
          [EvOnFailed TxFailureReason.TransactionExpired false])
    else
      let '(transaction, b', p) := CreateTransaction (params s1) (builder s1) in
      if Transaction_IsValid (GetMinHeight b') transaction
      then (Returned,
            {| m_Params := <[TxParameterID.State := VState State.Registration]> p;
               m_TxBuilder := Some b' |},
            [EvRegisterTx transaction])
      else (Returned,
            {| m_Params := failed_params TxFailureReason.InvalidTransaction p;
               m_TxBuilder := Some b' |},
            [EvOnFailed TxFailureReason.InvalidTransaction true]).
Proof.
  intros Hpro Hks Hreg.
  pose proof (kernel_stage_val_log _ _ _ _ _ _ Hks) as Hlog1. simpl in Hlog1.
  pose proof (register_and_confirm_unregistered s1 Hreg) as Hrun.
  destruct (register_and_confirm s1) as [r s2] eqn:Hrc.
  rewrite (UpdateImpl_from_kernel_stage _ _ _ _ _ _ _ _ _ Hpro Hks Hrc).
  destruct (IsExpiredAtTip (params s1)).
  - injection Hrun as -> ->. simpl. by rewrite Hlog1.
  - destruct (CreateTransaction (params s1) (builder s1)) as [[t b'] p].
    cbv zeta in Hrun.
    destruct (Transaction_IsValid (GetMinHeight b') t);
      injection Hrun as -> ->; simpl; by rewrite Hlog1.
Qed.

(** C1, as amended: on the path of a two-party transfer on which the
    kernel is signed (the sender's in particular), once the peer's
    signature is there, [SignSender(false)] has completed (leaving the
    driver in state [s2]) and the peer's signature is valid if this side
    is the initiator, [UpdateImpl] goes straight to [FinalizeSignature]
    and, no verdict being recorded yet, to the submission: the
    transaction is submitted when the record has not expired and the
    transaction is valid, whatever the record holds under
    PaymentConfirmation.  No payment proof is checked, and none of the
    failures [UpdateImpl] gives is NoPaymentProof. *)
Theorem UpdateImpl_no_payment_proof_check (tx : SimpleTransaction B) :
  (forall kk isSender txState b s1 s2,
     m_KeyKeeper env = Some kk ->
     UpdateImpl_prologue env tx = inr (isSender, false, txState, b) ->
     no_signed_kernel tx isSender txState b ->
     negotiate env isSender false txState
       (at_sign_kernel tx isSender txState b) = (Val false, s1) ->
     call (SignSender false) s1 = (Val false, s2) ->
     (IsInitiator (params s2) = true ->
      IsPeerSignatureValid (builder s2) = true) ->
     let s3 := (call FinalizeSignature s2).2 in
     GetParameter as_u8 TxParameterID.TransactionRegistered (params s3)
       = None ->
     UpdateImpl env tx =
       if IsExpiredAtTip (params s3)
       then (Returned,
             {| m_Params :=
                  failed_params TxFailureReason.TransactionExpired (params s3);
                m_TxBuilder := Some (builder s3) |},
             [EvOnFailed TxFailureReason.TransactionExpired false])
       else
         let '(transaction, b', p) :=
           CreateTransaction (params s3) (builder s3) in
         if Transaction_IsValid (GetMinHeight b') transaction
         then (Returned,
               {| m_Params :=
                    <[TxParameterID.State := VState State.Registration]> p;
                  m_TxBuilder := Some b' |},
               [EvRegisterTx transaction])
         else (Returned,
               {| m_Params :=
                    failed_params TxFailureReason.InvalidTransaction p;
                  m_TxBuilder := Some b' |},
               [EvOnFailed TxFailureReason.InvalidTransaction true])) /\
  (forall reason notify,
     EvOnFailed reason notify ∈ (UpdateImpl env tx).2 ->
     reason ∈ UpdateImpl_failure_reasons /\
     reason <> TxFailureReason.NoPaymentProof).
Proof.
  split; [|intros reason notify; apply UpdateImpl_failure_reasons_bound].
  intros kk isSender txState b s1 s2 Hkk Hpro Hns Hneg Hsign Hvalid s3 Hreg.
  destruct (at_sign_kernel_eq _ _ _ _ Hns) as (_ & _ & Hlog0).
  assert (Hlog2 : log s2 = []).
  { rewrite (silent_log _ _ _ _ (emits_only_call _ _) Hsign).
    rewrite <- Hlog0. eapply negotiate_val_log. exact Hneg. }
  assert (Hfin : call FinalizeSignature s2 = (Val tt, s3)).
  { subst s3. unfold call.
    by destruct (FinalizeSignature (params s2) (builder s2)) as [[[] b'] p']. }
  assert (Hlog3 : log s3 = []).
  { rewrite (silent_log _ _ _ _ (emits_only_call _ _) Hfin). exact Hlog2. }
  assert (Hasks : asks IsInitiator s2 = (Val (IsInitiator (params s2)), s2))
    by reflexivity.
  match goal with |- _ = ?rhs => set (submission := rhs) end.
  assert (Hend :
            (let '(r, s) := register_and_confirm s3 in
             (r, {| m_Params := params s; m_TxBuilder := Some (builder s) |},
              log s)) = submission).
  { subst submission.
    rewrite (register_and_confirm_unregistered s3 Hreg).
    destruct (IsExpiredAtTip (params s3)).
    - simpl. by rewrite Hlog3.
    - destruct (CreateTransaction (params s3) (builder s3)) as [[t b'] p].
      destruct (Transaction_IsValid (GetMinHeight b') t);
        simpl; by rewrite Hlog3. }
  rewrite <- Hend. clear Hend submission.
  rewrite (UpdateImpl_unsigned _ _ _ _ _ _ Hpro Hns).
  unfold sign_kernel. rewrite Hkk.
  mrun Hneg. rewrite when_false, ?run_bind_assoc, run_ret_bind.
  unfold finalize. cbn [negb]. mrun Hsign.
  rewrite return_if_false, ?run_bind_assoc, run_ret_bind.
  mrun Hasks.
  destruct (IsInitiator (params s2)) eqn:Hinit.
  - assert (Hv : ask IsPeerSignatureValid s2 = (Val true, s2))
      by (unfold ask; by rewrite (Hvalid eq_refl)).
    mrun Hv. rewrite ?run_bind_assoc, run_ret_bind. cbn [negb].
    rewrite when_false, ?run_bind_assoc, run_ret_bind.
    mrun Hfin. reflexivity.
  - rewrite ?run_bind_assoc, run_ret_bind.
    rewrite when_false, ?run_bind_assoc, run_ret_bind.
    mrun Hfin. reflexivity.
Qed.

(** X14: when the verdict stage is reached with the verdict Ok and a
    kernel proof height [hProof] recorded, [UpdateImpl] marks the coins
    for that height and completes the record; it asks for no further
    proof. *)
Theorem UpdateImpl_completes
    (tx : SimpleTransaction B) isSender isSelfTx txState b s1 hProof :
  UpdateImpl_prologue env tx = inr (isSender, isSelfTx, txState, b) ->
  kernel_stage env isSender isSelfTx txState (entry tx b) = (Val tt, s1) ->
  GetParameter as_u8 TxParameterID.TransactionRegistered (params s1)
    = Some proto.TxStatus.Ok ->
  GetParameter as_u64 TxParameterID.KernelProofHeight (params s1)
    = Some hProof ->
  hProof <> 0 ->
  UpdateImpl env tx =
    (Val tt,
     {| m_Params :=
          <[TxParameterID.Status := VTxStatus TxStatus.Completed]> (params s1);
        m_TxBuilder := Some (builder s1) |},
     [EvSetCompletedTxCoinStatuses hProof; EvCompleteTx]).
Proof.
  intros Hpro Hks Hreg Hproof Hne.
  pose proof (kernel_stage_val_log _ _ _ _ _ _ Hks) as Hlog1. simpl in Hlog1.
  pose proof (register_and_confirm_verdict s1 _ Hreg) as Hrun.
  cbv zeta in Hrun. rewrite Hproof in Hrun. simpl default in Hrun.
  apply N.eqb_neq in Hne. rewrite Hne in Hrun.
  rewrite (bool_decide_eq_false_2
             (proto.TxStatus.Ok = proto.TxStatus.InvalidContext)) in Hrun by done.
  rewrite (bool_decide_eq_true_2 (proto.TxStatus.Ok = proto.TxStatus.Ok))
    in Hrun by done.
  rewrite (UpdateImpl_from_kernel_stage _ _ _ _ _ _ _ _ _ Hpro Hks Hrun).
  simpl. by rewrite Hlog1.
Qed.

(** X15: once a verdict is recorded when the verdict stage is reached,
    [UpdateImpl] neither submits the transaction again nor calls
    [SendInvitation] or [ConfirmInvitation].  All it does is one of
    three things: fail the record with FailedToRegister (by [OnFailed]
    with notify = true, whose notification of the peer is not counted
    here), ask for the confirmation of the kernel, or mark the coins and
    complete. *)
Theorem UpdateImpl_no_resubmission
    (tx : SimpleTransaction B) isSender isSelfTx txState b s1 nRegistered :
  UpdateImpl_prologue env tx = inr (isSender, isSelfTx, txState, b) ->
  kernel_stage env isSender isSelfTx txState (entry tx b) = (Val tt, s1) ->
  GetParameter as_u8 TxParameterID.TransactionRegistered (params s1)
    = Some nRegistered ->
  List.filter is_outbound (UpdateImpl env tx).2 = [] /\
  ((UpdateImpl env tx).2
     = [EvOnFailed TxFailureReason.FailedToRegister true] \/
   (UpdateImpl env tx).2 = [EvConfirmKernel (GetKernelID (builder s1))] \/
   exists hProof,
     (UpdateImpl env tx).2
       = [EvSetCompletedTxCoinStatuses hProof; EvCompleteTx]).
Proof.
  intros Hpro Hks Hreg.
  pose proof (kernel_stage_val_log _ _ _ _ _ _ Hks) as Hlog1. simpl in Hlog1.
  pose proof (register_and_confirm_verdict s1 _ Hreg) as Hrun.
  cbv zeta in Hrun.
  destruct (register_and_confirm s1) as [r s2] eqn:Hrc.
  rewrite (UpdateImpl_from_kernel_stage _ _ _ _ _ _ _ _ _ Hpro Hks Hrc).
  cbn [snd].
  repeat match type of Hrun with
         | context [if ?c then _ else _] => destruct c
         end;
    injection Hrun as -> ->; simpl; rewrite Hlog1; simpl;
    (split; [done|]); eauto.
Qed.

(** C2, as amended: once the verdict stage is reached (in the driver
    state [s1]) with a verdict [nRegistered] recorded, and writing
    [hProof] and [unconfirmed] for the recorded kernel proof height and
    unconfirmed height (0 when absent):
    - verdict Ok: without a kernel proof height the state becomes
      KernelConfirmation and the kernel's confirmation is requested; with
      one, the coins are marked and the record completes;
    - verdict InvalidContext with no unconfirmed height: exactly as for
      Ok; the record does not fail;
    - verdict InvalidContext with an unconfirmed height, and every other
      verdict: the record fails with FailedToRegister.
    Nothing is retried: in every case the verdict stays recorded, the
    transaction is not submitted again and no entry on the next tip is
    asked for. *)
Theorem UpdateImpl_registration_verdict
    (tx : SimpleTransaction B) isSender isSelfTx txState b s1 nRegistered :
  UpdateImpl_prologue env tx = inr (isSender, isSelfTx, txState, b) ->
  kernel_stage env isSender isSelfTx txState (entry tx b) = (Val tt, s1) ->
  GetParameter as_u8 TxParameterID.TransactionRegistered (params s1)
    = Some nRegistered ->
  let hProof :=
    default 0 (GetParameter as_u64 TxParameterID.KernelProofHeight (params s1)) in
  let unconfirmed :=
    default 0 (GetParameter as_u64 TxParameterID.KernelUnconfirmedHeight (params s1)) in
  let polling :=
    (Returned,
     {| m_Params :=
          <[TxParameterID.State := VState State.KernelConfirmation]> (params s1);
        m_TxBuilder := Some (builder s1) |},
     [EvConfirmKernel (GetKernelID (builder s1))]) in
  let completed :=
    (Val tt,
     {| m_Params :=
          <[TxParameterID.Status := VTxStatus TxStatus.Completed]> (params s1);
        m_TxBuilder := Some (builder s1) |},
     [EvSetCompletedTxCoinStatuses hProof; EvCompleteTx]) in
  let failed :=
    (Returned,
     {| m_Params := failed_params TxFailureReason.FailedToRegister (params s1);
        m_TxBuilder := Some (builder s1) |},
     [EvOnFailed TxFailureReason.FailedToRegister true]) in
  let proceed := if hProof =? 0 then polling else completed in
  UpdateImpl env tx =
    (if bool_decide (nRegistered = proto.TxStatus.InvalidContext)
     then if 0 <? unconfirmed then failed else proceed
     else if bool_decide (nRegistered = proto.TxStatus.Ok)
          then proceed else failed) /\
  GetParameter as_u8 TxParameterID.TransactionRegistered
    (m_Params (UpdateImpl env tx).1.2) = Some nRegistered /\
  Forall (fun e => is_register e = false /\ e <> EvUpdateOnNextTip)
    (UpdateImpl env tx).2.
Proof.
  intros Hpro Hks Hreg. cbv zeta.
  pose proof (kernel_stage_val_log _ _ _ _ _ _ Hks) as Hlog1. simpl in Hlog1.
  pose proof (register_and_confirm_verdict s1 nRegistered Hreg) as Hrc.
  cbv zeta in Hrc.
  destruct (register_and_confirm s1) as [r s2] eqn:Hrun.
  rewrite (UpdateImpl_from_kernel_stage _ _ _ _ _ _ _ _ _ Hpro Hks Hrun).
  repeat match type of Hrc with
         | context [if ?c then _ else _] => destruct c
         end;
    injection Hrc as -> ->; simpl; rewrite Hlog1; simpl;
    (split; [reflexivity|]);
    (split; [unfold GetParameter, failed_params;
             by rewrite ?lookup_insert_ne by done
            | repeat constructor; done]).
Qed.

(** X16: with its assertion compiled in, [ConfirmInvitation] throws
    MissingParameter(PeerID) when PeerID cannot be read and is aborted on
    a self record, sending nothing.  On a record that is not a self
    transfer the assertion changes nothing, and the function throws
    MissingParameter(IsSender), sending nothing, when IsSender cannot be
    read.  Otherwise it sends one message and changes neither the
    parameters nor the builder; the message is the eight builder
    parameters, plus a PaymentConfirmation exactly when the record is a
    receiver's and either a PaymentConfirmation is stored or PeerID, MyID,
    KernelID and Amount are all recorded and MyID is an address of this
    wallet. *)
Theorem ConfirmInvitation_proof_only_when kk (s : Tx B) :
  match IsSelfTx env (params s) with
  | inl e =>
    e = MissingParameter TxParameterID.PeerID /\
    ConfirmInvitation_asserting env kk s = Passed (Thrown e, s)
  | inr true => ConfirmInvitation_asserting env kk s = Aborted
  | inr false =>
    ConfirmInvitation_asserting env kk s
      = Passed (ConfirmInvitation env kk s) /\
    match GetParameter as_bool TxParameterID.IsSender (params s) with
    | None =>
      ConfirmInvitation env kk s
        = (Thrown (MissingParameter TxParameterID.IsSender), s)
    | Some isSender =>
      exists msg,
        ConfirmInvitation env kk s
          = (Val tt, with_event (EvSendTxParameters msg) s) /\
        (forall id, id <> TxParameterID.PaymentConfirmation ->
           msg !! id = InvitationConfirmation_params (builder s) !! id) /\
        (is_Some (msg !! TxParameterID.PaymentConfirmation) <->
         isSender = false /\
         (is_Some (GetParameter as_sig TxParameterID.PaymentConfirmation
                     (params s)) \/
          exists widMy waddr,
            is_Some (GetParameter as_wid TxParameterID.PeerID (params s)) /\
            GetParameter as_wid TxParameterID.MyID (params s) = Some widMy /\
            is_Some (GetParameter as_big TxParameterID.KernelID (params s)) /\
            is_Some (GetParameter as_u64 TxParameterID.Amount (params s)) /\
            getAddress widMy (m_WalletDB env) = Some waddr /\
            isOwn waddr = true))
    end
  end.
Proof.
  unfold ConfirmInvitation_asserting.
  destruct (IsSelfTx env (params s)) as [e|[]] eqn:Hself;
    [|reflexivity|].
  { split; [|reflexivity].
    unfold IsSelfTx, GetMandatoryParameter in Hself.
    destruct (GetParameter as_wid TxParameterID.PeerID (params s));
      [discriminate | by injection Hself as <-]. }
  split; [reflexivity|]. clear Hself.
  destruct (GetParameter as_bool TxParameterID.IsSender (params s))
    as [isSender|] eqn:HisSender.
  2:{ unfold ConfirmInvitation, GetMandatory, GetMandatoryParameter.
      mcbv. rewrite HisSender. by destruct s. }
  exists (InvitationConfirmation_message env kk (builder s) isSender (params s)).
  split; [by apply run_ConfirmInvitation|].
  assert (Hbase : InvitationConfirmation_params (builder s)
                    !! TxParameterID.PaymentConfirmation = None)
    by (unfold InvitationConfirmation_params; by simplify_map_eq).
  unfold InvitationConfirmation_message, payment_proof.
  destruct isSender; simpl.
  { split; [done|]. rewrite Hbase. split; [by intros [] | by intros []]. }
  destruct (GetParameter as_sig TxParameterID.PaymentConfirmation (params s))
    as [stored|].
  { split; [intros id Hne; by rewrite lookup_insert_ne|].
    rewrite lookup_insert_eq. split; [eauto|eauto]. }
  assert (Hno : forall P : Prop,
            (is_Some (InvitationConfirmation_params (builder s)
                        !! TxParameterID.PaymentConfirmation) <->
             false = false /\ (is_Some (@None Signature) \/ P)) <-> ~ P).
  { intros P. rewrite Hbase. split.
    - intros Hiff HP. destruct (proj2 Hiff) as [? [=]]. eauto.
    - intros HnP. split; [by intros [] |].
      intros [_ [[? [=]]|HP]]. by destruct HnP. }
  destruct (GetParameter as_wid TxParameterID.PeerID (params s)) as [widPeer|];
    [|split; [done|]; apply Hno; by intros (? & ? & [? [=]] & _)].
  destruct (GetParameter as_wid TxParameterID.MyID (params s)) as [widMy|];
    [|split; [done|]; apply Hno; by intros (? & ? & _ & [=] & _)].
  destruct (GetParameter as_big TxParameterID.KernelID (params s)) as [kernelID|];
    [|split; [done|]; apply Hno; by intros (? & ? & _ & _ & [? [=]] & _)].
  destruct (GetParameter as_u64 TxParameterID.Amount (params s)) as [value|];
    [|split; [done|]; apply Hno; by intros (? & ? & _ & _ & _ & [? [=]] & _)].
  destruct (getAddress widMy (m_WalletDB env)) as [waddr|] eqn:Haddr;
    [|split; [done|]; apply Hno;
      intros (? & ? & _ & [= <-] & _ & _ & Hget & _); congruence].
  destruct (isOwn waddr) eqn:Hown;
    [|split; [done|]; apply Hno;
      intros (? & ? & _ & [= <-] & _ & _ & Hget & Hown'); congruence].
  destruct (Sk2Pk _) as [pk sk].
  split; [intros id Hne; by rewrite lookup_insert_ne|].
  rewrite lookup_insert_eq. split; [|eauto].
  intros _. split; [done|]. right. exists widMy, waddr. eauto 10.
Qed.
(** X21: every message [UpdateImpl] sends to the peer carries this
    wallet's protocol version, a public excess and a public nonce, and
    none carries a TransactionRegistered verdict: [UpdateImpl] never
    calls [NotifyTransactionRegistered]. *)
Theorem UpdateImpl_messages (tx : SimpleTransaction B) msg :
  EvSendTxParameters msg ∈ (UpdateImpl env tx).2 ->
  msg !! TxParameterID.PeerProtoVersion = Some (VU32 s_ProtoVersion) /\
  (exists excess, msg !! TxParameterID.PeerPublicExcess = Some (VPoint excess)) /\
  (exists nonce, msg !! TxParameterID.PeerPublicNonce = Some (VPoint nonce)) /\
  msg !! TxParameterID.TransactionRegistered = None.
Proof.
  assert (Hbody : forall isSender isSelfTx txState,
            emits_only negotiation_message
              (UpdateImpl_body env isSender isSelfTx txState : M B unit)).
  { intros isSender isSelfTx txState.
    unfold UpdateImpl_body, kernel_stage, kernel_not_signed, sign_kernel,
      negotiate, prepare, peer_excess_missing, invitation_round,
      peer_signature_missing, accept_invitation, finalize,
      register_and_confirm, CheckExpired, SendInvitation, ConfirmInvitation,
      SendTxParameters, ConfirmKernel, UpdateOnNextTip, register_tx,
      SetCompletedTxCoinStatuses, CompleteTx, OnFailed, SetState,
      UpdateTxDescription, GetMandatory.
    emits.
    all: intros msg' ?; simplify_eq.
    all: unfold InvitationConfirmation_message, Invitation_params,
           InvitationConfirmation_params.
    all: repeat match goal with
                | |- context [if ?c then _ else _] => destruct c
                | |- context [match ?x with Some _ => _ | None => _ end] =>
                  destruct x
                end.
    all: simplify_map_eq; eauto 10. }
  intros Hin. unfold UpdateImpl in Hin.
  destruct (UpdateImpl_prologue env tx)
    as [e | [[[isSender isSelfTx] txState] b]];
    [by apply not_elem_of_nil in Hin|].
  destruct (UpdateImpl_body env isSender isSelfTx txState (entry tx b))
    as [r s] eqn:Hrun.
  destruct (Hbody _ _ _ _ _ _ Hrun) as (evs & Hlog & Hevs).
  simpl in *. rewrite Hlog in Hin.
  rewrite Forall_forall in Hevs. exact (Hevs _ Hin msg eq_refl).
Qed.
End MoreDriverFacts.

(** ** The threaded key keeper *)

Section ThreadedFacts.
Import ThreadedPrivateKeyKeeper.
Context {Handler Method Keeper : Type}.
Variable InvokeSync :
  Method -> Keeper -> IPrivateKeyKeeper2.Status.t * Keeper.


Lemma serve_app k (l1 l2 : list (Handler * Method)) :
  serve InvokeSync k (l1 ++ l2) =
    ((serve InvokeSync k l1).1
       ++ (serve InvokeSync (serve InvokeSync k l1).2 l2).1,
     (serve InvokeSync (serve InvokeSync k l1).2 l2).2).
Proof.
  revert k. induction l1 as [|[pHandler m] l1 IH]; intros k; simpl.
  - by destruct (serve InvokeSync k l2).
  - destruct (InvokeSync m k) as [nRes k1]. rewrite IH.
    destruct (serve InvokeSync k1 l1) as [out1 k2]. by destruct (serve InvokeSync k2 l2).
Qed.

Lemma pipeline_create k0 :
  pipeline InvokeSync k0 (create (Handler := Handler) (Method := Method) k0).
Proof. exists []. split; reflexivity. Qed.

Lemma awake_create (k0 : Keeper) :
  awake (create (Handler := Handler) (Method := Method) k0).
Proof. repeat split; done. Qed.

Lemma pipeline_act k0 a (o o' : Object Handler Method Keeper) :
  pipeline InvokeSync k0 o -> act InvokeSync a o = Some o' -> pipeline InvokeSync k0 o'.
Proof.
  intros (served & Hreq & Hserve) Hact.
  destruct o as [queIn queOut Run k thread posted r cs rs].
  unfold pipeline, waiting, executed in *. simpl in *.
  destruct a as [m pHandler nRes|[]| |]; simpl in Hact.
  - injection Hact as <-. exists served. simpl. split.
    + rewrite Hreq, <- !app_assoc. f_equal.
      destruct thread, (bool_decide (queIn = [])); simpl;
        by rewrite ?map_app.
    + rewrite Hserve.
      by destruct thread, (bool_decide (queIn = [])).
  - destruct thread; try discriminate. destruct Run; simpl in Hact.
    + destruct queIn as [|pTask que]; injection Hact as <-;
        exists served; simpl; by split.
    + injection Hact as <-. exists served. by split.
  - destruct thread as [| |pTask| |]; try discriminate.
    unfold Thread_exec, Exec in Hact. simpl in Hact.
    destruct (InvokeSync (m_pM pTask) k) as [nRes k1] eqn:Hsync.
    injection Hact as <-. simpl.
    exists (served ++ [request_of pTask]). split.
    + rewrite Hreq, <- app_assoc. reflexivity.
    + rewrite serve_app, Hserve. simpl. unfold request_of. rewrite Hsync.
      simpl. rewrite !map_app. simpl.
      rewrite ?app_nil_r, <- ?app_assoc. reflexivity.
  - destruct thread as [| | |pTask|]; try discriminate.
    injection Hact as <-. exists served. simpl. split; [done|].
    rewrite Hserve, !map_app, app_nil_r. reflexivity.
  - destruct r, posted; try discriminate.
    injection Hact as <-. exists served. by split.
  - destruct r; try discriminate.
    injection Hact as <-. exists served. simpl. split; [done|].
    rewrite Hserve. reflexivity.
  - destruct r as [| |[|pTask que]]; try discriminate;
      injection Hact as <-; exists served; simpl; (split; [done|]).
    + rewrite Hserve. reflexivity.
    + rewrite Hserve. simpl. rewrite <- !app_assoc. reflexivity.
  - destruct thread; try discriminate.
    injection Hact as <-. exists served. by split.
  - destruct Run; try discriminate.
    injection Hact as <-. exists served. simpl. split.
    + rewrite Hreq. by destruct thread.
    + rewrite Hserve. by destruct thread.
Qed.

Lemma awake_act a (o o' : Object Handler Method Keeper) :
  awake o -> act InvokeSync a o = Some o' -> awake o'.
Proof.
  intros (Hin & Hout & Hrun) Hact.
  destruct o as [queIn queOut Run k thread posted r cs rs].
  unfold awake in *. simpl in *.
  destruct a as [m pHandler nRes|[]| |]; simpl in Hact.
  - injection Hact as <-. simpl. split; [|split]; [|done|].
    + intros _. case_bool_decide as Hempty.
      * by destruct thread.
      * apply Hin, Hempty.
    + intros HRun. specialize (Hrun HRun).
      destruct (bool_decide (queIn = [])); by destruct thread.
  - destruct thread; try discriminate. destruct Run; simpl in Hact.
    + destruct queIn as [|pTask que]; injection Hact as <-; simpl;
        (split; [|split]); done.
    + injection Hact as <-. simpl. (split; [|split]); done.
  - destruct thread as [| |pTask| |]; try discriminate.
    unfold Thread_exec, Exec in Hact. simpl in Hact.
    destruct (InvokeSync (m_pM pTask) k) as [nRes k1].
    injection Hact as <-. simpl. (split; [|split]); done.
  - destruct thread as [| | |pTask|]; try discriminate.
    injection Hact as <-. simpl. split; [|split]; [done| |done].
    intros _. case_bool_decide as Hempty; [by left|].
    apply Hout, Hempty.
  - destruct r, posted; try discriminate.
    injection Hact as <-. simpl. split; [|split]; [done| |done].
    intros _. by right.
  - destruct r; try discriminate.
    injection Hact as <-. simpl. (split; [|split]); done.
  - destruct r as [| |[|pTask que]]; try discriminate;
      injection Hact as <-; simpl; (split; [|split]); try done.
    + intros Hne. destruct (Hout Hne) as [Hposted|]; [by left | done].
    + intros Hne. destruct (Hout Hne) as [Hposted|]; [by left | done].
  - destruct thread; try discriminate.
    injection Hact as <-. simpl. split; [|split]; try done.
  - destruct Run; try discriminate.
    injection Hact as <-. simpl. split; [|split]; try done.
    intros Hne. specialize (Hin Hne). by destruct thread.
Qed.

Lemma reachable_invariants k0 l (o : Object Handler Method Keeper) :
  run InvokeSync l (create k0) = Some o -> pipeline InvokeSync k0 o /\ awake o.
Proof.
  assert (Hgen : forall l (o1 o2 : Object Handler Method Keeper),
            pipeline InvokeSync k0 o1 /\ awake o1 -> run InvokeSync l o1 = Some o2 ->
            pipeline InvokeSync k0 o2 /\ awake o2).
  { clear l o. induction l as [|a l IH]; intros o1 o2 [Hp Ha]; simpl.
    - by intros [= <-].
    - destruct (act InvokeSync a o1) as [o1'|] eqn:Hact; [|discriminate].
      apply IH. split; [eapply pipeline_act | eapply awake_act]; eassumption. }
  apply Hgen. split; [apply pipeline_create | apply awake_create].
Qed.

(** Each step the object takes by itself takes work off and touches
    neither the requests nor [m_Run]. *)
Lemma own_work i (o o' : Object Handler Method Keeper) :
  own InvokeSync i o = Some o' ->
  (work o' < work o)%nat /\ requests o' = requests o /\ m_Run o' = m_Run o.
Proof.
  destruct o as [queIn queOut Run k thread posted r cs rs].
  destruct i; simpl; unfold work, executed; simpl.
  - destruct thread; try discriminate. destruct Run; simpl.
    + destruct queIn as [|pTask que]; intros [= <-]; simpl; repeat split; lia.
    + intros [= <-]; simpl; repeat split; lia.
  - destruct thread as [| |pTask| |]; try discriminate.
    unfold Thread_exec, Exec. simpl.
    destruct (InvokeSync (m_pM pTask) k) as [nRes k1].
    intros [= <-]; simpl. rewrite !length_app. simpl. repeat split; lia.
  - destruct thread as [| | |pTask|]; try discriminate.
    intros [= <-]; simpl. rewrite !length_app. simpl.
    destruct (bool_decide (queOut = [])), posted; repeat split; lia.
  - destruct r, posted; try discriminate.
    intros [= <-]; simpl. repeat split; lia.
  - destruct r; try discriminate.
    intros [= <-]; simpl. rewrite !length_app. simpl. repeat split; lia.
  - destruct r as [| |[|pTask que]]; try discriminate;
      intros [= <-]; simpl; rewrite ?length_app; simpl; repeat split; lia.
Qed.

Lemma rest_or_step (o : Object Handler Method Keeper) :
  at_rest InvokeSync o \/ exists i o', own InvokeSync i o = Some o'.
Proof.
  destruct (own InvokeSync ThreadTake o) eqn:H1; [eauto|].
  destruct (own InvokeSync ThreadExec o) eqn:H2; [eauto|].
  destruct (own InvokeSync ThreadGive o) eqn:H3; [eauto|].
  destruct (own InvokeSync ReactorDispatch o) eqn:H4; [eauto|].
  destruct (own InvokeSync OnNewOutSwap o) eqn:H5; [eauto|].
  destruct (own InvokeSync OnNewOutLoop o) eqn:H6; [eauto|].
  left. intros []; assumption.
Qed.

Lemma settles n (o : Object Handler Method Keeper) :
  (work o <= n)%nat ->
  exists l o',
    run InvokeSync (map Own l) o = Some o' /\ at_rest InvokeSync o' /\
    requests o' = requests o /\ m_Run o' = m_Run o.
Proof.
  revert o. induction n as [|n IH]; intros o Hwork.
  - destruct (rest_or_step o) as [Hrest|(i & o' & Hstep)].
    + exists [], o. by repeat split.
    + apply own_work in Hstep. lia.
  - destruct (rest_or_step o) as [Hrest|(i & o1 & Hstep)].
    + exists [], o. by repeat split.
    + destruct (own_work _ _ _ Hstep) as (Hless & Hreq & HRun).
      destruct (IH o1) as (l & o' & Hrun & Hrest & Hreq' & HRun'); [lia|].
      exists (i :: l), o'. simpl. rewrite Hstep.
      repeat split; [done|done|congruence|congruence].
Qed.

Lemma rest_answered k0 (o : Object Handler Method Keeper) :
  pipeline InvokeSync k0 o -> awake o -> at_rest InvokeSync o -> m_Run o = true ->
  calls o = (serve InvokeSync k0 (requests o)).1.
Proof.
  intros (served & Hreq & Hserve) (Hin & Hout & Hrun) Hrest HRun.
  pose proof (Hrest ThreadTake) as H1. pose proof (Hrest ThreadExec) as H2.
  pose proof (Hrest ThreadGive) as H3.
  pose proof (Hrest ReactorDispatch) as H4.
  pose proof (Hrest OnNewOutSwap) as H5. pose proof (Hrest OnNewOutLoop) as H6.
  specialize (Hrun HRun).
  destruct o as [queIn queOut Run k thread posted r cs rs].
  unfold waiting, executed in *. simpl in *. subst Run. clear Hrest.
  unfold Thread_take, Thread_exec, Thread_give, Reactor_dispatch,
    OnNewOut_swap, OnNewOut_loop, Exec in *.
  simpl in *.
  destruct thread as [| |pTask|pTask|];
    [destruct queIn; discriminate| |
     destruct (InvokeSync (m_pM pTask) k); discriminate|discriminate|done].
  destruct r as [| |[|pTask que]]; try discriminate.
  destruct posted; [discriminate|].
  destruct queIn as [|t1 queIn]; [|by destruct Hin].
  destruct queOut as [|t2 queOut]; [|by destruct Hout].
  simpl in *. rewrite !app_nil_r in *. subst rs. by rewrite Hserve.
Qed.

(** X17: however the callers, the worker thread and the reactor
    interleave, the handlers are called in the order of the [InvokeAsync]
    calls, each at most once, and each with the status that serving the
    requests one after the other, in that order, gives. *)
Theorem ThreadedPrivateKeyKeeper_answers_in_order
    k0 (l : list (Action Handler Method)) (o : Object Handler Method Keeper) :
  run InvokeSync l (create k0) = Some o ->
  exists later, (serve InvokeSync k0 (requests o)).1 = calls o ++ later.
Proof.
  intros Hrun.
  destruct (reachable_invariants _ _ _ Hrun) as [(served & Hreq & Hserve) _].
  rewrite Hreq, serve_app, Hserve.
  destruct (serve InvokeSync (m_pKeyKeeper o) (map request_of (waiting o)))
    as [out k1].
  simpl. rewrite <- app_assoc. eauto.
Qed.

(** X18: no request is forgotten: from wherever an interleaving has
    brought a live object, its thread and its reactor come to rest by
    themselves, and by then every request made has had its handler
    called. *)
Theorem ThreadedPrivateKeyKeeper_answers_all
    k0 (l : list (Action Handler Method)) (o : Object Handler Method Keeper) :
  run InvokeSync l (create k0) = Some o ->
  m_Run o = true ->
  exists steps o',
    run InvokeSync (map Own steps) o = Some o' /\
    at_rest InvokeSync o' /\
    calls o' = (serve InvokeSync k0 (requests o)).1.
Proof.
  intros Hrun HRun.
  destruct (settles (work o) o) as (steps & o' & Hsteps & Hrest & Hreq & HRun');
    [done|].
  exists steps, o'. split; [done|]. split; [done|].
  assert (Hall : run InvokeSync (l ++ map Own steps) (create k0) = Some o').
  { clear -Hrun Hsteps. revert Hrun. generalize (create (Handler := Handler) (Method := Method) k0).
    induction l as [|a l IH]; intros o0; simpl.
    - by intros [= ->].
    - destruct (act InvokeSync a o0); [apply IH | discriminate]. }
  destruct (reachable_invariants _ _ _ Hall) as [Hp Ha].
  rewrite <- Hreq. apply rest_answered; [done|done|done|congruence].
Qed.

(** X19: once the destructor has cleared [m_Run], the worker takes no
    further task: what is in the input queue stays there, whatever
    happens next. *)
Theorem ThreadedPrivateKeyKeeper_destroyed_takes_nothing
    (l : list (Action Handler Method)) (o o' : Object Handler Method Keeper) :
  m_Run o = false ->
  run InvokeSync l o = Some o' ->
  m_Run o' = false /\ exists later, m_queIn o' = m_queIn o ++ later.
Proof.
  revert o. induction l as [|a l IH]; intros o HRun; simpl.
  - intros [= <-]. split; [done|]. exists []. by rewrite app_nil_r.
  - destruct (act InvokeSync a o) as [o1|] eqn:Hact; [|discriminate].
    intros Hrun.
    assert (Hstep : m_Run o1 = false /\
                    exists later, m_queIn o1 = m_queIn o ++ later).
    { destruct o as [queIn queOut Run k thread posted r cs rs].
      simpl in HRun. subst Run.
      destruct a as [m pHandler nRes|[]| |]; simpl in Hact.
      - injection Hact as <-. simpl. eauto.
      - destruct thread; try discriminate. injection Hact as <-.
        simpl. split; [done|]. exists []. by rewrite app_nil_r.
      - destruct thread as [| |pTask| |]; try discriminate.
        unfold Thread_exec, Exec in Hact. simpl in Hact.
        destruct (InvokeSync (m_pM pTask) k). injection Hact as <-.
        simpl. split; [done|]. exists []. by rewrite app_nil_r.
      - destruct thread; try discriminate. injection Hact as <-.
        simpl. split; [done|]. exists []. by rewrite app_nil_r.
      - destruct r, posted; try discriminate. injection Hact as <-.
        simpl. split; [done|]. exists []. by rewrite app_nil_r.
      - destruct r; try discriminate. injection Hact as <-.
        simpl. split; [done|]. exists []. by rewrite app_nil_r.
      - destruct r as [| |[|pTask que]]; try discriminate;
          injection Hact as <-; simpl; (split; [done|]);
          exists []; by rewrite app_nil_r.
      - destruct thread; try discriminate. injection Hact as <-.
        simpl. split; [done|]. exists []. by rewrite app_nil_r.
      - discriminate. }
    destruct Hstep as (HRun1 & later1 & Hq1).
    destruct (IH o1 HRun1 Hrun) as (HRun' & later & Hq).
    split; [done|]. exists (later1 ++ later).
    by rewrite Hq, Hq1, <- app_assoc.
Qed.
End ThreadedFacts.

(** ** KernelCommon *)

(** X20: [From] after [To] gives the kernel data back, [To] after [From]
    gives the kernel back, and [To] leaves the rest of the kernel as it
    was. *)
Theorem KernelCommon_round_trip {HeightRange Rest : Type}
    (c c0 : KernelCommon.t HeightRange)
    (krn : KernelCommon.TxKernelStd HeightRange Rest) :
  KernelCommon.From (KernelCommon.To c krn) c0 = c /\
  KernelCommon.To (KernelCommon.From krn c0) krn = krn /\
  KernelCommon.krn_rest (KernelCommon.To c krn) = KernelCommon.krn_rest krn.
Proof. destruct c, krn. repeat split. Qed.

(** ** Creation of a split transaction *)

Section CreationFacts.
Context `{!Wallet}.
Variable CreateTransactionParameters : N -> option uintBig -> Store.
Variable TxType_Simple : N.

Lemma accumulate_sum (l : AmountList) (init : N) :
  accumulate l (init mod 2 ^ 64) = (init + foldr N.add 0 l) mod 2 ^ 64.
Proof.
  revert init. induction l as [|a l IH]; intros init; simpl.
  - by rewrite N.add_0_r.
  - unfold accumulate in *. rewrite N.Div0.add_mod_idemp_l, IH.
    f_equal. lia.
Qed.

(** X5: the parameters of a split are those of a transfer to oneself:
    MyID and PeerID are both the given wallet id, AmountList is the given
    list and Amount is its sum modulo 2^64 (a sum that does not fit in 64
    bits wraps around).  Whatever [CreateTransactionParameters] set under
    another key is kept, the type apart.  The driver's [IsSelfTx] on such
    a record is true exactly when the wallet id is an address of this
    wallet. *)
Theorem CreateSplitTransactionParameters_self_transfer
    (env : Environment) (myID : WalletID) (amountList : AmountList)
    (txId : option uintBig) :
  let p := CreateSplitTransactionParameters CreateTransactionParameters
             TxType_Simple myID amountList txId in
  GetParameter as_wid TxParameterID.MyID p = Some myID /\
  GetParameter as_wid TxParameterID.PeerID p = Some myID /\
  GetParameter as_amounts TxParameterID.AmountList p = Some amountList /\
  GetParameter as_u64 TxParameterID.Amount p
    = Some (foldr N.add 0 amountList mod 2 ^ 64) /\
  (forall id,
     id ∉ [TxParameterID.TransactionType; TxParameterID.MyID;
           TxParameterID.PeerID; TxParameterID.AmountList;
           TxParameterID.Amount] ->
     p !! id = CreateTransactionParameters TxType_Simple txId !! id) /\
  IsSelfTx env p
    = inr (match getAddress myID (m_WalletDB env) with
           | Some address => isOwn address
           | None => false
           end).
Proof.
  intros p. subst p.
  unfold CreateSplitTransactionParameters, CreateSimpleTransactionParameters,
    IsSelfTx, GetMandatoryParameter, GetParameter.
  pose proof (accumulate_sum amountList 0) as Hsum.
  rewrite N.Div0.mod_0_l, N.add_0_l in Hsum.
  repeat split.
  - by simplify_map_eq.
  - by simplify_map_eq.
  - by simplify_map_eq.
  - rewrite lookup_insert_eq. simpl. by rewrite Hsum.
  - intros id Hid. rewrite !elem_of_cons in Hid.
    rewrite !lookup_insert_ne; [done|..]; intros <-; tauto.
  - by simplify_map_eq.
Qed.
End CreationFacts.

(** ** Runs of the further properties *)

Section MoreRuns.
Import Scenario.

Lemma known_peer_db_keyed : keyed known_peer_db.
Proof.
  intros w a Hw. unfold known_peer_db in Hw.
  apply lookup_singleton_Some in Hw as [<- <-]. reflexivity.
Qed.

(** Alice sends to Bob, whom she knows as "bob", with the comment
    "rent". *)
Lemma CheckAndCompleteParameters_frame_witness :
  let r := CheckAndCompleteParameters rent_params known_peer_db in
  keyed r.2 /\
  is_Some (getAddress bob r.2) /\
  (forall w, w <> bob -> getAddress w r.2 = getAddress w known_peer_db) /\
  (forall k, k <> TxParameterID.IsSelfTx ->
     <[TxParameterID.IsSelfTx := VBool false]> rent_params !! k
       = rent_params !! k).
Proof.
  intros r.
  apply (CheckAndCompleteParameters_frame rent_params
           (<[TxParameterID.IsSelfTx := VBool false]> rent_params)
           known_peer_db r.2 bob).
  - exact known_peer_db_keyed.
  - vm_compute. reflexivity.
  - vm_compute. reflexivity.
Defined.

Lemma CheckAndCompleteParameters_label_witness :
  let r := CheckAndCompleteParameters rent_params known_peer_db in
  m_label <$> getAddress bob r.2 = Some "rent"%string.
Proof.
  intros r.
  apply (CheckAndCompleteParameters_label rent_params
           (<[TxParameterID.IsSelfTx := VBool false]> rent_params)
           known_peer_db r.2 bob).
  - exact known_peer_db_keyed.
  - vm_compute. reflexivity.
  - vm_compute. reflexivity.
Defined.

Lemma CheckAndCompleteParameters_stable_witness :
  let r := CheckAndCompleteParameters rent_params known_peer_db in
  (CheckAndCompleteParameters rent_params r.2).2 = r.2.
Proof.
  intros r.
  apply (CheckAndCompleteParameters_stable rent_params
           (<[TxParameterID.IsSelfTx := VBool false]> rent_params)
           (<[TxParameterID.IsSelfTx := VBool false]> rent_params)
           known_peer_db r.2
           (CheckAndCompleteParameters rent_params r.2).2).
  - exact known_peer_db_keyed.
  - vm_compute. reflexivity.
  - vm_compute. reflexivity.
Defined.

Lemma UpdateImpl_registers_valid_witness :
  exists b,
    m_TxBuilder (UpdateImpl alice_env answered_tx).1.2 = Some b /\
    Transaction_IsValid (GetMinHeight b) the_transaction = true /\
    GetState (m_Params (UpdateImpl alice_env answered_tx).1.2)
      = State.Registration.
Proof.
  apply (UpdateImpl_registers_valid alice_env answered_tx the_transaction).
  vm_compute. constructor.
Defined.

Lemma UpdateImpl_self_sends_nothing_witness :
  Forall (fun e => is_send e = false /\ e <> EvUpdateOnNextTip)
    (UpdateImpl alice_env self_tx).2.
Proof.
  apply (UpdateImpl_self_sends_nothing alice_env self_tx true State.Initial
           (script false false true)).
  vm_compute. reflexivity.
Defined.

Lemma UpdateImpl_max_height_unacceptable_witness :
  (UpdateImpl alice_env late_tx).2
    = [EvOnFailed TxFailureReason.MaxHeightIsUnacceptable true].
Proof.
  pose (s1 := ((prepare true false State.Invitation ;; peer_excess_missing false)
                 (at_sign_kernel late_tx true State.Invitation late_script)).2).
  rewrite (UpdateImpl_max_height_unacceptable alice_env late_tx keeper
             true false State.Invitation late_script s1 s1).
  - reflexivity.
  - reflexivity.
  - vm_compute. reflexivity.
  - left. split; reflexivity.
  - vm_compute. reflexivity.
  - vm_compute. reflexivity.
Defined.

Lemma UpdateImpl_invalid_peer_signature_witness :
  (UpdateImpl alice_env bad_signature_tx).2
    = [EvOnFailed TxFailureReason.InvalidPeerSignature true].
Proof.
  pose (s1 := (negotiate alice_env true false State.Invitation
                 (at_sign_kernel bad_signature_tx true State.Invitation
                    (script false true false))).2).
  rewrite (UpdateImpl_invalid_peer_signature alice_env bad_signature_tx keeper
             true State.Invitation (script false true false) s1 s1).
  - reflexivity.
  - reflexivity.
  - vm_compute. reflexivity.
  - left. split; reflexivity.
  - vm_compute. reflexivity.
  - vm_compute. reflexivity.
  - vm_compute. reflexivity.
  - vm_compute. reflexivity.
Defined.

Lemma UpdateImpl_submission_witness :
  (UpdateImpl alice_env answered_tx).2 = [EvRegisterTx the_transaction].
Proof.
  pose (s1 := (kernel_stage alice_env true false State.Invitation
                 (entry answered_tx (script false true true))).2).
  rewrite (UpdateImpl_submission alice_env answered_tx
             true false State.Invitation (script false true true) s1).
  - vm_compute. reflexivity.
  - vm_compute. reflexivity.
  - vm_compute. reflexivity.
  - vm_compute. reflexivity.
Defined.

Lemma UpdateImpl_completes_witness :
  (UpdateImpl alice_env confirmed_tx).2
    = [EvSetCompletedTxCoinStatuses 120; EvCompleteTx].
Proof.
  pose (s1 := (kernel_stage alice_env true false State.Registration
                 (entry confirmed_tx (script true true true))).2).
  rewrite (UpdateImpl_completes alice_env confirmed_tx
             true false State.Registration (script true true true) s1 120).
  - reflexivity.
  - vm_compute. reflexivity.
  - vm_compute. reflexivity.
  - vm_compute. reflexivity.
  - vm_compute. reflexivity.
  - discriminate.
Defined.

Lemma UpdateImpl_no_resubmission_witness :
  List.filter is_outbound
    (UpdateImpl alice_env (registered_tx proto.TxStatus.LowFee)).2 = [] /\
  (UpdateImpl alice_env (registered_tx proto.TxStatus.LowFee)).2
    = [EvOnFailed TxFailureReason.FailedToRegister true].
Proof.
  pose (s1 := (kernel_stage alice_env true false State.Registration
                 (entry (registered_tx proto.TxStatus.LowFee)
                    (script true true true))).2).
  split.
  - apply (UpdateImpl_no_resubmission alice_env
             (registered_tx proto.TxStatus.LowFee)
             true false State.Registration (script true true true) s1
             proto.TxStatus.LowFee).
    + vm_compute. reflexivity.
    + vm_compute. reflexivity.
    + vm_compute. reflexivity.
  - vm_compute. reflexivity.
Defined.

(** The node answered InvalidContext and no unconfirmed height is
    recorded. *)
Lemma UpdateImpl_registration_verdict_witness :
  UpdateImpl alice_env (registered_tx proto.TxStatus.InvalidContext) =
    (Returned,
     {| m_Params :=
          <[TxParameterID.State := VState State.KernelConfirmation]>
            (m_Params (registered_tx proto.TxStatus.InvalidContext));
        m_TxBuilder := Some (script true true true) |},
     [EvConfirmKernel 77]).
Proof.
  refine (proj1 (UpdateImpl_registration_verdict alice_env
                   (registered_tx proto.TxStatus.InvalidContext)
                   true false State.Registration (script true true true)
                   {| params :=
                        m_Params (registered_tx proto.TxStatus.InvalidContext);
                      builder := script true true true; log := [] |}
                   proto.TxStatus.InvalidContext _ _ _));
    vm_compute; reflexivity.
Defined.

(** C2, as stated, fails twice.  After the verdict InvalidContext, with
    no unconfirmed height recorded, nothing is retried: [UpdateImpl] asks
    for the confirmation of the kernel, and so does the next entry on the
    record it has left; neither submits the transaction again nor asks to
    be entered on the next tip.  And after the verdict Ok, with a kernel
    proof height recorded, the record completes: its state does not
    become KernelConfirmation and no confirmation is asked for. *)
Lemma UpdateImpl_InvalidContext_counterexample :
  let first :=
    UpdateImpl alice_env (registered_tx proto.TxStatus.InvalidContext) in
  let second := UpdateImpl alice_env first.1.2 in
  first.2 = [EvConfirmKernel 77] /\
  second.2 = [EvConfirmKernel 77] /\
  GetParameter as_u8 TxParameterID.TransactionRegistered (m_Params second.1.2)
    = Some proto.TxStatus.InvalidContext /\
  (UpdateImpl alice_env confirmed_tx).2
    = [EvSetCompletedTxCoinStatuses 120; EvCompleteTx] /\
  GetState (m_Params (UpdateImpl alice_env confirmed_tx).1.2)
    = State.Registration.
Proof. repeat split; vm_compute; reflexivity. Qed.

(** Bob's answer carries a forged payment proof: the transaction is
    submitted. *)
Lemma UpdateImpl_no_payment_proof_check_witness :
  GetParameter as_sig TxParameterID.PaymentConfirmation (m_Params answered_tx)
    = Some forged /\
  UpdateImpl alice_env answered_tx =
    (Returned,
     {| m_Params :=
          <[TxParameterID.State := VState State.Registration]> answered_params;
        m_TxBuilder := Some (script false true true) |},
     [EvRegisterTx the_transaction]).
Proof.
  split; [vm_compute; reflexivity|].
  pose (s1 := (negotiate alice_env true false State.Invitation
                 (at_sign_kernel answered_tx true State.Invitation
                    (script false true true))).2).
  rewrite (proj1 (UpdateImpl_no_payment_proof_check alice_env answered_tx)
             keeper true State.Invitation (script false true true) s1 s1).
  - vm_compute. reflexivity.
  - reflexivity.
  - vm_compute. reflexivity.
  - left. split; reflexivity.
  - vm_compute. reflexivity.
  - vm_compute. reflexivity.
  - intros _. reflexivity.
  - vm_compute. reflexivity.
Defined.
Lemma UpdateImpl_messages_witness :
  let msg := Invitation_params (script false false false) true in
  msg !! TxParameterID.PeerProtoVersion = Some (VU32 s_ProtoVersion) /\
  (exists excess, msg !! TxParameterID.PeerPublicExcess = Some (VPoint excess)) /\
  (exists nonce, msg !! TxParameterID.PeerPublicNonce = Some (VPoint nonce)) /\
  msg !! TxParameterID.TransactionRegistered = None.
Proof.
  intros msg.
  apply (UpdateImpl_messages alice_env send_tx msg).
  vm_compute. constructor.
Defined.
End MoreRuns.

Section ThreadedRuns.
Import ThreadedPrivateKeyKeeper ThreadedRun.

Lemma ThreadedPrivateKeyKeeper_answers_in_order_witness :
  exists later,
    (serve InvokeSync 0 (requests after_two_requests)).1
      = calls after_two_requests ++ later.
Proof.
  apply (ThreadedPrivateKeyKeeper_answers_in_order InvokeSync 0 two_requests
           after_two_requests).
  vm_compute. reflexivity.
Defined.

Lemma ThreadedPrivateKeyKeeper_answers_all_witness :
  exists steps o',
    run InvokeSync (map Own steps) after_two_requests = Some o' /\
    at_rest InvokeSync o' /\
    calls o' = (serve InvokeSync 0 (requests after_two_requests)).1.
Proof.
  apply (ThreadedPrivateKeyKeeper_answers_all InvokeSync 0 two_requests
           after_two_requests).
  - vm_compute. reflexivity.
  - reflexivity.
Defined.

Lemma ThreadedPrivateKeyKeeper_destroyed_takes_nothing_witness :
  let o' := default destroyed (run InvokeSync after_destroyed destroyed) in
  m_Run o' = false /\ exists later, m_queIn o' = m_queIn destroyed ++ later.
Proof.
  intros o'.
  apply (ThreadedPrivateKeyKeeper_destroyed_takes_nothing InvokeSync
           after_destroyed destroyed o').
  - reflexivity.
  - vm_compute. reflexivity.
Defined.
End ThreadedRuns.
